(** * PubChemPy: a shallow embedding of [pubchempy.py] and its specification

    The development follows the layout of the Python module: decoded JSON
    values and the interpreter primitives the module relies on, the
    exception taxonomy, the request builder [request], the asynchronous
    wrapper [get], the convenience wrappers built on it, the property
    lookup [_parse_prop], and the entity classes [Compound], [Substance]
    and [Assay].  The theorems at the end state the properties of the
    specification over these definitions.

    Conventions.
    - A Python [str] or [bytes] value is a [string] holding its UTF-8
      bytes, so [s.encode('utf8')] and [b.decode()] are the identity.
    - Every Python value that flows through the module is a decoded JSON
      value ([json]); [None] is [JNull].
    - A dict is an association list in insertion order with distinct keys.
    - Code that touches the network runs in the monad [M]: a state holding
      the remote service and the chronological list of observable events,
      and a result that is a value, a raised exception, or [Diverge] when
      the polling loop was followed for [fuel] rounds without ending. *)

From Stdlib Require Import String Ascii List ZArith Lia Bool DecimalString.
From Stdlib Require Import Floats.PrimFloat Floats.SpecFloat Floats.FloatOps.
From stdpp Require Import base list.
Import ListNotations.

Local Open Scope string_scope.
Local Open Scope Z_scope.

(** ** Decoded JSON values *)

#[warnings="-register-all"]
Inductive json : Type :=
| JNull
| JBool (b : bool)
| JInt (n : Z)
| JFloat (f : float)
| JStr (s : string)
| JArr (items : list json)
| JObj (members : list (string * json)).

Definition dict : Type := list (string * json).

(** [d.get(k)]. *)
Fixpoint dict_get {V} (k : string) (d : list (string * V)) : option V :=
  match d with
  | [] => None
  | (k', v) :: d' => if String.eqb k k' then Some v else dict_get k d'
  end.

(** [k in d]. *)
Definition dict_has {V} (k : string) (d : list (string * V)) : bool :=
  match dict_get k d with Some _ => true | None => false end.

(** [d[k] = v]: an existing key keeps its position, a new key goes last. *)
Fixpoint dict_set {V} (k : string) (v : V) (d : list (string * V))
    : list (string * V) :=
  match d with
  | [] => [(k, v)]
  | (k', v') :: d' =>
      if String.eqb k k' then (k, v) :: d' else (k', v') :: dict_set k v d'
  end.

(** [dict(pairs)]. *)
Definition dict_of_pairs {V} (pairs : list (string * V)) : list (string * V) :=
  fold_left (fun d kv => dict_set (fst kv) (snd kv) d) pairs [].

Definition dict_keys {V} (d : list (string * V)) : list string := map fst d.

(** ** Exceptions *)

Inductive exc : Type :=
| PubChemHTTPError (code : Z) (msg : string)
| BadRequestError (msg : string)
| NotFoundError (msg : string)
| MethodNotAllowedError (msg : string)
| TimeoutError (msg : string)
| UnimplementedError (msg : string)
| ServerError (msg : string)
| KeyError (key : json)
| IndexError
| TypeError
| ValueError
| AttributeError (name : string)
| URLError (reason : string).

Inductive result (A : Type) : Type :=
| Return (a : A)
| Raise (e : exc)
| Diverge.
Arguments Return {A} a.
Arguments Raise {A} e.
Arguments Diverge {A}.

Definition rbind {A B} (r : result A) (k : A -> result B) : result B :=
  match r with
  | Return a => k a
  | Raise e => Raise e
  | Diverge => Diverge
  end.

Declare Scope result_scope.
Delimit Scope result_scope with result.
Notation "'let*' x ':=' r 'in' k" := (rbind r (fun x => k))
  (at level 10, x name, r at level 100, k at level 200) : result_scope.
Local Open Scope result_scope.

(** ** Interpreter primitives on decoded values *)

Definition str_of_int (n : Z) : string := NilZero.string_of_int (Z.to_int n).

Definition py_truthy (v : json) : bool :=
  match v with
  | JNull => false
  | JBool b => b
  | JInt n => negb (n =? 0)
  | JFloat f => negb (PrimFloat.eqb f 0%float)
  | JStr s => negb (String.eqb s "")
  | JArr l => match l with [] => false | _ => true end
  | JObj m => match m with [] => false | _ => true end
  end.

Definition opt_truthy (o : option string) : bool :=
  match o with
  | Some s => negb (String.eqb s "")
  | None => false
  end.

Definition is_substring (needle hay : string) : bool :=
  match index 0 needle hay with Some _ => true | None => false end.

Definition is_JStr (s : string) (v : json) : bool :=
  match v with JStr t => String.eqb s t | _ => false end.

(** [k in v] for a string [k]: key membership on a dict, element
    membership on a list, substring test on a string, [TypeError] on the
    values that are not containers. *)
Definition py_contains (k : string) (v : json) : result bool :=
  match v with
  | JObj m => Return (dict_has k m)
  | JArr l => Return (existsb (is_JStr k) l)
  | JStr s => Return (is_substring k s)
  | _ => Raise TypeError
  end.

(** [v[k]] for a string [k]. *)
Definition py_getitem (v : json) (k : string) : result json :=
  match v with
  | JObj m => match dict_get k m with
              | Some x => Return x
              | None => Raise (KeyError (JStr k))
              end
  | _ => Raise TypeError
  end.

(** The position a Python index denotes in a sequence of length [n]:
    negative indices count from the end. *)
Definition seq_position (n : nat) (i : Z) : option nat :=
  if (0 <=? i) && (i <? Z.of_nat n) then Some (Z.to_nat i)
  else if (i <? 0) && (- Z.of_nat n <=? i) then Some (Z.to_nat (Z.of_nat n + i))
  else None.

(** The characters of a string, one string each (for ASCII text, where
    bytes and characters coincide). *)
Definition string_chars (s : string) : list json :=
  map (fun c => JStr (String c EmptyString)) (list_ascii_of_string s).

(** [v[i]] for an integer [i]. *)
Definition py_getitem_int (v : json) (i : Z) : result json :=
  match v with
  | JArr l => match seq_position (length l) i with
              | Some p => match l !! p with
                          | Some x => Return x
                          | None => Raise IndexError
                          end
              | None => Raise IndexError
              end
  | JStr s => match seq_position (String.length s) i with
              | Some p => match string_chars s !! p with
                          | Some x => Return x
                          | None => Raise IndexError
                          end
              | None => Raise IndexError
              end
  | JObj _ => Raise (KeyError (JInt i))
  | _ => Raise TypeError
  end.

(** [iter(v)]: what a [for] loop over [v] visits. *)
Definition py_iter (v : json) : result (list json) :=
  match v with
  | JArr l => Return l
  | JStr s => Return (string_chars s)
  | JObj m => Return (map JStr (dict_keys m))
  | _ => Raise TypeError
  end.

Fixpoint join (sep : string) (parts : list string) : string :=
  match parts with
  | [] => ""
  | [p] => p
  | p :: rest => p ++ sep ++ join sep rest
  end.

(** [s.replace(old, new)] for single characters. *)
Fixpoint replace_char (old new : ascii) (s : string) : string :=
  match s with
  | EmptyString => EmptyString
  | String c s' =>
      String (if Ascii.eqb c old then new else c) (replace_char old new s')
  end.

(** ** Percent-encoding ([urllib.parse]) *)

Definition in_range (lo hi : nat) (c : ascii) : bool :=
  (lo <=? nat_of_ascii c)%nat && (nat_of_ascii c <=? hi)%nat.

(** The bytes [quote] never escapes: letters, digits and [_.-~] (the
    tilde since Python 3.7). *)
Definition always_safe (c : ascii) : bool :=
  in_range 65 90 c || in_range 97 122 c || in_range 48 57 c
  || Ascii.eqb c "_" || Ascii.eqb c "." || Ascii.eqb c "-" || Ascii.eqb c "~".

Definition hex_digit (n : nat) : ascii :=
  nth n (list_ascii_of_string "0123456789ABCDEF") "0"%char.

Definition percent (c : ascii) : string :=
  String "%" (String (hex_digit (nat_of_ascii c / 16))
             (String (hex_digit (nat_of_ascii c mod 16)) EmptyString)).

Fixpoint quote_from_bytes (safe : list ascii) (bs : string) : string :=
  match bs with
  | EmptyString => EmptyString
  | String c bs' =>
      (if always_safe c || existsb (Ascii.eqb c) safe
       then String c EmptyString else percent c)
      ++ quote_from_bytes safe bs'
  end.

(** [quote(bs)], with the default [safe='/']. *)
Definition quote (bs : string) : string := quote_from_bytes ["/"%char] bs.

(** [quote_plus(s)]: nothing extra is safe and a space becomes [+]. *)
Definition quote_plus (s : string) : string :=
  if existsb (Ascii.eqb " ") (list_ascii_of_string s)
  then replace_char " " "+" (quote_from_bytes [" "%char] s)
  else quote_from_bytes [] s.

(** ** The transport and the events the module produces *)

(** What [urlopen(url, data).read()] comes back with: the payload, an
    [HTTPError] carrying status code, reason and body, or a failure below
    HTTP, which surfaces as [URLError]. *)
Inductive reply : Type :=
| Response (payload : string)
| HTTPError (code : Z) (reason : string) (body : string)
| Unreachable (reason : string).

Inductive event : Type :=
| Sent (url : string) (data : option string)
| Slept (seconds : Z)
| Debug (fmt : string) (arg : option string)
| Info (e : exc).

Definition API_BASE : string := "https://pubchem.ncbi.nlm.nih.gov/rest/pug".

Definition opt_is (o : option string) (s : string) : bool :=
  match o with Some t => String.eqb t s | None => false end.

(** [filter(None, comps)]: drops [None] and the empty string. *)
Definition filter_none (comps : list (option string)) : list string :=
  flat_map (fun c => match c with
                     | Some s => if String.eqb s "" then [] else [s]
                     | None => []
                     end) comps.

(** ** A scripted service and a small decoder

    The model is parametric in the transport and in the JSON codec.  To
    run it on examples, [Script] provides a service that answers the
    requests it receives with a prepared list of replies, and a decoder
    for the JSON documents written without escapes, fractions and
    exponents. *)

Module Script.

Definition World : Type := list reply.

Definition urlopen (url : string) (data : option string) (w : World) : reply * World :=
  match w with
  | r :: w' => (r, w')
  | [] => (Unreachable "no reply prepared", [])
  end.

Definition repr (v : json) : string := "<repr>".

Inductive token : Type :=
| LBrace | RBrace | LBracket | RBracket | Colon | Comma
| Str (s : string)
| Num (n : Z)
| Word (w : string).

Definition quote_mark : ascii := ascii_of_nat 34.

(** JSON text written with apostrophes where the quotation marks go. *)
Definition text (s : string) : string := replace_char "'" quote_mark s.

Definition is_digit (c : ascii) : bool := in_range 48 57 c.
Definition is_letter (c : ascii) : bool := in_range 97 122 c.
Definition is_space (c : ascii) : bool :=
  Ascii.eqb c " " || (nat_of_ascii c =? 10)%nat || (nat_of_ascii c =? 13)%nat
  || (nat_of_ascii c =? 9)%nat.

(** The characters up to the closing quotation mark, and what follows. *)
Fixpoint string_body (cs : list ascii) : option (string * list ascii) :=
  match cs with
  | [] => None
  | c :: cs' =>
      if Ascii.eqb c quote_mark then Some (EmptyString, cs')
      else if Ascii.eqb c "\" then None
      else match string_body cs' with
           | Some (s, rest) => Some (String c s, rest)
           | None => None
           end
  end.

Fixpoint span (p : ascii -> bool) (cs : list ascii) : list ascii * list ascii :=
  match cs with
  | c :: cs' => if p c then let (a, b) := span p cs' in (c :: a, b) else ([], cs)
  | [] => ([], [])
  end.

Definition digits_value (ds : list ascii) : Z :=
  fold_left (fun acc d => 10 * acc + Z.of_nat (nat_of_ascii d - 48)) ds 0.

Definition unsupported_after_number (rest : list ascii) : bool :=
  match rest with
  | c :: _ => Ascii.eqb c "." || Ascii.eqb c "e" || Ascii.eqb c "E"
  | [] => false
  end.

Fixpoint lex (n : nat) (cs : list ascii) : option (list token) :=
  match n with
  | O => match cs with [] => Some [] | _ => None end
  | S n' =>
      match cs with
      | [] => Some []
      | c :: cs' =>
          let punct t := option_map (cons t) (lex n' cs') in
          if is_space c then lex n' cs'
          else if Ascii.eqb c "{" then punct LBrace
          else if Ascii.eqb c "}" then punct RBrace
          else if Ascii.eqb c "[" then punct LBracket
          else if Ascii.eqb c "]" then punct RBracket
          else if Ascii.eqb c ":" then punct Colon
          else if Ascii.eqb c "," then punct Comma
          else if Ascii.eqb c quote_mark then
            match string_body cs' with
            | Some (s, rest) => option_map (cons (Str s)) (lex n' rest)
            | None => None
            end
          else if is_digit c then
            let (ds, rest) := span is_digit cs in
            if unsupported_after_number rest then None
            else option_map (cons (Num (digits_value ds))) (lex n' rest)
          else if Ascii.eqb c "-" then
            let (ds, rest) := span is_digit cs' in
            match ds with
            | [] => None
            | _ => if unsupported_after_number rest then None
                   else option_map (cons (Num (- digits_value ds))) (lex n' rest)
            end
          else if is_letter c then
            let (w, rest) := span is_letter cs in
            option_map (cons (Word (string_of_list_ascii w))) (lex n' rest)
          else None
      end
  end.

Fixpoint value (n : nat) (ts : list token) : option (json * list token) :=
  match n with
  | O => None
  | S n' =>
      match ts with
      | Str s :: rest => Some (JStr s, rest)
      | Num z :: rest => Some (JInt z, rest)
      | Word w :: rest =>
          if String.eqb w "true" then Some (JBool true, rest)
          else if String.eqb w "false" then Some (JBool false, rest)
          else if String.eqb w "null" then Some (JNull, rest)
          else None
      | LBracket :: RBracket :: rest => Some (JArr [], rest)
      | LBracket :: rest =>
          match elements n' rest with
          | Some (items, rest') => Some (JArr items, rest')
          | None => None
          end
      | LBrace :: RBrace :: rest => Some (JObj [], rest)
      | LBrace :: rest =>
          match members n' rest [] with
          | Some (m, rest') => Some (JObj m, rest')
          | None => None
          end
      | _ => None
      end
  end
with elements (n : nat) (ts : list token) : option (list json * list token) :=
  match n with
  | O => None
  | S n' =>
      match value n' ts with
      | Some (v, Comma :: rest) =>
          match elements n' rest with
          | Some (vs, rest') => Some (v :: vs, rest')
          | None => None
          end
      | Some (v, RBracket :: rest) => Some ([v], rest)
      | _ => None
      end
  end
with members (n : nat) (ts : list token) (acc : dict) : option (dict * list token) :=
  match n with
  | O => None
  | S n' =>
      match ts with
      | Str k :: Colon :: rest =>
          match value n' rest with
          | Some (v, Comma :: rest') => members n' rest' (dict_set k v acc)
          | Some (v, RBrace :: rest') => Some (dict_set k v acc, rest')
          | _ => None
          end
      | _ => None
      end
  end.

Definition loads (s : string) : option json :=
  match lex (String.length s) (list_ascii_of_string s) with
  | Some ts =>
      match value (S (length ts)) ts with
      | Some (v, []) => Some v
      | _ => None
      end
  | None => None
  end.

End Script.

Section Service.

(** The remote service is a state machine behind [urlopen]; [json_loads]
    is the JSON codec ([None] stands for the [ValueError] of a payload that
    does not decode); [py_repr] is the interpreter's [str()] on floats,
    lists and dicts; [fuel] bounds the rounds of the polling loop the model
    follows. *)
Variable World : Type.
Variable urlopen : string -> option string -> World -> reply * World.
Variable json_loads : string -> option json.
Variable py_repr : json -> string.
Variable fuel : nat.

(** [str(v)], also what ['%s' % v] prints. *)
Definition py_str (v : json) : string :=
  match v with
  | JNull => "None"
  | JBool true => "True"
  | JBool false => "False"
  | JInt n => str_of_int n
  | JStr s => s
  | other => py_repr other
  end.

Definition opt_str (o : option string) : string :=
  match o with Some s => s | None => "None" end.

(** [urlencode(kwargs)]. *)
Definition urlencode (kwargs : dict) : string :=
  join "&" (map (fun kv => quote_plus (fst kv) ++ "=" ++ quote_plus (py_str (snd kv)))
                kwargs).

Record state : Type := { service : World; events : list event }.

Definition M (A : Type) : Type := state -> result A * state.

Definition ret {A} (a : A) : M A := fun st => (Return a, st).

Definition raise {A} (e : exc) : M A := fun st => (Raise e, st).

Definition diverge {A} : M A := fun st => (Diverge, st).

Definition lift {A} (r : result A) : M A := fun st => (r, st).

Definition bind {A B} (m : M A) (k : A -> M B) : M B :=
  fun st =>
    match m st with
    | (Return a, st') => k a st'
    | (Raise e, st') => (Raise e, st')
    | (Diverge, st') => (Diverge, st')
    end.

Definition emit (ev : event) : M unit :=
  fun st => (Return tt, {| service := service st; events := events st ++ [ev] |}).

(** [urlopen(url, data).read()] against the service. *)
Definition send (url : string) (data : option string) : M reply :=
  fun st =>
    let (r, w) := urlopen url data (service st) in
    (Return r, {| service := w; events := events st ++ [Sent url data] |}).

(** [try: m  except <the exceptions handler answers>: ...]. *)
Definition try_except {A} (m : M A) (handler : exc -> option (M A)) : M A :=
  fun st =>
    match m st with
    | (Raise e, st') =>
        match handler e with
        | Some h => h st'
        | None => (Raise e, st')
        end
    | other => other
    end.

Declare Scope M_scope.
Delimit Scope M_scope with M.
Notation "'let!' x ':=' m 'in' k" := (bind m (fun x => k))
  (at level 10, x name, m at level 100, k at level 200) : M_scope.
Notation "m ';;' k" := (bind m (fun _ => k))
  (at level 100, k at level 200, right associativity) : M_scope.
Local Open Scope M_scope.

(** ** Error classification: [PubChemHTTPError.__init__] *)

(** [json.load(e)['Fault']['Details'][0]]. *)
Definition fault_detail (body : string) : result json :=
  match json_loads body with
  | None => Raise ValueError
  | Some doc =>
      let* fault := py_getitem doc "Fault" in
      let* details := py_getitem fault "Details" in
      py_getitem_int details 0
  end.

(** The message after the [try ... except (ValueError, IndexError,
    KeyError): pass] block. *)
Definition error_message (reason body : string) : result string :=
  match fault_detail body with
  | Return d => Return (reason ++ ": " ++ py_str d)
  | Raise ValueError | Raise IndexError | Raise (KeyError _) => Return reason
  | Raise e => Raise e
  | Diverge => Diverge
  end.

(** The constructor either raises one of the specific errors or returns
    the generic instance, which the caller then raises. *)
Definition PubChemHTTPError_init (code : Z) (reason body : string) : result exc :=
  let* msg := error_message reason body in
  if code =? 400 then Raise (BadRequestError msg)
  else if code =? 404 then Raise (NotFoundError msg)
  else if code =? 405 then Raise (MethodNotAllowedError msg)
  else if code =? 504 then Raise (TimeoutError msg)
  else if code =? 501 then Raise (UnimplementedError msg)
  else if code =? 500 then Raise (ServerError msg)
  else Return (PubChemHTTPError code msg).

(** ** The request builder: [request] *)

Definition normalize_identifier (identifier : json) : result string :=
  match identifier with
  | JInt n => Return (str_of_int n)
  | JBool b => Return (py_str (JBool b))
  | JStr s => Return s
  | other => let* xs := py_iter other in Return (join "," (map py_str xs))
  end.

(** The test that sends the identifier into the URL path. *)
Definition in_url_path (namespace domain searchtype : option string) : bool :=
  opt_is namespace "listkey" || opt_is namespace "formula"
  || opt_is namespace "sourceid"
  || (opt_truthy searchtype && opt_is namespace "cid")
  || opt_is domain "sources".

Record built : Type :=
  { urlid : option string; postdata : option string; apiurl : string }.

(** The part of [request] between identifier normalization and the call
    of [urlopen]. *)
Definition build (identifier : string)
    (namespace domain operation output searchtype : option string)
    (kwargs : dict) : built :=
  let kwargs := List.filter (fun kv => match snd kv with JNull => false | _ => true end)
                            kwargs in
  let identifier := if opt_is namespace "sourceid"
                    then replace_char "/" "." identifier else identifier in
  let urlid := if in_url_path namespace domain searchtype
               then Some (quote identifier) else None in
  let postdata := if in_url_path namespace domain searchtype
                  then None
                  else Some (opt_str namespace ++ "=" ++ quote identifier) in
  let comps := filter_none [Some API_BASE; domain; searchtype; namespace;
                            urlid; operation; output] in
  let apiurl := join "/" comps in
  let apiurl := match kwargs with
                | [] => apiurl
                | _ => apiurl ++ "?" ++ urlencode kwargs
                end in
  {| urlid := urlid; postdata := postdata; apiurl := apiurl |}.

Definition request (identifier : json)
    (namespace domain operation output searchtype : option string)
    (kwargs : dict) : M string :=
  let! identifier := lift (normalize_identifier identifier) in
  let b := build identifier namespace domain operation output searchtype kwargs in
  emit (Debug "Request URL: %s" (Some (apiurl b)));;
  emit (Debug "Request data: %s" (postdata b));;
  let! r := send (apiurl b) (postdata b) in
  match r with
  | Response payload => ret payload
  | HTTPError code reason body =>
      let! e := lift (PubChemHTTPError_init code reason body) in raise e
  | Unreachable reason => raise (URLError reason)
  end.

(** ** The asynchronous wrapper: [get] *)

(** [json.loads(response.decode())]. *)
Definition loads (response : string) : M json :=
  match json_loads response with
  | Some v => ret v
  | None => raise ValueError
  end.

(** ['Waiting' in status and 'ListKey' in status['Waiting']]. *)
Definition is_waiting (status : json) : result bool :=
  let* w := py_contains "Waiting" status in
  if w then let* inner := py_getitem status "Waiting" in py_contains "ListKey" inner
  else Return false.

(** The [while] loop of [get], followed for at most [n] rounds. *)
Fixpoint poll (n : nat) (identifier : json) (domain operation : option string)
    (kwargs : dict) (response : string) (status : json) : M string :=
  let! w := lift (is_waiting status) in
  if w then
    match n with
    | O => diverge
    | S n' =>
        emit (Slept 2);;
        let! response := request identifier (Some "listkey") domain operation
                                 (Some "JSON") None kwargs in
        let! status := loads response in
        poll n' identifier domain operation kwargs response status
    end
  else ret response.

Definition get (identifier : json)
    (namespace domain operation output searchtype : option string)
    (kwargs : dict) : M string :=
  if opt_truthy searchtype || opt_is namespace "formula" then
    let! response := request identifier namespace domain None (Some "JSON")
                             searchtype kwargs in
    let! status := loads response in
    let! w := lift (is_waiting status) in
    if w then
      let! waiting := lift (py_getitem status "Waiting") in
      let! identifier := lift (py_getitem waiting "ListKey") in
      let namespace := Some "listkey" in
      let! response := poll fuel identifier domain operation kwargs response status in
      if negb (opt_is output "JSON")
      then request identifier namespace domain operation output searchtype kwargs
      else ret response
    else ret response
  else request identifier namespace domain operation output searchtype kwargs.

(** ** [get_json] *)

Definition get_json (identifier : json)
    (namespace domain operation searchtype : option string)
    (kwargs : dict) : M json :=
  try_except
    (let! response := get identifier namespace domain operation (Some "JSON")
                          searchtype kwargs in
     loads response)
    (fun e => match e with
              | NotFoundError _ => Some (emit (Info e);; ret JNull)
              | _ => None
              end).

(** ** Helpers for walking a decoded record *)

Inductive key : Type :=
| K (name : string)
| I (index : Z).

(** [v[k1][k2]...]. *)
Fixpoint subscript (v : json) (path : list key) : result json :=
  match path with
  | [] => Return v
  | K name :: rest => let* x := py_getitem v name in subscript x rest
  | I index :: rest => let* x := py_getitem_int v index in subscript x rest
  end.

(** [a and b] on conditions that may raise. *)
Definition py_and (a b : result bool) : result bool :=
  let* x := a in if x then b else Return false.

Fixpoint mapR {A B} (f : A -> result B) (l : list A) : result (list B) :=
  match l with
  | [] => Return []
  | a :: l' => let* b := f a in let* bs := mapR f l' in Return (b :: bs)
  end.

Fixpoint foldR {A B} (f : B -> A -> result B) (l : list A) (b : B) : result B :=
  match l with
  | [] => Return b
  | a :: l' => let* b' := f b a in foldR f l' b'
  end.

(** The exact comparison Python makes between a float and an int. *)
Definition float_eq_int (f : float) (n : Z) : bool :=
  match Prim2SF f with
  | S754_zero _ => n =? 0
  | S754_finite s m e =>
      let v := if s then Z.neg m else Z.pos m in
      if 0 <=? e then n =? v * 2 ^ e else n * 2 ^ (- e) =? v
  | _ => false
  end.

(** [a == b] on decoded values: booleans count as the integers 0 and 1,
    numbers compare by value, dicts compare as mappings. *)
Fixpoint py_eqb (a b : json) {struct a} : bool :=
  match a, b with
  | JNull, JNull => true
  | JStr s, JStr t => String.eqb s t
  | JBool x, JBool y => Bool.eqb x y
  | JBool x, JInt n => (if x then 1 else 0) =? n
  | JBool x, JFloat f => float_eq_int f (if x then 1 else 0)
  | JInt n, JBool y => n =? (if y then 1 else 0)
  | JInt n, JInt m => n =? m
  | JInt n, JFloat f => float_eq_int f n
  | JFloat f, JBool y => float_eq_int f (if y then 1 else 0)
  | JFloat f, JInt n => float_eq_int f n
  | JFloat f, JFloat g => PrimFloat.eqb f g
  | JArr xs, JArr ys =>
      (fix all2 (xs ys : list json) {struct xs} : bool :=
         match xs, ys with
         | [], [] => true
         | x :: xs', y :: ys' => py_eqb x y && all2 xs' ys'
         | _, _ => false
         end) xs ys
  | JObj m, JObj m' =>
      (length m =? length m')%nat
      && (fix each (m : list (string * json)) : bool :=
            match m with
            | [] => true
            | (k, v) :: rest =>
                match dict_get k m' with
                | Some w => py_eqb v w
                | None => false
                end && each rest
            end) m
  | _, _ => false
  end.

(** [zip] over the unpacked columns: their rows, as many as the shortest
    column has entries; no column, no row. *)
Definition heads {A} (cols : list (list A)) : option (list A) :=
  fold_right (fun c acc => match c, acc with
                           | x :: _, Some row => Some (x :: row)
                           | _, _ => None
                           end) (Some []) cols.

Fixpoint zip_rows {A} (n : nat) (cols : list (list A)) : list (list A) :=
  match n with
  | O => []
  | S n' => match heads cols with
            | Some row => row :: zip_rows n' (map (@tail A) cols)
            | None => []
            end
  end.

Definition zip_star {A} (cols : list (list A)) : list (list A) :=
  match cols with
  | [] => []
  | c :: _ => zip_rows (length c) cols
  end.

(** [[[(k, v) for v in value] for k, value in a.items()]]. *)
Definition columns (a : dict) : result (list (list (string * json))) :=
  mapR (fun kv => let* vs := py_iter (snd kv) in Return (map (pair (fst kv)) vs)) a.

(** A value used as a list index. *)
Definition as_index (v : json) : result Z :=
  match v with
  | JInt n => Return n
  | JBool b => Return (if b then 1 else 0)
  | _ => Raise TypeError
  end.

(** ** The property lookup: [_parse_prop] *)

(** [(k, v) in urn.items()]. *)
Definition item_in (urn : dict) (item : string * string) : bool :=
  match dict_get (fst item) urn with
  | Some x => is_JStr (snd item) x
  | None => false
  end.

(** [all(item in i['urn'].items() for item in search.items())]: with an
    empty filter the entry is not looked at. *)
Definition urn_matches (search : list (string * string)) (i : json) : result bool :=
  match search with
  | [] => Return true
  | _ =>
      let* urn := py_getitem i "urn" in
      match urn with
      | JObj tags => Return (forallb (item_in tags) search)
      | _ => Raise (AttributeError "items")
      end
  end.

Fixpoint filterR {A} (f : A -> result bool) (l : list A) : result (list A) :=
  match l with
  | [] => Return []
  | a :: l' =>
      let* keep := f a in
      let* rest := filterR f l' in
      Return (if keep then a :: rest else rest)
  end.

Definition _parse_prop (search : list (string * string)) (proplist : json)
    : result json :=
  let* entries := py_iter proplist in
  let* props := filterR (urn_matches search) entries in
  match props with
  | [] => Return JNull
  | first :: _ =>
      let* value := py_getitem first "value" in
      match value with
      | JObj kinds =>
          match dict_keys kinds with
          | [] => Raise IndexError
          | kind :: _ => py_getitem value kind
          end
      | _ => Raise (AttributeError "keys")
      end
  end.

(** ** [Compound] *)

(** An instance: the record it was built from and the attributes that
    [memoized_property] has set on it since. *)
Record Compound : Type := mkCompound { Compound_record : json; Compound_memo : dict }.

Definition conformer : list key := [K "coords"; I 0; K "conformers"; I 0].

Definition Compound_cid (self : Compound) : result json :=
  let record := Compound_record self in
  let* present :=
    py_and (py_contains "id" record)
      (py_and (let* a := subscript record [K "id"] in py_contains "id" a)
              (let* b := subscript record [K "id"; K "id"] in py_contains "cid" b)) in
  if present then subscript record [K "id"; K "id"; K "cid"] else Return JNull.

Definition Compound_elements (self : Compound) : result json :=
  subscript (Compound_record self) [K "atoms"; K "element"].

(** [atomlist[charge['aid']]['charge'] = charge['value']]. *)
Definition set_charge (atomlist : list dict) (charge : json) : result (list dict) :=
  let* value := py_getitem charge "value" in
  let* aid := py_getitem charge "aid" in
  let* i := as_index aid in
  match seq_position (length atomlist) i with
  | Some p =>
      match atomlist !! p with
      | Some atom => Return (<[p := dict_set "charge" value atom]> atomlist)
      | None => Raise IndexError
      end
  | None => Raise IndexError
  end.

Definition Compound_atoms (self : Compound) : result json :=
  let record := Compound_record self in
  let* x := subscript record (conformer ++ [K "x"]) in
  let* y := subscript record (conformer ++ [K "y"]) in
  let* element := subscript record [K "atoms"; K "element"] in
  let a := [("x", x); ("y", y); ("element", element)] in
  let* conf := subscript record conformer in
  let* has_z := py_contains "z" conf in
  let* a := if has_z
            then let* z := subscript record (conformer ++ [K "z"]) in
                 Return (dict_set "z" z a)
            else Return a in
  let* cols := columns a in
  let atomlist := map dict_of_pairs (zip_star cols) in
  let* atoms := subscript record [K "atoms"] in
  let* has_charge := py_contains "charge" atoms in
  if has_charge then
    let* charges := subscript record [K "atoms"; K "charge"] in
    let* charges := py_iter charges in
    let* atomlist := foldR set_charge charges atomlist in
    Return (JArr (map JObj atomlist))
  else Return (JArr (map JObj atomlist)).

(** The position of the first bond whose values hold both atom ids. *)
Fixpoint first_bond (aid1 aid2 : json) (blist : list dict) : option nat :=
  match blist with
  | [] => None
  | b :: rest =>
      if existsb (py_eqb aid1) (map snd b) && existsb (py_eqb aid2) (map snd b)
      then Some O
      else option_map S (first_bond aid1 aid2 rest)
  end.

(** One round of the loop over [enumerate(style['annotation'])]. *)
Definition set_style (style : json) (state : Z * list dict) (annotation : json)
    : result (Z * list dict) :=
  let (i, blist) := state in
  match blist with
  | [] => Raise IndexError
  | _ =>
      let* aid1 := subscript style [K "aid1"; I i] in
      let* aid2 := subscript style [K "aid2"; I i] in
      match first_bond aid1 aid2 blist with
      | Some p =>
          match blist !! p with
          | Some bond => Return (i + 1, <[p := dict_set "style" annotation bond]> blist)
          | None => Raise IndexError
          end
      | None => Raise IndexError
      end
  end.

Definition Compound_bonds (self : Compound) : result json :=
  let record := Compound_record self in
  let* bonds := py_getitem record "bonds" in
  let* items := match bonds with
                | JObj m => Return m
                | _ => Raise (AttributeError "items")
                end in
  let* cols := columns items in
  let blist := map dict_of_pairs (zip_star cols) in
  let* conf := subscript record conformer in
  let* has_style := py_contains "style" conf in
  if has_style then
    let* style := subscript record (conformer ++ [K "style"]) in
    let* annotations := py_getitem style "annotation" in
    let* annotations := py_iter annotations in
    let* final := foldR (set_style style) annotations (0, blist) in
    Return (JArr (map JObj (snd final)))
  else Return (JArr (map JObj blist)).

(** The answer of an identifier-list operation as the memoized accessors
    read it. *)
Definition first_information (field : string) (results : json) : result json :=
  if py_truthy results
  then subscript results [K "InformationList"; K "Information"; I 0; K field]
  else Return (JArr []).

(** The body of a memoized accessor of [Compound]:
    [get_json(self.cid, operation=...)] behind the guard [if self.cid]. *)
Definition Compound_fetch (operation field : string) (self : Compound) : M json :=
  let! cid := lift (Compound_cid self) in
  if py_truthy cid then
    let! cid := lift (Compound_cid self) in
    let! results := get_json cid (Some "cid") (Some "compound") (Some operation)
                             None [] in
    lift (first_information field results)
  else ret JNull.

Definition synonyms_fget : Compound -> M json := Compound_fetch "synonyms" "Synonym".
Definition sids_fget : Compound -> M json := Compound_fetch "sids" "SID".
Definition aids_fget : Compound -> M json := Compound_fetch "aids" "AID".

Definition Compound_coordinate_type (self : Compound) : result json :=
  let record := Compound_record self in
  let* t := subscript record [K "coords"; I 0; K "type"] in
  let* twod := py_contains "twod" t in
  if twod then Return (JStr "2d")
  else
    let* t := subscript record [K "coords"; I 0; K "type"] in
    let* threed := py_contains "threed" t in
    if threed then Return (JStr "3d") else Return JNull.

Definition Compound_charge (self : Compound) : result json :=
  let record := Compound_record self in
  let* present := py_contains "charge" record in
  if present then py_getitem record "charge" else Return JNull.

(** The accessors that look a tag filter up in [record['props']]. *)
Definition props_lookup (search : list (string * string)) (self : Compound)
    : result json :=
  let* props := py_getitem (Compound_record self) "props" in
  _parse_prop search props.

Definition Compound_molecular_formula : Compound -> result json :=
  props_lookup [("label", "Molecular Formula")].

Definition Compound_molecular_weight : Compound -> result json :=
  props_lookup [("label", "Molecular Weight")].

Definition Compound_canonical_smiles : Compound -> result json :=
  props_lookup [("label", "SMILES"); ("name", "Canonical")].

Definition Compound_isomeric_smiles : Compound -> result json :=
  props_lookup [("label", "SMILES"); ("name", "Isomeric")].

Definition Compound_inchi : Compound -> result json :=
  props_lookup [("label", "InChI"); ("name", "Standard")].

Definition Compound_inchikey : Compound -> result json :=
  props_lookup [("label", "InChIKey"); ("name", "Standard")].

Definition Compound_iupac_name : Compound -> result json :=
  props_lookup [("label", "IUPAC Name"); ("name", "Preferred")].

Definition Compound_xlogp : Compound -> result json :=
  props_lookup [("label", "Log P")].

Definition Compound_exact_mass : Compound -> result json :=
  props_lookup [("label", "Mass"); ("name", "Exact")].

Definition Compound_monoisotopic_mass : Compound -> result json :=
  props_lookup [("label", "Weight"); ("name", "MonoIsotopic")].

Definition Compound_tpsa : Compound -> result json :=
  props_lookup [("implementation", "E_TPSA")].

Definition Compound_complexity : Compound -> result json :=
  props_lookup [("implementation", "E_COMPLEXITY")].

Definition Compound_h_bond_donor_count : Compound -> result json :=
  props_lookup [("implementation", "E_NHDONORS")].

Definition Compound_h_bond_acceptor_count : Compound -> result json :=
  props_lookup [("implementation", "E_NHACCEPTORS")].

Definition Compound_rotatable_bond_count : Compound -> result json :=
  props_lookup [("implementation", "E_NROTBONDS")].

Definition Compound_fingerprint : Compound -> result json :=
  props_lookup [("implementation", "E_SCREEN")].

(** The accessors that read one counter of [record['count']]. *)
Definition count_lookup (name : string) (self : Compound) : result json :=
  let record := Compound_record self in
  let* present :=
    py_and (py_contains "count" record)
           (let* c := py_getitem record "count" in py_contains name c) in
  if present then subscript record [K "count"; K name] else Return JNull.

Definition Compound_heavy_atom_count : Compound -> result json :=
  count_lookup "heavy_atom".

Definition Compound_isotope_atom_count : Compound -> result json :=
  count_lookup "isotope_atom".

Definition Compound_atom_stereo_count : Compound -> result json :=
  count_lookup "atom_chiral".

Definition Compound_defined_atom_stereo_count : Compound -> result json :=
  count_lookup "atom_chiral_def".

Definition Compound_undefined_atom_stereo_count : Compound -> result json :=
  count_lookup "atom_chiral_undef".

Definition Compound_bond_stereo_count : Compound -> result json :=
  count_lookup "bond_chiral".

Definition Compound_defined_bond_stereo_count : Compound -> result json :=
  count_lookup "bond_chiral_def".

Definition Compound_undefined_bond_stereo_count : Compound -> result json :=
  count_lookup "bond_chiral_undef".

Definition Compound_covalent_unit_count : Compound -> result json :=
  count_lookup "covalent_unit".

(** The accessors that look a tag filter up in the [data] of the object at
    [path], when it carries one. *)
Definition data_lookup (path : list key) (search : list (string * string))
    (self : Compound) : result json :=
  let* conf := subscript (Compound_record self) path in
  let* present := py_contains "data" conf in
  if present then let* data := py_getitem conf "data" in _parse_prop search data
  else Return JNull.

Definition Compound_volume_3d : Compound -> result json :=
  data_lookup conformer [("label", "Shape"); ("name", "Volume")].

Definition Compound_multipoles_3d : Compound -> result json :=
  data_lookup conformer [("label", "Shape"); ("name", "Multipoles")].

Definition Compound_conformer_rmsd_3d : Compound -> result json :=
  data_lookup [K "coords"; I 0] [("label", "Conformer"); ("name", "RMSD")].

Definition Compound_effective_rotor_count_3d : Compound -> result json :=
  props_lookup [("label", "Count"); ("name", "Effective Rotor")].

Definition Compound_pharmacophore_features_3d : Compound -> result json :=
  props_lookup [("label", "Features"); ("name", "Pharmacophore")].

Definition Compound_mmff94_partial_charges_3d : Compound -> result json :=
  props_lookup [("label", "Charge"); ("name", "MMFF94 Partial")].

Definition Compound_mmff94_energy_3d : Compound -> result json :=
  data_lookup conformer [("label", "Energy"); ("name", "MMFF94 NoEstat")].

Definition Compound_conformer_id_3d : Compound -> result json :=
  data_lookup conformer [("label", "Conformer"); ("name", "ID")].

Definition Compound_shape_selfoverlap_3d : Compound -> result json :=
  data_lookup conformer [("label", "Shape"); ("name", "Self Overlap")].

Definition Compound_feature_selfoverlap_3d : Compound -> result json :=
  data_lookup conformer [("label", "Feature"); ("name", "Self Overlap")].

Definition Compound_shape_fingerprint_3d : Compound -> result json :=
  data_lookup conformer [("label", "Fingerprint"); ("name", "Shape")].

(** *** The class as [dir] and [getattr] see it *)

Inductive member (O V : Type) : Type :=
| Method
| ClassMethod
| Property (fget : O -> result V)
| MemoizedProperty (fget : O -> M V).
Arguments Method {O V}.
Arguments ClassMethod {O V}.
Arguments Property {O V} fget.
Arguments MemoizedProperty {O V} fget.

(** [isinstance(getattr(cls, p), property)]: [memoized_property] returns
    [property(fget_memoized)], an instance of [property] as well. *)
Definition is_property {O V} (m : member O V) : bool :=
  match m with
  | Property _ | MemoizedProperty _ => true
  | Method | ClassMethod => false
  end.

Fixpoint insert_sorted (s : string) (l : list string) : list string :=
  match l with
  | [] => [s]
  | t :: l' => if String.leb s t then s :: l else t :: insert_sorted s l'
  end.

(** [dir(cls)] restricted to the names the class body declares: the names
    inherited from [object] are never properties. *)
Definition dir {O V} (cls : list (string * member O V)) : list string :=
  fold_right insert_sorted [] (dict_keys cls).

(** [[p for p in dir(cls) if isinstance(getattr(cls, p), property)]]. *)
Definition declared_properties {O V} (cls : list (string * member O V)) : list string :=
  List.filter (fun p => match dict_get p cls with
                        | Some m => is_property m
                        | None => false
                        end) (dir cls).

(** The members of the class body, in source order. *)
Definition Compound_class : list (string * member Compound json) :=
  [ ("__init__", Method); ("from_cid", ClassMethod); ("__repr__", Method);
    ("__eq__", Method); ("to_dict", Method); ("to_series", Method);
    ("cid", Property Compound_cid);
    ("elements", Property Compound_elements);
    ("atoms", Property Compound_atoms);
    ("bonds", Property Compound_bonds);
    ("synonyms", MemoizedProperty synonyms_fget);
    ("sids", MemoizedProperty sids_fget);
    ("aids", MemoizedProperty aids_fget);
    ("coordinate_type", Property Compound_coordinate_type);
    ("charge", Property Compound_charge);
    ("molecular_formula", Property Compound_molecular_formula);
    ("molecular_weight", Property Compound_molecular_weight);
    ("canonical_smiles", Property Compound_canonical_smiles);
    ("isomeric_smiles", Property Compound_isomeric_smiles);
    ("inchi", Property Compound_inchi);
    ("inchikey", Property Compound_inchikey);
    ("iupac_name", Property Compound_iupac_name);
    ("xlogp", Property Compound_xlogp);
    ("exact_mass", Property Compound_exact_mass);
    ("monoisotopic_mass", Property Compound_monoisotopic_mass);
    ("tpsa", Property Compound_tpsa);
    ("complexity", Property Compound_complexity);
    ("h_bond_donor_count", Property Compound_h_bond_donor_count);
    ("h_bond_acceptor_count", Property Compound_h_bond_acceptor_count);
    ("rotatable_bond_count", Property Compound_rotatable_bond_count);
    ("fingerprint", Property Compound_fingerprint);
    ("heavy_atom_count", Property Compound_heavy_atom_count);
    ("isotope_atom_count", Property Compound_isotope_atom_count);
    ("atom_stereo_count", Property Compound_atom_stereo_count);
    ("defined_atom_stereo_count", Property Compound_defined_atom_stereo_count);
    ("undefined_atom_stereo_count", Property Compound_undefined_atom_stereo_count);
    ("bond_stereo_count", Property Compound_bond_stereo_count);
    ("defined_bond_stereo_count", Property Compound_defined_bond_stereo_count);
    ("undefined_bond_stereo_count", Property Compound_undefined_bond_stereo_count);
    ("covalent_unit_count", Property Compound_covalent_unit_count);
    ("volume_3d", Property Compound_volume_3d);
    ("multipoles_3d", Property Compound_multipoles_3d);
    ("conformer_rmsd_3d", Property Compound_conformer_rmsd_3d);
    ("effective_rotor_count_3d", Property Compound_effective_rotor_count_3d);
    ("pharmacophore_features_3d", Property Compound_pharmacophore_features_3d);
    ("mmff94_partial_charges_3d", Property Compound_mmff94_partial_charges_3d);
    ("mmff94_energy_3d", Property Compound_mmff94_energy_3d);
    ("conformer_id_3d", Property Compound_conformer_id_3d);
    ("shape_selfoverlap_3d", Property Compound_shape_selfoverlap_3d);
    ("feature_selfoverlap_3d", Property Compound_feature_selfoverlap_3d);
    ("shape_fingerprint_3d", Property Compound_shape_fingerprint_3d) ].

(** A value an attribute lookup can produce. *)
Inductive pyval : Type :=
| VJson (v : json)
| VCompound (c : Compound)
| VMethod (name : string).

(** [memoized_property(fget)], for the accessor called [name]. *)
Definition memoized_property {O V} (memo : O -> list (string * V))
    (set_memo : list (string * V) -> O -> O)
    (name : string) (fget : O -> M V) (self : O) : M (V * O) :=
  let attr_name := "_" ++ name in
  match dict_get attr_name (memo self) with
  | Some v => ret (v, self)
  | None =>
      let! v := fget self in
      ret (v, set_memo (dict_set attr_name v (memo self)) self)
  end.

Definition Compound_memoized : string -> (Compound -> M json) -> Compound
    -> M (json * Compound) :=
  memoized_property Compound_memo
    (fun memo self => mkCompound (Compound_record self) memo).

Definition Compound_synonyms : Compound -> M (json * Compound) :=
  Compound_memoized "synonyms" synonyms_fget.
Definition Compound_sids : Compound -> M (json * Compound) :=
  Compound_memoized "sids" sids_fget.
Definition Compound_aids : Compound -> M (json * Compound) :=
  Compound_memoized "aids" aids_fget.

(** [getattr(self, p)] over what the class body and the instance hold:
    the properties of the class first, then the attributes of the
    instance, then the methods.  The attributes every object has from the
    interpreter ([__class__], [__doc__], [__module__], ...) vary with its
    version and are not in the table: a name that is neither declared nor
    stored is answered with [AttributeError], which is Python's answer for
    every name but those.  No statement below rests on the answer for
    such a name. *)
Definition Compound_getattr (p : string) (self : Compound) : M (pyval * Compound) :=
  match dict_get p Compound_class with
  | Some (Property fget) =>
      let! v := lift (fget self) in ret (VJson v, self)
  | Some (MemoizedProperty fget) =>
      let! r := Compound_memoized p fget self in ret (VJson (fst r), snd r)
  | other =>
      if String.eqb p "record" then ret (VJson (Compound_record self), self)
      else match dict_get p (Compound_memo self), other with
           | Some v, _ => ret (VJson v, self)
           | None, Some _ => ret (VMethod p, self)
           | None, None => raise (AttributeError p)
           end
  end.

(** [{p: getattr(self, p) for p in properties}]. *)
Fixpoint collect {O} (getattr : string -> O -> M (pyval * O))
    (properties : list string) (self : O) (acc : list (string * pyval))
    : M (list (string * pyval) * O) :=
  match properties with
  | [] => ret (acc, self)
  | p :: rest =>
      let! r := getattr p self in
      collect getattr rest (snd r) (dict_set p (fst r) acc)
  end.

(** The properties [to_dict] exports when the caller names none. *)
Definition Compound_default_properties : list string :=
  declared_properties Compound_class.

Definition Compound_to_dict (self : Compound) (properties : option (list string))
    : M (list (string * pyval) * Compound) :=
  let properties := match properties with
                    | None | Some [] => Compound_default_properties
                    | Some ps => ps
                    end in
  collect Compound_getattr properties self [].

(** *** [Compound.from_cid]

    [from_cid(cid, **kwargs)] hands all its keywords to [request]: a
    keyword named like a parameter of [request] binds that parameter,
    whatever the type of its value, and the other keywords are options of
    the query.  So [request] is read here once more, without assuming that
    its parameters are strings or [None]. *)

(** What [filter(None, comps)] and ['/'.join(comps)] make of one
    component: a string is a component (the empty one is dropped by
    [filter_none]), another value is dropped when it is falsy and makes
    [join] raise [TypeError] when it is not. *)
Definition path_component (v : json) : result (option string) :=
  match v with
  | JStr s => Return (Some s)
  | other => if py_truthy other then Raise TypeError else Return None
  end.

(** The body of [request] on parameters of any type. *)
Definition request_dynamic
    (identifier namespace domain operation output searchtype : json)
    (kwargs : dict) : M string :=
  let! identifier := lift (normalize_identifier identifier) in
  let kwargs := List.filter (fun kv => match snd kv with JNull => false | _ => true end)
                            kwargs in
  let identifier := if is_JStr "sourceid" namespace
                    then replace_char "/" "." identifier else identifier in
  let in_path := is_JStr "listkey" namespace || is_JStr "formula" namespace
                 || is_JStr "sourceid" namespace
                 || (py_truthy searchtype && is_JStr "cid" namespace)
                 || is_JStr "sources" domain in
  let urlid := if in_path then Some (quote identifier) else None in
  let postdata := if in_path then None
                  else Some (py_str namespace ++ "=" ++ quote identifier) in
  let! domain := lift (path_component domain) in
  let! searchtype := lift (path_component searchtype) in
  let! namespace := lift (path_component namespace) in
  let! operation := lift (path_component operation) in
  let! output := lift (path_component output) in
  let comps := filter_none [Some API_BASE; domain; searchtype; namespace;
                            urlid; operation; output] in
  let apiurl := join "/" comps in
  let apiurl := match kwargs with
                | [] => apiurl
                | _ => apiurl ++ "?" ++ urlencode kwargs
                end in
  emit (Debug "Request URL: %s" (Some apiurl));;
  emit (Debug "Request data: %s" postdata);;
  let! r := send apiurl postdata in
  match r with
  | Response payload => ret payload
  | HTTPError code reason body =>
      let! e := lift (PubChemHTTPError_init code reason body) in raise e
  | Unreachable reason => raise (URLError reason)
  end.

(** The parameters of [request] a keyword can bind, after [identifier],
    which the caller has given by position. *)
Definition request_parameters : list string :=
  ["namespace"; "domain"; "operation"; "output"; "searchtype"].

(** The value a parameter gets: the keyword of its name, or its default. *)
Definition keyword (name : string) (default : json) (kwargs : dict) : json :=
  match dict_get name kwargs with
  | Some v => v
  | None => default
  end.

(** The keywords that bind no parameter: the [**kwargs] of [request]. *)
Definition options (kwargs : dict) : dict :=
  List.filter (fun kv => negb (existsb (String.eqb (fst kv)) request_parameters))
              kwargs.

(** [request(identifier, **kwargs)]: a second value for [identifier] is
    a [TypeError] of the call. *)
Definition request_keywords (identifier : json) (kwargs : dict) : M string :=
  if dict_has "identifier" kwargs then raise TypeError
  else request_dynamic identifier
         (keyword "namespace" (JStr "cid") kwargs)
         (keyword "domain" (JStr "compound") kwargs)
         (keyword "operation" JNull kwargs)
         (keyword "output" (JStr "JSON") kwargs)
         (keyword "searchtype" JNull kwargs)
         (options kwargs).

(** [Compound.from_cid(cid, **kwargs)]; a keyword named [cls] or [cid]
    is a [TypeError] of the call of [from_cid] itself. *)
Definition Compound_from_cid (cid : json) (kwargs : dict) : M Compound :=
  if dict_has "cls" kwargs || dict_has "cid" kwargs then raise TypeError else
  let! response := request_keywords cid kwargs in
  let! doc := loads response in
  let! record := lift (subscript doc [K "PC_Compounds"; I 0]) in
  ret (mkCompound record []).

(** ** [Substance] *)

Record Substance : Type :=
  mkSubstance { Substance_record : json; Substance_memo : list (string * pyval) }.

Definition as_json {O} (f : O -> result json) (self : O) : result pyval :=
  let* v := f self in Return (VJson v).

Definition Substance_sid (self : Substance) : result json :=
  subscript (Substance_record self) [K "sid"; K "id"].

Definition Substance_synonyms (self : Substance) : result json :=
  let record := Substance_record self in
  let* present := py_contains "synonyms" record in
  if present then py_getitem record "synonyms" else Return JNull.

Definition Substance_source_name (self : Substance) : result json :=
  subscript (Substance_record self) [K "source"; K "db"; K "name"].

Definition Substance_source_id (self : Substance) : result json :=
  subscript (Substance_record self) [K "source"; K "db"; K "source_id"; K "str"].

(** The first [c] of the loop with [c['id']['type'] == kind]. *)
Fixpoint first_of_type (kind : string) (cs : list json) : result (option json) :=
  match cs with
  | [] => Return None
  | c :: rest =>
      let* t := subscript c [K "id"; K "type"] in
      if py_eqb t (JStr kind) then Return (Some c) else first_of_type kind rest
  end.

Definition compound_of_type (kind : string) (self : Substance) : result (option json) :=
  let* cs := py_getitem (Substance_record self) "compound" in
  let* cs := py_iter cs in
  first_of_type kind cs.

Definition Substance_standardized_cid (self : Substance) : result json :=
  let* found := compound_of_type "standardized" self in
  match found with
  | Some c => subscript c [K "id"; K "id"; K "cid"]
  | None => Return JNull
  end.

Definition standardized_compound_fget (self : Substance) : M pyval :=
  let! found := lift (compound_of_type "standardized" self) in
  match found with
  | Some c =>
      let! cid := lift (subscript c [K "id"; K "id"; K "cid"]) in
      let! compound := Compound_from_cid cid [] in
      ret (VCompound compound)
  | None => ret (VJson JNull)
  end.

Definition Substance_deposited_compound (self : Substance) : result pyval :=
  let* found := compound_of_type "deposited" self in
  match found with
  | Some c => Return (VCompound (mkCompound c []))
  | None => Return (VJson JNull)
  end.

(** The body of [cids] and [aids]:
    [get_json(self.sid, 'sid', 'substance', operation)]. *)
Definition Substance_fetch (operation field : string) (self : Substance) : M pyval :=
  let! sid := lift (Substance_sid self) in
  let! results := get_json sid (Some "sid") (Some "substance") (Some operation)
                           None [] in
  let! v := lift (first_information field results) in
  ret (VJson v).

Definition cids_fget : Substance -> M pyval := Substance_fetch "cids" "CID".
Definition Substance_aids_fget : Substance -> M pyval := Substance_fetch "aids" "AID".

Definition Substance_class : list (string * member Substance pyval) :=
  [ ("from_sid", ClassMethod); ("__init__", Method); ("__repr__", Method);
    ("__eq__", Method); ("to_dict", Method); ("to_series", Method);
    ("sid", Property (as_json Substance_sid));
    ("synonyms", Property (as_json Substance_synonyms));
    ("source_name", Property (as_json Substance_source_name));
    ("source_id", Property (as_json Substance_source_id));
    ("standardized_cid", Property (as_json Substance_standardized_cid));
    ("standardized_compound", MemoizedProperty standardized_compound_fget);
    ("deposited_compound", Property Substance_deposited_compound);
    ("cids", MemoizedProperty cids_fget);
    ("aids", MemoizedProperty Substance_aids_fget) ].

Definition Substance_memoized : string -> (Substance -> M pyval) -> Substance
    -> M (pyval * Substance) :=
  memoized_property Substance_memo
    (fun memo self => mkSubstance (Substance_record self) memo).

Definition Substance_standardized_compound : Substance -> M (pyval * Substance) :=
  Substance_memoized "standardized_compound" standardized_compound_fget.
Definition Substance_cids : Substance -> M (pyval * Substance) :=
  Substance_memoized "cids" cids_fget.
Definition Substance_aids : Substance -> M (pyval * Substance) :=
  Substance_memoized "aids" Substance_aids_fget.

(** [getattr(self, p)], as for [Compound]. *)
Definition Substance_getattr (p : string) (self : Substance)
    : M (pyval * Substance) :=
  match dict_get p Substance_class with
  | Some (Property fget) =>
      let! v := lift (fget self) in ret (v, self)
  | Some (MemoizedProperty fget) => Substance_memoized p fget self
  | other =>
      if String.eqb p "record" then ret (VJson (Substance_record self), self)
      else match dict_get p (Substance_memo self), other with
           | Some v, _ => ret (v, self)
           | None, Some _ => ret (VMethod p, self)
           | None, None => raise (AttributeError p)
           end
  end.

(** The properties [to_dict] exports when the caller names none. *)
Definition Substance_default_properties : list string :=
  List.filter (fun p => negb (String.eqb p "deposited_compound"))
              (declared_properties Substance_class).

Definition Substance_to_dict (self : Substance) (properties : option (list string))
    : M (list (string * pyval) * Substance) :=
  let properties := match properties with
                    | None | Some [] => Substance_default_properties
                    | Some ps => ps
                    end in
  collect Substance_getattr properties self [].

Definition Substance_from_sid (sid : json) : M Substance :=
  let! response := request sid (Some "sid") (Some "substance") None (Some "JSON")
                           None [] in
  let! doc := loads response in
  let! record := lift (subscript doc [K "PC_Substances"; I 0]) in
  ret (mkSubstance record []).

(** ** [Assay] *)

Record Assay : Type := mkAssay { Assay_record : json }.

Definition Assay_aid (self : Assay) : result json :=
  subscript (Assay_record self) [K "id"; K "id"; K "aid"].

Definition Assay_from_aid (aid : json) : M Assay :=
  let! response := request aid (Some "aid") (Some "assay") None (Some "JSON")
                           None [] in
  let! doc := loads response in
  let! record := lift (subscript doc [K "PC_AssayContainer"; I 0]) in
  ret (mkAssay record).

(** ** The list-returning functions of the module

    In the wrappers below [kwargs] stands for the keywords that are
    options of the query: it holds no keyword named like a parameter of
    [get_json], [get] or [request], which the call would bind to that
    parameter ([Compound.from_cid] above spells that binding out). *)

(** A [pandas.DataFrame] built by [from_records]: the table is the
    business of the tabular-export dependency, so it is kept as the rows
    and the index column it was asked to be built from. *)
Inductive frame : Type :=
| DataFrame (records : list (list (string * pyval))) (index : string).

Fixpoint mapM {A B} (f : A -> M B) (l : list A) : M (list B) :=
  match l with
  | [] => ret []
  | a :: l' => let! b := f a in let! bs := mapM f l' in ret (b :: bs)
  end.

(** [compounds_to_frame(compounds)], with no [properties] given. *)
Definition compounds_to_frame (compounds : list Compound) : M frame :=
  let! rows := mapM (fun c => let! r := Compound_to_dict c None in ret (fst r))
                    compounds in
  ret (DataFrame rows "cid").

(** [substances_to_frame(substances)], with no [properties] given. *)
Definition substances_to_frame (substances : list Substance) : M frame :=
  let! rows := mapM (fun c => let! r := Substance_to_dict c None in ret (fst r))
                    substances in
  ret (DataFrame rows "sid").

Inductive listing (A : Type) : Type :=
| Entities (l : list A)
| Frame (f : frame).
Arguments Entities {A} l.
Arguments Frame {A} f.

(** [[cls(r) for r in results[envelope]] if results else []]. *)
Definition unwrap {A} (cls : json -> A) (envelope : string) (results : json)
    : result (list A) :=
  if py_truthy results then
    let* rs := py_getitem results envelope in
    let* rs := py_iter rs in
    Return (map cls rs)
  else Return [].

Definition get_compounds (identifier : json) (namespace searchtype : option string)
    (as_dataframe : bool) (kwargs : dict) : M (listing Compound) :=
  let! results := get_json identifier namespace (Some "compound") None searchtype
                           kwargs in
  let! compounds := lift (unwrap (fun r => mkCompound r []) "PC_Compounds" results) in
  if as_dataframe
  then let! f := compounds_to_frame compounds in ret (Frame f)
  else ret (Entities compounds).

Definition get_substances (identifier : json) (namespace : option string)
    (as_dataframe : bool) (kwargs : dict) : M (listing Substance) :=
  let! results := get_json identifier namespace (Some "substance") None None
                           kwargs in
  let! substances := lift (unwrap (fun r => mkSubstance r []) "PC_Substances" results) in
  if as_dataframe
  then let! f := substances_to_frame substances in ret (Frame f)
  else ret (Entities substances).

Definition get_assays (identifier : json) (namespace : option string)
    (kwargs : dict) : M (list Assay) :=
  let! results := get_json identifier namespace (Some "assay") None None kwargs in
  lift (unwrap mkAssay "PC_AssayContainer" results).

Definition get_synonyms (identifier : json) (namespace domain searchtype : option string)
    (kwargs : dict) : M json :=
  let! results := get_json identifier namespace domain (Some "synonyms") searchtype
                           kwargs in
  lift (if py_truthy results
        then subscript results [K "InformationList"; K "Information"]
        else Return (JArr [])).

(** The common body of [get_cids], [get_sids] and [get_aids]. *)
Definition get_ids (operation field : string) (identifier : json)
    (namespace domain searchtype : option string) (kwargs : dict) : M json :=
  let! results := get_json identifier namespace domain (Some operation) searchtype
                           kwargs in
  lift (if negb (py_truthy results) then Return (JArr [])
        else
          let* a := py_contains "IdentifierList" results in
          if a then subscript results [K "IdentifierList"; K field]
          else
            let* b := py_contains "InformationList" results in
            if b then subscript results [K "InformationList"; K "Information"]
            else Return JNull).

Definition get_cids := get_ids "cids" "CID".
Definition get_sids := get_ids "sids" "SID".
Definition get_aids := get_ids "aids" "AID".

(** ** [get_properties] and [get_all_sources] *)

Definition PROPERTY_MAP : list (string * string) :=
  [
    ("molecular_formula", "MolecularFormula");
    ("molecular_weight", "MolecularWeight");
    ("canonical_smiles", "CanonicalSMILES");
    ("isomeric_smiles", "IsomericSMILES");
    ("inchi", "InChI");
    ("inchikey", "InChIKey");
    ("iupac_name", "IUPACName");
    ("xlogp", "XLogP");
    ("exact_mass", "ExactMass");
    ("monoisotopic_mass", "MonoisotopicMass");
    ("tpsa", "TPSA");
    ("complexity", "Complexity");
    ("charge", "Charge");
    ("h_bond_donor_count", "HBondDonorCount");
    ("h_bond_acceptor_count", "HBondAcceptorCount");
    ("rotatable_bond_count", "RotatableBondCount");
    ("heavy_atom_count", "HeavyAtomCount");
    ("isotope_atom_count", "IsotopeAtomCount");
    ("atom_stereo_count", "AtomStereoCount");
    ("defined_atom_stereo_count", "DefinedAtomStereoCount");
    ("undefined_atom_stereo_count", "UndefinedAtomStereoCount");
    ("bond_stereo_count", "BondStereoCount");
    ("defined_bond_stereo_count", "DefinedBondStereoCount");
    ("undefined_bond_stereo_count", "UndefinedBondStereoCount");
    ("covalent_unit_count", "CovalentUnitCount");
    ("volume_3d", "Volume3D");
    ("conformer_rmsd_3d", "ConformerModelRMSD3D");
    ("conformer_model_rmsd_3d", "ConformerModelRMSD3D");
    ("x_steric_quadrupole_3d", "XStericQuadrupole3D");
    ("y_steric_quadrupole_3d", "YStericQuadrupole3D");
    ("z_steric_quadrupole_3d", "ZStericQuadrupole3D");
    ("feature_count_3d", "FeatureCount3D");
    ("feature_acceptor_count_3d", "FeatureAcceptorCount3D");
    ("feature_donor_count_3d", "FeatureDonorCount3D");
    ("feature_anion_count_3d", "FeatureAnionCount3D");
    ("feature_cation_count_3d", "FeatureCationCount3D");
    ("feature_ring_count_3d", "FeatureRingCount3D");
    ("feature_hydrophobe_count_3d", "FeatureHydrophobeCount3D");
    ("effective_rotor_count_3d", "EffectiveRotorCount3D");
    ("conformer_count_3d", "ConformerCount3D") ].

(** [PROPERTY_MAP.get(p, p)]. *)
Definition translate (p : string) : string :=
  match dict_get p PROPERTY_MAP with
  | Some name => name
  | None => p
  end.

(** [s.split(sep)] for a single character. *)
Fixpoint split_on (sep : ascii) (s : string) : list string :=
  match s with
  | EmptyString => [EmptyString]
  | String c s' =>
      if Ascii.eqb c sep then EmptyString :: split_on sep s'
      else match split_on sep s' with
           | part :: rest => String c part :: rest
           | [] => [String c EmptyString]
           end
  end.

(** The operation [get_properties] asks for: the names, split at commas
    when given as one string, each translated by [PROPERTY_MAP], joined
    again and prefixed.  A name that is not a string cannot be joined. *)
Definition property_operation (properties : json) : result string :=
  let* names := match properties with
                | JStr s => Return (map JStr (split_on "," s))
                | other => py_iter other
                end in
  let* names := mapR (fun p => match p with
                               | JStr s => Return (translate s)
                               | _ => Raise TypeError
                               end) names in
  Return ("property/" ++ join "," names).

(** What [get_properties] returns: the rows, or the table
    [pandas.DataFrame.from_records] is asked to build from them. *)
Inductive property_table : Type :=
| PropertyRows (rows : json)
| PropertyFrame (records : json) (index : string).

Definition get_properties (properties identifier : json)
    (namespace searchtype : option string) (as_dataframe : bool)
    (kwargs : dict) : M property_table :=
  let! operation := lift (property_operation properties) in
  let! results := get_json identifier namespace (Some "compound") (Some operation)
                           searchtype kwargs in
  let! results := lift (if py_truthy results
                        then subscript results [K "PropertyTable"; K "Properties"]
                        else Return (JArr [])) in
  if as_dataframe then ret (PropertyFrame results "CID")
  else ret (PropertyRows results).

Definition get_all_sources (domain : json) : M json :=
  let! response := get domain None (Some "sources") None (Some "JSON") None [] in
  let! results := loads response in
  lift (subscript results [K "InformationList"; K "SourceName"]).

(** * Specification

    The notions the specification uses, written from its words, followed
    by the theorems that relate them to the definitions above. *)

(** A search type is set when it is given and not empty: this is the test
    [if searchtype] makes, and [filter(None, ...)] keeps exactly such a
    search type in the path. *)
Definition is_set (o : option string) : Prop := exists s, o = Some s /\ s <> "".

(** The placement rule of the request builder. *)
Definition url_embedded (namespace domain searchtype : option string) : Prop :=
  namespace = Some "listkey" \/ namespace = Some "formula"
  \/ namespace = Some "sourceid"
  \/ (is_set searchtype /\ namespace = Some "cid")
  \/ domain = Some "sources".

(** The identifier as transmitted: percent-encoded, after the rewriting of
    source ids. *)
Definition transmitted (namespace : option string) (identifier : string) : string :=
  quote (if opt_is namespace "sourceid"
         then replace_char "/" "." identifier else identifier).

(** The query string made of the options that are not null. *)
Definition query_string (kwargs : dict) : string :=
  match List.filter (fun kv => match snd kv with JNull => false | _ => true end) kwargs with
  | [] => ""
  | kw => "?" ++ urlencode kw
  end.

(** The calls of [urlopen] among the events: URL and POST body. *)
Definition requests_sent (evs : list event) : list (string * option string) :=
  flat_map (fun ev => match ev with
                      | Sent url data => [(url, data)]
                      | _ => []
                      end) evs.

(** The state after the events [evs] were recorded. *)
Definition record_events (evs : list event) (st : state) : state :=
  {| service := service st; events := (events st ++ evs)%list |}.

(** The operations the service may answer asynchronously. *)
Definition asynchronous (namespace searchtype : option string) : Prop :=
  is_set searchtype \/ namespace = Some "formula".

(** [polls key domain operation kwargs n st r st']: from state [st], [n]
    rounds of "sleep 2, request the work ticket [key] in namespace
    [listkey] with the operation and JSON output, decode" took place; the
    first [n - 1] answers carried the waiting indicator, the last one, with
    payload [r], did not; [st'] is the state reached. *)
Inductive polls (key : json) (domain operation : option string) (kwargs : dict)
    : nat -> state -> string -> state -> Prop :=
| polls_last st r st' v :
    request key (Some "listkey") domain operation (Some "JSON") None kwargs
            (record_events [Slept 2] st) = (Return r, st') ->
    json_loads r = Some v ->
    is_waiting v = Return false ->
    polls key domain operation kwargs 1 st r st'
| polls_again n st r0 st0 v r st' :
    request key (Some "listkey") domain operation (Some "JSON") None kwargs
            (record_events [Slept 2] st) = (Return r0, st0) ->
    json_loads r0 = Some v ->
    is_waiting v = Return true ->
    polls key domain operation kwargs n st0 r st' ->
    polls key domain operation kwargs (S n) st r st'.

(** [st'] continues [st]: it holds the events of [st] and then more. *)
Definition continues (st st' : state) : Prop :=
  exists evs, events st' = (events st ++ evs)%list.

(** A property entry carries a tag set under [urn] and, under [value], a
    single value stored under its one populated value-kind key. *)
Definition entry_tags (e : json) : option dict :=
  match e with
  | JObj m => match dict_get "urn" m with
              | Some (JObj tags) => Some tags
              | _ => None
              end
  | _ => None
  end.

Definition entry_value (e : json) : option json :=
  match e with
  | JObj m => match dict_get "value" m with
              | Some (JObj [(kind, v)]) => Some v
              | _ => None
              end
  | _ => None
  end.

Definition PropertyEntry (e : json) : Prop :=
  (exists tags, entry_tags e = Some tags) /\ (exists v, entry_value e = Some v).

(** The tag set holds every (field, value) pair of the filter. *)
Definition tags_include (search : list (string * string)) (tags : dict) : Prop :=
  forall k v, In (k, v) search -> dict_get k tags = Some (JStr v).

Definition entry_matches (search : list (string * string)) (e : json) : Prop :=
  exists tags, entry_tags e = Some tags /\ tags_include search tags.

(** The boolean the comprehension of [_parse_prop] computes for an entry. *)
Definition selected (search : list (string * string)) (e : json) : bool :=
  match entry_tags e with
  | Some tags => forallb (item_in tags) search
  | None => false
  end.

(** The error classifier: the exception in which
    [raise PubChemHTTPError(e)] ends for an [HTTPError] with the given
    status code, reason and body ([None] never occurs: the constructor
    terminates). *)
Definition classify (code : Z) (reason body : string) : option exc :=
  match PubChemHTTPError_init code reason body with
  | Return e | Raise e => Some e
  | Diverge => None
  end.




(** Following keys through nested objects. *)
Fixpoint lookup_path (v : json) (path : list string) : option json :=
  match path with
  | [] => Some v
  | k :: rest =>
      match v with
      | JObj m => match dict_get k m with
                  | Some x => lookup_path x rest
                  | None => None
                  end
      | _ => None
      end
  end.

(** [v] is an object, and so is everything met by following [path] from
    it for as long as the keys are there. *)
Fixpoint nested_objects (v : json) (path : list string) : bool :=
  match v with
  | JObj m =>
      match path with
      | [] => true
      | k :: rest => match dict_get k m with
                     | Some x => nested_objects x rest
                     | None => true
                     end
      end
  | _ => false
  end.

(** The index-wise zip of the atom arrays: one mapping per atom, for
    records without and with a [z] array. *)
Fixpoint zip_atoms (xs ys es : list json) : list dict :=
  match xs, ys, es with
  | x :: xs', y :: ys', e :: es' =>
      [("x", x); ("y", y); ("element", e)] :: zip_atoms xs' ys' es'
  | _, _, _ => []
  end.

Fixpoint zip_atoms_3d (xs ys es zs : list json) : list dict :=
  match xs, ys, es, zs with
  | x :: xs', y :: ys', e :: es', z :: zs' =>
      [("x", x); ("y", y); ("element", e); ("z", z)] :: zip_atoms_3d xs' ys' es' zs'
  | _, _, _, _ => []
  end.

(** [c] is the charge annotation that gives the atom at position [fst a]
    the charge [snd a]. *)
Definition charge_annotation (c : json) (a : nat * json) : Prop :=
  exists m, c = JObj m
            /\ dict_get "aid" m = Some (JInt (Z.of_nat (fst a)))
            /\ dict_get "value" m = Some (snd a).

(** Overlaying one annotation: the atom at its position gets the charge. *)
Definition overlay (atomlist : list dict) (a : nat * json) : list dict :=
  alter (dict_set "charge" (snd a)) (fst a) atomlist.

(** The character [c] occurs in [s]. *)
Definition occurs (c : ascii) (s : string) : bool :=
  existsb (Ascii.eqb c) (list_ascii_of_string s).

(** What [request] comes to once the transport has answered. *)
Definition outcome_of_reply (r : reply) : result string :=
  match r with
  | Response payload => Return payload
  | HTTPError code reason body =>
      match classify code reason body with
      | Some e => Raise e
      | None => Diverge
      end
  | Unreachable reason => Raise (URLError reason)
  end.

(** The service never stops asking to wait for the work ticket [key]. *)
Definition always_waiting (key : json) (domain operation : option string)
    (kwargs : dict) : Prop :=
  forall st, exists r st' v,
    request key (Some "listkey") domain operation (Some "JSON") None kwargs st
    = (Return r, st')
    /\ json_loads r = Some v
    /\ is_waiting v = Return true.

(** The number of sleeps among the events. *)
Definition naps (evs : list event) : nat :=
  length (List.filter (fun ev => match ev with Slept _ => true | _ => false end) evs).

(** [p] names a property of [Compound] that is computed from the record
    alone. *)
Definition plain_property (p : string) : bool :=
  match dict_get p Compound_class with
  | Some (Property _) => true
  | _ => false
  end.

(** The names [to_dict] exports for the given argument. *)
Definition chosen (defaults : list string) (properties : option (list string))
    : list string :=
  match properties with
  | None | Some [] => defaults
  | Some ps => ps
  end.

(** The index-wise zip of the bond arrays: one mapping per bond. *)
Fixpoint zip_bonds (aid1s aid2s orders : list json) : list dict :=
  match aid1s, aid2s, orders with
  | a :: aid1s', b :: aid2s', o :: orders' =>
      [("aid1", a); ("aid2", b); ("order", o)] :: zip_bonds aid1s' aid2s' orders'
  | _, _, _ => []
  end.

(** A parameter of [request] given as a string or as [None]. *)
Definition json_of_option (o : option string) : json :=
  match o with
  | Some s => JStr s
  | None => JNull
  end.

(** ** Basic facts *)

Lemma eqb_Some (o : option string) (s : string) :
  opt_is o s = true <-> o = Some s.
Proof.
  destruct o as [t|]; simpl.
  - rewrite String.eqb_eq. split; [intros -> | intros [= ->]]; reflexivity.
  - split; discriminate.
Qed.

Lemma opt_truthy_is_set (o : option string) : opt_truthy o = true <-> is_set o.
Proof.
  unfold is_set. destruct o as [s|]; simpl.
  - rewrite negb_true_iff, String.eqb_neq. split.
    + intros H. exists s. split; [reflexivity | exact H].
    + intros (t & [= <-] & H). exact H.
  - split; [discriminate | intros (t & H & _); discriminate].
Qed.

Lemma in_url_path_spec (namespace domain searchtype : option string) :
  in_url_path namespace domain searchtype = true
  <-> url_embedded namespace domain searchtype.
Proof.
  unfold in_url_path, url_embedded.
  rewrite !orb_true_iff, andb_true_iff, !eqb_Some, opt_truthy_is_set.
  tauto.
Qed.

Lemma append_empty (s : string) : s ++ "" = s.
Proof. induction s as [|c s IH]; simpl; [reflexivity | now rewrite IH]. Qed.

Lemma build_apiurl (identifier : string)
    (namespace domain operation output searchtype : option string) (kwargs : dict) :
  apiurl (build identifier namespace domain operation output searchtype kwargs)
  = join "/" (filter_none
      [Some API_BASE; domain; searchtype; namespace;
       urlid (build identifier namespace domain operation output searchtype kwargs);
       operation; output])
    ++ query_string kwargs.
Proof.
  unfold build, query_string. cbn [apiurl urlid].
  destruct (List.filter _ kwargs); [now rewrite append_empty | reflexivity].
Qed.

(** Whatever the transport answers, [request] records the two log lines
    and the one call of [urlopen], in this order. *)
Lemma request_events (identifier : json) (id : string)
    (namespace domain operation output searchtype : option string)
    (kwargs : dict) (st : state) :
  normalize_identifier identifier = Return id ->
  let b := build id namespace domain operation output searchtype kwargs in
  events (snd (request identifier namespace domain operation output searchtype kwargs st))
  = (events st ++ [Debug "Request URL: %s" (Some (apiurl b));
                   Debug "Request data: %s" (postdata b);
                   Sent (apiurl b) (postdata b)])%list.
Proof.
  intros Hid b. unfold request, bind, lift, emit, send, ret, raise.
  rewrite Hid. fold b. cbn [service events].
  destruct (urlopen (apiurl b) (postdata b) (service st)) as [r w].
  destruct r as [payload | code reason body | reason]; cbn [snd events].
  - now rewrite <- !app_assoc.
  - destruct (PubChemHTTPError_init code reason body); cbn [snd events];
      now rewrite <- !app_assoc.
  - now rewrite <- !app_assoc.
Qed.

(** ** C1: where the identifier is placed *)

(** C1.  For every call of the request builder whose identifier
    normalizes to [id]: when the namespace is [listkey], [formula] or
    [sourceid], or a search type is set together with namespace [cid], or
    the domain is [sources], the percent-encoded identifier is the segment
    after the namespace in the URL path and there is no POST body; in
    every other case the path has no identifier segment and the POST body
    is the field [namespace=<percent-encoded identifier>].  The two cases
    exclude each other, and the URL and body so built are the ones handed
    to [urlopen]. *)
Theorem request_identifier_placement (identifier : json) (id : string)
    (namespace domain operation output searchtype : option string)
    (kwargs : dict) (st : state) :
  normalize_identifier identifier = Return id ->
  let b := build id namespace domain operation output searchtype kwargs in
  (url_embedded namespace domain searchtype ->
     urlid b = Some (transmitted namespace id) /\ postdata b = None
     /\ apiurl b = join "/" (filter_none
          [Some API_BASE; domain; searchtype; namespace;
           Some (transmitted namespace id); operation; output])
        ++ query_string kwargs)
  /\ (~ url_embedded namespace domain searchtype ->
     urlid b = None
     /\ postdata b = Some (opt_str namespace ++ "=" ++ transmitted namespace id)
     /\ apiurl b = join "/" (filter_none
          [Some API_BASE; domain; searchtype; namespace; operation; output])
        ++ query_string kwargs)
  /\ (urlid b = None <-> postdata b <> None)
  /\ events (snd (request identifier namespace domain operation output searchtype
                          kwargs st))
     = (events st ++ [Debug "Request URL: %s" (Some (apiurl b));
                      Debug "Request data: %s" (postdata b);
                      Sent (apiurl b) (postdata b)])%list.
Proof.
  intros Hid b.
  pose proof (build_apiurl id namespace domain operation output searchtype kwargs)
    as Hurl. fold b in Hurl.
  pose proof (in_url_path_spec namespace domain searchtype) as Hspec.
  assert (Hu : urlid b = if in_url_path namespace domain searchtype
                         then Some (transmitted namespace id) else None)
    by reflexivity.
  assert (Hp : postdata b = if in_url_path namespace domain searchtype
                            then None
                            else Some (opt_str namespace ++ "=" ++ transmitted namespace id))
    by reflexivity.
  destruct (in_url_path namespace domain searchtype) eqn:E.
  - split; [| split; [| split]].
    + intros _. split; [exact Hu | split; [exact Hp |]].
      rewrite Hurl, Hu. reflexivity.
    + intros Hn. exfalso. apply Hn, Hspec. reflexivity.
    + rewrite Hu, Hp. split; [discriminate | intros H; now contradict H].
    + now apply request_events.
  - assert (Hno : ~ url_embedded namespace domain searchtype)
      by (intros H; apply Hspec in H; discriminate).
    split; [| split; [| split]].
    + intros H. now contradict H.
    + intros _. split; [exact Hu | split; [exact Hp |]].
      rewrite Hurl, Hu. reflexivity.
    + rewrite Hu, Hp. split; [discriminate | reflexivity].
    + now apply request_events.
Qed.

(** ** C2 and C10: the asynchronous wrapper *)

Lemma asynchronous_spec (namespace searchtype : option string) :
  opt_truthy searchtype || opt_is namespace "formula" = true
  <-> asynchronous namespace searchtype.
Proof.
  unfold asynchronous. rewrite orb_true_iff, eqb_Some, opt_truthy_is_set. tauto.
Qed.

Lemma continues_refl (st : state) : continues st st.
Proof. exists []. now rewrite app_nil_r. Qed.

Lemma continues_trans (a b c : state) : continues a b -> continues b c -> continues a c.
Proof.
  intros [e1 H1] [e2 H2]. exists (e1 ++ e2)%list.
  now rewrite H2, H1, <- app_assoc.
Qed.

Lemma continues_record (evs : list event) (st : state) :
  continues st (record_events evs st).
Proof. now exists evs. Qed.

Lemma request_continues (identifier : json)
    (namespace domain operation output searchtype : option string)
    (kwargs : dict) (st : state) :
  continues st (snd (request identifier namespace domain operation output
                             searchtype kwargs st)).
Proof.
  destruct (normalize_identifier identifier) as [id | e |] eqn:Hid.
  - eexists. now apply request_events with (id := id).
  - unfold request, bind, lift. rewrite Hid. apply continues_refl.
  - unfold request, bind, lift. rewrite Hid. apply continues_refl.
Qed.

(** One round of the loop. *)
Lemma poll_step (n : nat) (key : json) (domain operation : option string)
    (kwargs : dict) (response : string) (status : json) (st : state) :
  poll (S n) key domain operation kwargs response status st =
  match is_waiting status with
  | Return true =>
      match request key (Some "listkey") domain operation (Some "JSON") None kwargs
                    (record_events [Slept 2] st) with
      | (Return r, st1) =>
          match json_loads r with
          | Some v => poll n key domain operation kwargs r v st1
          | None => (Raise ValueError, st1)
          end
      | (Raise e, st1) => (Raise e, st1)
      | (Diverge, st1) => (Diverge, st1)
      end
  | Return false => (Return response, st)
  | Raise e => (Raise e, st)
  | Diverge => (Diverge, st)
  end.
Proof.
  cbn [poll]. unfold bind at 1. unfold lift at 1.
  destruct (is_waiting status) as [[|] | e |]; try reflexivity.
  unfold bind at 1. unfold emit at 1. fold (record_events [Slept 2] st).
  unfold bind at 1.
  destruct (request key (Some "listkey") domain operation (Some "JSON") None kwargs
                    (record_events [Slept 2] st)) as [[r | e |] st1]; try reflexivity.
  unfold bind at 1. unfold loads at 1.
  destruct (json_loads r); reflexivity.
Qed.

Lemma poll_not_waiting (n : nat) (key : json) (domain operation : option string)
    (kwargs : dict) (response : string) (status : json) (st : state) :
  is_waiting status = Return false ->
  poll n key domain operation kwargs response status st = (Return response, st).
Proof.
  intros H. destruct n; cbn [poll]; unfold bind, lift; rewrite H; reflexivity.
Qed.

(** With enough fuel the loop of the model follows the rounds. *)
Lemma poll_follows (key : json) (domain operation : option string) (kwargs : dict)
    (n : nat) (st : state) (r : string) (st' : state) :
  polls key domain operation kwargs n st r st' ->
  forall (m : nat) (r0 : string) (v0 : json),
    is_waiting v0 = Return true -> (n <= m)%nat ->
    poll m key domain operation kwargs r0 v0 st = (Return r, st').
Proof.
  induction 1 as [st r st' v Hreq Hv Hw | n st r0 st0 v r st' Hreq Hv Hw _ IH];
    intros m r1 v1 Hw1 Hm.
  - destruct m as [|m]; [lia |].
    rewrite poll_step, Hw1, Hreq, Hv. now apply poll_not_waiting.
  - destruct m as [|m]; [lia |].
    rewrite poll_step, Hw1, Hreq, Hv. apply IH; [exact Hw | lia].
Qed.

Lemma poll_continues (n : nat) (key : json) (domain operation : option string)
    (kwargs : dict) (response : string) (status : json) (st : state) :
  continues st (snd (poll n key domain operation kwargs response status st)).
Proof.
  revert response status st.
  induction n as [|n IH]; intros response status st.
  - cbn [poll]. unfold bind, lift, diverge, ret.
    destruct (is_waiting status) as [[|] | e |]; apply continues_refl.
  - rewrite poll_step.
    destruct (is_waiting status) as [[|] | e |]; try apply continues_refl.
    pose proof (request_continues key (Some "listkey") domain operation (Some "JSON")
                  None kwargs (record_events [Slept 2] st)) as Hc.
    destruct (request key (Some "listkey") domain operation (Some "JSON") None kwargs
                (record_events [Slept 2] st)) as [[r | e |] st1]; cbn [snd] in *;
      try (eapply continues_trans; [apply continues_record | exact Hc]).
    destruct (json_loads r) as [v|]; cbn [snd].
    + eapply continues_trans; [apply continues_record |].
      eapply continues_trans; [exact Hc | apply IH].
    + eapply continues_trans; [apply continues_record | exact Hc].
Qed.

(** The asynchronous branch of [get], spelled out. *)
Lemma get_asynchronous (identifier : json)
    (namespace domain operation output searchtype : option string)
    (kwargs : dict) (st : state) :
  asynchronous namespace searchtype ->
  get identifier namespace domain operation output searchtype kwargs st =
  match request identifier namespace domain None (Some "JSON") searchtype kwargs st with
  | (Return r1, st1) =>
      match json_loads r1 with
      | None => (Raise ValueError, st1)
      | Some v1 =>
          match is_waiting v1 with
          | Return true =>
              match subscript v1 [K "Waiting"; K "ListKey"] with
              | Return key =>
                  match poll fuel key domain operation kwargs r1 v1 st1 with
                  | (Return r, st2) =>
                      if opt_is output "JSON" then (Return r, st2)
                      else request key (Some "listkey") domain operation output
                                   searchtype kwargs st2
                  | (Raise e, st2) => (Raise e, st2)
                  | (Diverge, st2) => (Diverge, st2)
                  end
              | Raise e => (Raise e, st1)
              | Diverge => (Diverge, st1)
              end
          | Return false => (Return r1, st1)
          | Raise e => (Raise e, st1)
          | Diverge => (Diverge, st1)
          end
      end
  | (Raise e, st1) => (Raise e, st1)
  | (Diverge, st1) => (Diverge, st1)
  end.
Proof.
  intros Ha. apply asynchronous_spec in Ha. unfold get. rewrite Ha.
  unfold bind at 1.
  destruct (request identifier namespace domain None (Some "JSON") searchtype kwargs st)
    as [[r1 | e |] st1]; try reflexivity.
  unfold bind at 1. unfold loads at 1.
  destruct (json_loads r1) as [v1|]; [| reflexivity].
  cbn [ret]. unfold bind at 1. unfold lift at 1.
  destruct (is_waiting v1) as [[|] | e |]; try reflexivity.
  unfold bind at 1. unfold lift at 1. cbn [subscript]. unfold rbind at 1.
  destruct (py_getitem v1 "Waiting") as [w | e |]; try reflexivity.
  unfold bind at 1. unfold lift at 1. unfold rbind at 1.
  destruct (py_getitem w "ListKey") as [key | e |]; try reflexivity.
  cbn [rbind]. unfold bind at 1.
  destruct (poll fuel key domain operation kwargs r1 v1 st1) as [[r | e |] st2];
    try reflexivity.
  destruct (opt_is output "JSON"); reflexivity.
Qed.

(** The first thing [get] hands to [urlopen] on the asynchronous branch:
    the request built with no operation and with JSON output. *)
Lemma get_asynchronous_first_request (identifier : json) (id : string)
    (namespace domain operation output searchtype : option string)
    (kwargs : dict) (st : state) :
  asynchronous namespace searchtype ->
  normalize_identifier identifier = Return id ->
  let b := build id namespace domain None (Some "JSON") searchtype kwargs in
  exists rest,
    events (snd (get identifier namespace domain operation output searchtype kwargs st))
    = (events st ++ [Debug "Request URL: %s" (Some (apiurl b));
                     Debug "Request data: %s" (postdata b);
                     Sent (apiurl b) (postdata b)] ++ rest)%list.
Proof.
  intros Ha Hid b.
  pose proof (request_events identifier id namespace domain None (Some "JSON")
                searchtype kwargs st Hid) as Hev. fold b in Hev.
  assert (Hgoal : forall st2,
             continues (snd (request identifier namespace domain None (Some "JSON")
                                     searchtype kwargs st)) st2 ->
             exists rest, events st2
               = (events st ++ [Debug "Request URL: %s" (Some (apiurl b));
                                Debug "Request data: %s" (postdata b);
                                Sent (apiurl b) (postdata b)] ++ rest)%list).
  { intros st2 [evs Hevs]. exists evs. now rewrite Hevs, Hev, <- app_assoc. }
  apply Hgoal. rewrite get_asynchronous by exact Ha.
  destruct (request identifier namespace domain None (Some "JSON") searchtype kwargs st)
    as [[r1 | e |] st1]; cbn [snd]; try apply continues_refl.
  destruct (json_loads r1) as [v1|]; [| apply continues_refl].
  destruct (is_waiting v1) as [[|] | e |]; try apply continues_refl.
  destruct (subscript v1 [K "Waiting"; K "ListKey"]) as [key | e |];
    try apply continues_refl.
  pose proof (poll_continues fuel key domain operation kwargs r1 v1 st1) as Hp.
  destruct (poll fuel key domain operation kwargs r1 v1 st1) as [[r | e |] st2];
    cbn [snd] in *; try exact Hp.
  destruct (opt_is output "JSON"); cbn [snd]; [exact Hp |].
  eapply continues_trans; [exact Hp | apply request_continues].
Qed.

(** C2.  For every call of [get] with a search type set or with namespace
    [formula]: the first request handed to [urlopen] carries no operation
    and asks for JSON whatever output the caller wants.  When its decoded
    answer carries no waiting indicator, that first payload is returned as
    it is.  When it carries [Waiting] with a [ListKey], the identifier
    becomes that key, the namespace becomes [listkey], and rounds of
    "sleep 2, request with the operation and JSON output, decode" follow
    until an answer carries no indicator any more; then the last payload
    is returned if the caller asked for JSON, and otherwise one more
    request, for the key with the output the caller asked for, is made and
    its outcome returned. *)
Theorem get_asynchronous_protocol (identifier : json)
    (namespace domain operation output searchtype : option string)
    (kwargs : dict) (st : state) :
  asynchronous namespace searchtype ->
  (forall id : string,
      normalize_identifier identifier = Return id ->
      let b := build id namespace domain None (Some "JSON") searchtype kwargs in
      exists rest,
        events (snd (get identifier namespace domain operation output searchtype
                         kwargs st))
        = (events st ++ [Debug "Request URL: %s" (Some (apiurl b));
                         Debug "Request data: %s" (postdata b);
                         Sent (apiurl b) (postdata b)] ++ rest)%list)
  /\ (forall (r1 : string) (st1 : state) (v1 : json),
        request identifier namespace domain None (Some "JSON") searchtype kwargs st
        = (Return r1, st1) ->
        json_loads r1 = Some v1 ->
        (is_waiting v1 = Return false ->
           get identifier namespace domain operation output searchtype kwargs st
           = (Return r1, st1))
        /\ (forall (key : json) (n : nat) (r : string) (st2 : state),
              is_waiting v1 = Return true ->
              subscript v1 [K "Waiting"; K "ListKey"] = Return key ->
              polls key domain operation kwargs n st1 r st2 ->
              (n <= fuel)%nat ->
              (output = Some "JSON" ->
                 get identifier namespace domain operation output searchtype
                     kwargs st
                 = (Return r, st2))
              /\ (output <> Some "JSON" ->
                  get identifier namespace domain operation output searchtype
                      kwargs st
                  = request key (Some "listkey") domain operation output searchtype
                            kwargs st2))).
Proof.
  intros Ha. split.
  - intros id Hid. now apply get_asynchronous_first_request.
  - intros r1 st1 v1 Hreq Hv. rewrite get_asynchronous by exact Ha.
    rewrite Hreq, Hv. split.
    + intros Hw. now rewrite Hw.
    + intros key n r st2 Hw Hkey Hpolls Hn. rewrite Hw, Hkey.
      rewrite (poll_follows _ _ _ _ _ _ _ _ Hpolls fuel r1 v1 Hw Hn).
      split; intros Hout.
      * apply eqb_Some in Hout. now rewrite Hout.
      * destruct (opt_is output "JSON") eqn:E; [| reflexivity].
        apply eqb_Some in E. contradiction.
Qed.

(** The calls of [urlopen] a request adds, and the ones a run of polling
    adds. *)
Lemma requests_sent_app (a b : list event) :
  requests_sent (a ++ b) = (requests_sent a ++ requests_sent b)%list.
Proof. apply flat_map_app. Qed.

Lemma request_sent (identifier : json) (id : string)
    (namespace domain operation output searchtype : option string)
    (kwargs : dict) (st : state) :
  normalize_identifier identifier = Return id ->
  let b := build id namespace domain operation output searchtype kwargs in
  requests_sent
    (events (snd (request identifier namespace domain operation output searchtype
                          kwargs st)))
  = (requests_sent (events st) ++ [(apiurl b, postdata b)])%list.
Proof.
  intros Hid b.
  rewrite (request_events identifier id namespace domain operation output searchtype
             kwargs st Hid).
  fold b. now rewrite requests_sent_app.
Qed.

Lemma polls_requests_sent (key : json) (k : string) (domain operation : option string)
    (kwargs : dict) (n : nat) (st : state) (r : string) (st' : state) :
  normalize_identifier key = Return k ->
  polls key domain operation kwargs n st r st' ->
  let p := build k (Some "listkey") domain operation (Some "JSON") None kwargs in
  requests_sent (events st')
  = (requests_sent (events st) ++ repeat (apiurl p, postdata p) n)%list.
Proof.
  intros Hk Hpolls p.
  induction Hpolls as [st r st' v Hreq _ _ | n st r0 st0 v r st' Hreq _ _ _ IH].
  - pose proof (request_sent key k (Some "listkey") domain operation (Some "JSON")
                  None kwargs (record_events [Slept 2] st) Hk) as Hsent.
    rewrite Hreq in Hsent. cbn [snd] in Hsent. fold p in Hsent.
    rewrite Hsent. unfold record_events. cbn [events].
    rewrite requests_sent_app. cbn [requests_sent flat_map repeat].
    now rewrite app_nil_r.
  - pose proof (request_sent key k (Some "listkey") domain operation (Some "JSON")
                  None kwargs (record_events [Slept 2] st) Hk) as Hsent.
    rewrite Hreq in Hsent. cbn [snd] in Hsent. fold p in Hsent.
    rewrite IH, Hsent. unfold record_events. cbn [events].
    rewrite requests_sent_app. cbn [requests_sent flat_map repeat].
    now rewrite app_nil_r, <- app_assoc.
Qed.

(** C10.  On the asynchronous branch of [get] the operation the caller
    asks for is left out of the first request and is part of every later
    one.  The first request is built with no operation, whatever operation
    the caller passes: its path is made of the base, domain, search type,
    namespace, URL-embedded identifier and [JSON] only.  When the decoded
    answer to it carries no waiting indicator, [get] returns that payload
    for every operation and every output the caller asks for, and that
    one request is all it sent.  When the answer carries a work ticket,
    each of the polling requests that follow has the operation in its
    path, after the ticket, and so has the final request for the output
    the caller asked for: the requests sent are the first one, one polling
    request per round, and the final one when the output is not JSON. *)
Theorem get_asynchronous_first_request_omits_operation (identifier : json)
    (id : string) (namespace domain searchtype : option string)
    (kwargs : dict) (st : state) :
  asynchronous namespace searchtype ->
  normalize_identifier identifier = Return id ->
  forall operation output : option string,
    let b := build id namespace domain None (Some "JSON") searchtype kwargs in
    apiurl b = join "/" (filter_none [Some API_BASE; domain; searchtype; namespace;
                                      urlid b; Some "JSON"])
               ++ query_string kwargs
    /\ (exists rest,
          events (snd (get identifier namespace domain operation output searchtype
                           kwargs st))
          = (events st ++ [Debug "Request URL: %s" (Some (apiurl b));
                           Debug "Request data: %s" (postdata b);
                           Sent (apiurl b) (postdata b)] ++ rest)%list)
    /\ (forall (r1 : string) (st1 : state) (v1 : json),
          request identifier namespace domain None (Some "JSON") searchtype kwargs st
            = (Return r1, st1) ->
          json_loads r1 = Some v1 ->
          (is_waiting v1 = Return false ->
             get identifier namespace domain operation output searchtype kwargs st
             = (Return r1, st1)
             /\ requests_sent (events st1)
                = (requests_sent (events st) ++ [(apiurl b, postdata b)])%list)
          /\ (forall (key : json) (k : string) (n : nat) (r : string) (st2 : state),
                is_waiting v1 = Return true ->
                subscript v1 [K "Waiting"; K "ListKey"] = Return key ->
                normalize_identifier key = Return k ->
                polls key domain operation kwargs n st1 r st2 ->
                (n <= fuel)%nat ->
                let polling :=
                  join "/" (filter_none [Some API_BASE; domain; Some "listkey";
                                         Some (quote k); operation; Some "JSON"])
                  ++ query_string kwargs in
                let final :=
                  join "/" (filter_none [Some API_BASE; domain; searchtype;
                                         Some "listkey"; Some (quote k); operation;
                                         output])
                  ++ query_string kwargs in
                requests_sent
                  (events (snd (get identifier namespace domain operation output
                                    searchtype kwargs st)))
                = (requests_sent (events st)
                   ++ (apiurl b, postdata b)
                   :: repeat (polling, None) n
                   ++ (if opt_is output "JSON" then [] else [(final, None)]))%list)).
Proof.
  intros Ha Hid operation output b. split; [| split].
  - unfold b. rewrite build_apiurl. reflexivity.
  - now apply get_asynchronous_first_request.
  - intros r1 st1 v1 Hreq Hv.
    assert (Hfirst : requests_sent (events st1)
                     = (requests_sent (events st) ++ [(apiurl b, postdata b)])%list).
    { pose proof (request_sent identifier id namespace domain None (Some "JSON")
                    searchtype kwargs st Hid) as Hsent.
      now rewrite Hreq in Hsent. }
    split.
    + intros Hw. split; [| exact Hfirst].
      rewrite get_asynchronous by exact Ha. now rewrite Hreq, Hv, Hw.
    + intros key k n r st2 Hw Hkey Hk Hpolls Hn polling final.
      pose proof (polls_requests_sent key k domain operation kwargs n st1 r st2
                    Hk Hpolls) as Hrounds.
      cbv zeta in Hrounds. rewrite build_apiurl in Hrounds.
      change (postdata (build k (Some "listkey") domain operation (Some "JSON") None
                              kwargs)) with (@None string) in Hrounds.
      change (urlid (build k (Some "listkey") domain operation (Some "JSON") None
                           kwargs)) with (Some (quote k)) in Hrounds.
      change (filter_none [Some API_BASE; domain; None; Some "listkey";
                           Some (quote k); operation; Some "JSON"])
        with (filter_none [Some API_BASE; domain; Some "listkey";
                           Some (quote k); operation; Some "JSON"]) in Hrounds.
      fold polling in Hrounds.
      rewrite get_asynchronous by exact Ha. rewrite Hreq, Hv, Hw, Hkey.
      rewrite (poll_follows _ _ _ _ _ _ _ _ Hpolls fuel r1 v1 Hw Hn).
      destruct (opt_is output "JSON").
      * cbn [snd]. rewrite Hrounds, Hfirst, app_nil_r, <- app_assoc. reflexivity.
      * pose proof (request_sent key k (Some "listkey") domain operation output
                      searchtype kwargs st2 Hk) as Hlast.
        cbv zeta in Hlast. rewrite build_apiurl in Hlast.
        change (postdata (build k (Some "listkey") domain operation output searchtype
                                kwargs)) with (@None string) in Hlast.
        change (urlid (build k (Some "listkey") domain operation output searchtype
                             kwargs)) with (Some (quote k)) in Hlast.
        fold final in Hlast.
        rewrite Hlast, Hrounds, Hfirst, <- !app_assoc. reflexivity.
Qed.

(** ** C3: the property lookup *)

Lemma is_JStr_spec (s : string) (v : json) : is_JStr s v = true <-> v = JStr s.
Proof.
  destruct v; simpl; try (split; [discriminate | intros [=]]).
  rewrite String.eqb_eq. split; [intros -> | intros [= ->]]; reflexivity.
Qed.

Lemma item_in_spec (tags : dict) (k v : string) :
  item_in tags (k, v) = true <-> dict_get k tags = Some (JStr v).
Proof.
  unfold item_in. cbn [fst snd]. destruct (dict_get k tags) as [x|].
  - rewrite is_JStr_spec. split; [intros -> | intros [= ->]]; reflexivity.
  - split; discriminate.
Qed.

Lemma tags_include_spec (search : list (string * string)) (tags : dict) :
  forallb (item_in tags) search = true <-> tags_include search tags.
Proof.
  unfold tags_include. rewrite forallb_forall. split.
  - intros H k v Hin. apply item_in_spec. now apply H.
  - intros H [k v] Hin. apply item_in_spec. now apply H.
Qed.

Lemma selected_spec (search : list (string * string)) (e : json) :
  selected search e = true <-> entry_matches search e.
Proof.
  unfold selected, entry_matches. destruct (entry_tags e) as [tags|].
  - rewrite tags_include_spec. split.
    + intros H. now exists tags.
    + intros (t & [= <-] & H). exact H.
  - split; [discriminate | intros (t & H & _); discriminate].
Qed.

Lemma urn_matches_entry (search : list (string * string)) (e : json) :
  (exists tags, entry_tags e = Some tags) ->
  urn_matches search e = Return (selected search e).
Proof.
  intros [tags Ht]. unfold selected. rewrite Ht.
  unfold urn_matches. destruct search as [|item search]; [reflexivity |].
  unfold entry_tags in Ht. destruct e as [| | | | | |m]; try discriminate.
  cbn [py_getitem]. destruct (dict_get "urn" m) as [[| | | | | |t]|]; try discriminate.
  injection Ht as ->. reflexivity.
Qed.

Lemma filterR_entries (search : list (string * string)) (entries : list json) :
  Forall PropertyEntry entries ->
  filterR (urn_matches search) entries
  = Return (List.filter (selected search) entries).
Proof.
  induction 1 as [|e entries [Ht _] _ IH]; [reflexivity |].
  cbn [filterR List.filter]. rewrite (urn_matches_entry _ _ Ht), IH. reflexivity.
Qed.

Lemma filter_first {A} (f : A -> bool) (before : list A) (x : A) (after : list A) :
  Forall (fun y => f y = false) before -> f x = true ->
  List.filter f (before ++ x :: after) = x :: List.filter f after.
Proof.
  induction 1 as [|y before Hy _ IH]; intros Hx; cbn [app List.filter].
  - now rewrite Hx.
  - rewrite Hy. now apply IH.
Qed.

Lemma filter_none_selected {A} (f : A -> bool) (l : list A) :
  Forall (fun y => f y = false) l -> List.filter f l = [].
Proof.
  induction 1 as [|y l Hy _ IH]; cbn [List.filter]; [reflexivity |].
  now rewrite Hy.
Qed.

Lemma not_matches_selected (search : list (string * string)) (l : list json) :
  Forall (fun e => ~ entry_matches search e) l ->
  Forall (fun e => selected search e = false) l.
Proof.
  intros H. eapply Forall_impl; [exact H |].
  intros e Hn. destruct (selected search e) eqn:E; [| reflexivity].
  apply selected_spec in E. contradiction.
Qed.

Lemma first_value (e : json) (v : json) :
  entry_value e = Some v ->
  (let* value := py_getitem e "value" in
   match value with
   | JObj kinds =>
       match dict_keys kinds with
       | [] => Raise IndexError
       | kind :: _ => py_getitem value kind
       end
   | _ => Raise (AttributeError "keys")
   end) = Return v.
Proof.
  unfold entry_value. destruct e as [| | | | | |m]; try discriminate.
  cbn [py_getitem].
  destruct (dict_get "value" m) as [[| | | | | |[|[kind x] [|]]]|]; try discriminate.
  intros [= ->]. cbn. now rewrite String.eqb_refl.
Qed.

(** C3.  For every tag filter and every sequence of property entries, each
    tagged and carrying one value under its one value-kind key: the lookup
    returns the value of the first entry whose tag set holds every
    (field, value) pair of the filter, whatever other tags that entry has
    and however many earlier entries hold only some of the pairs; and it
    returns [None], not an error, when no entry matches. *)
Theorem parse_prop_first_match (search : list (string * string))
    (entries : list json) :
  Forall PropertyEntry entries ->
  (forall (before : list json) (e : json) (after : list json),
      entries = (before ++ e :: after)%list ->
      Forall (fun x => ~ entry_matches search x) before ->
      entry_matches search e ->
      exists v, entry_value e = Some v
                /\ _parse_prop search (JArr entries) = Return v)
  /\ (Forall (fun x => ~ entry_matches search x) entries ->
      _parse_prop search (JArr entries) = Return JNull).
Proof.
  intros Hwf. unfold _parse_prop. cbn [py_iter rbind].
  rewrite (filterR_entries search entries Hwf). cbn [rbind].
  split.
  - intros before e after -> Hbefore He.
    apply Forall_app in Hwf as [_ Hwf]. apply Forall_cons_iff in Hwf as [[_ [v Hv]] _].
    exists v. split; [exact Hv |].
    rewrite filter_first.
    + now apply first_value.
    + now apply not_matches_selected.
    + now apply selected_spec.
  - intros Hnone. rewrite filter_none_selected; [reflexivity |].
    now apply not_matches_selected.
Qed.

(** ** C7: the error classifier *)



(** ** C6: [get_json] suppresses [NotFoundError] and nothing else *)

Lemma get_synchronous (identifier : json)
    (namespace domain operation output searchtype : option string)
    (kwargs : dict) (st : state) :
  ~ asynchronous namespace searchtype ->
  get identifier namespace domain operation output searchtype kwargs st
  = request identifier namespace domain operation output searchtype kwargs st.
Proof.
  intros Hn. unfold get.
  destruct (opt_truthy searchtype || opt_is namespace "formula") eqn:E;
    [| reflexivity].
  apply asynchronous_spec in E. contradiction.
Qed.

(** [get_json] in terms of the outcome of [get]. *)
Lemma get_json_outcome (identifier : json)
    (namespace domain operation searchtype : option string)
    (kwargs : dict) (st : state) :
  get_json identifier namespace domain operation searchtype kwargs st =
  match get identifier namespace domain operation (Some "JSON") searchtype kwargs st with
  | (Return response, st') =>
      match json_loads response with
      | Some v => (Return v, st')
      | None => (Raise ValueError, st')
      end
  | (Raise (NotFoundError msg), st') =>
      (Return JNull, record_events [Info (NotFoundError msg)] st')
  | (Raise e, st') => (Raise e, st')
  | (Diverge, st') => (Diverge, st')
  end.
Proof.
  unfold get_json, try_except, bind.
  destruct (get identifier namespace domain operation (Some "JSON") searchtype kwargs st)
    as [[response | e |] st']; [| destruct e; reflexivity | reflexivity].
  unfold loads. destruct (json_loads response); reflexivity.
Qed.

(** C6.  Whenever [get] (and so the request under it) raises
    [NotFoundError], [get_json] records it in the log and returns [None];
    every other exception raised on the way passes through [get_json]
    unchanged.  So for a namespace that is not asynchronous, when the
    request for the compounds raises [NotFoundError], [get_compounds]
    returns the empty list. *)
Theorem get_json_suppresses_NotFound (identifier : json)
    (namespace domain operation searchtype : option string)
    (kwargs : dict) (st : state) :
  (forall (msg : string) (st' : state),
      get identifier namespace domain operation (Some "JSON") searchtype kwargs st
      = (Raise (NotFoundError msg), st') ->
      get_json identifier namespace domain operation searchtype kwargs st
      = (Return JNull, record_events [Info (NotFoundError msg)] st'))
  /\ (forall (e : exc) (st' : state),
        get identifier namespace domain operation (Some "JSON") searchtype kwargs st
        = (Raise e, st') ->
        (forall msg, e <> NotFoundError msg) ->
        get_json identifier namespace domain operation searchtype kwargs st
        = (Raise e, st'))
  /\ (forall (msg : string) (st' : state),
        ~ asynchronous namespace searchtype ->
        request identifier namespace (Some "compound") None (Some "JSON") searchtype
                kwargs st
        = (Raise (NotFoundError msg), st') ->
        get_compounds identifier namespace searchtype false kwargs st
        = (Return (Entities []), record_events [Info (NotFoundError msg)] st')).
Proof.
  split; [| split].
  - intros msg st' Hget. now rewrite get_json_outcome, Hget.
  - intros e st' Hget Hother. rewrite get_json_outcome, Hget.
    destruct e; try reflexivity. exfalso. now apply (Hother msg).
  - intros msg st' Hsync Hreq. unfold get_compounds, bind.
    rewrite get_json_outcome, (get_synchronous _ _ _ _ _ _ _ _ Hsync), Hreq.
    reflexivity.
Qed.

(** ** C9: the identity accessors *)

(** C9, as the code has it.  [Compound.cid] is total on records made of
    nested objects: it returns the value under [id.id.cid] when the path
    is there and [None] when it is not.  [Substance.sid] and [Assay.aid]
    subscript the record directly: they return the value under [sid.id]
    and [id.id.aid] when the path is there and raise [KeyError] when it is
    not. *)
Theorem identity_accessors_on_missing_path :
  (forall c : Compound,
      nested_objects (Compound_record c) ["id"; "id"] = true ->
      Compound_cid c
      = Return (match lookup_path (Compound_record c) ["id"; "id"; "cid"] with
                | Some v => v
                | None => JNull
                end))
  /\ (forall s : Substance,
        nested_objects (Substance_record s) ["sid"] = true ->
        match lookup_path (Substance_record s) ["sid"; "id"] with
        | Some v => Substance_sid s = Return v
        | None => exists k, Substance_sid s = Raise (KeyError (JStr k))
        end)
  /\ (forall a : Assay,
        nested_objects (Assay_record a) ["id"; "id"] = true ->
        match lookup_path (Assay_record a) ["id"; "id"; "aid"] with
        | Some v => Assay_aid a = Return v
        | None => exists k, Assay_aid a = Raise (KeyError (JStr k))
        end).
Proof.
  split; [| split].
  - intros [record memo]. unfold Compound_cid. cbn [Compound_record].
    destruct record as [| | | | | |m]; try discriminate.
    cbn [nested_objects lookup_path py_and py_contains rbind subscript py_getitem].
    unfold dict_has.
    destruct (dict_get "id" m) as [x|] eqn:E1; [| reflexivity].
    destruct x as [| | | | | |m1]; try discriminate.
    cbn [nested_objects lookup_path py_and py_contains rbind subscript py_getitem].
    unfold dict_has.
    destruct (dict_get "id" m1) as [y|] eqn:E2; [| reflexivity].
    destruct y as [| | | | | |m2]; try discriminate.
    cbn [nested_objects lookup_path py_and py_contains rbind subscript py_getitem].
    unfold dict_has.
    destruct (dict_get "cid" m2) as [z|] eqn:E3; reflexivity.
  - intros [record memo]. unfold Substance_sid. cbn [Substance_record].
    destruct record as [| | | | | |m]; try discriminate.
    cbn [nested_objects lookup_path rbind subscript py_getitem].
    destruct (dict_get "sid" m) as [x|] eqn:E1; [| intros _; now eexists].
    destruct x as [| | | | | |m1]; try discriminate.
    cbn [nested_objects lookup_path rbind subscript py_getitem].
    destruct (dict_get "id" m1) as [y|] eqn:E2; [reflexivity | intros _; now eexists].
  - intros [record]. unfold Assay_aid. cbn [Assay_record].
    destruct record as [| | | | | |m]; try discriminate.
    cbn [nested_objects lookup_path rbind subscript py_getitem].
    destruct (dict_get "id" m) as [x|] eqn:E1; [| intros _; now eexists].
    destruct x as [| | | | | |m1]; try discriminate.
    cbn [nested_objects lookup_path rbind subscript py_getitem].
    destruct (dict_get "id" m1) as [y|] eqn:E2; [| intros _; now eexists].
    destruct y as [| | | | | |m2]; try discriminate.
    cbn [nested_objects lookup_path rbind subscript py_getitem].
    destruct (dict_get "aid" m2) as [z|] eqn:E3; [reflexivity | intros _; now eexists].
Qed.

(** ** C5: the memoized accessors of a compound without identity *)

(** C5, as the code has it.  For every [Compound] whose [cid] is absent,
    each memoized accessor ([synonyms], [sids], [aids]), on its first
    access, returns [None] (not an error, and not an empty sequence),
    stores that result on the instance, and leaves the service and the
    event list untouched: no fetch takes place. *)
Theorem memoized_accessors_without_cid (self : Compound) (st : state) :
  Compound_cid self = Return JNull ->
  (dict_get "_synonyms" (Compound_memo self) = None ->
     Compound_synonyms self st
     = (Return (JNull, mkCompound (Compound_record self)
                         (dict_set "_synonyms" JNull (Compound_memo self))), st))
  /\ (dict_get "_sids" (Compound_memo self) = None ->
      Compound_sids self st
      = (Return (JNull, mkCompound (Compound_record self)
                          (dict_set "_sids" JNull (Compound_memo self))), st))
  /\ (dict_get "_aids" (Compound_memo self) = None ->
      Compound_aids self st
      = (Return (JNull, mkCompound (Compound_record self)
                          (dict_set "_aids" JNull (Compound_memo self))), st)).
Proof.
  intros Hcid.
  assert (Hfetch : forall operation field,
             Compound_fetch operation field self st = (Return JNull, st)).
  { intros operation field. unfold Compound_fetch, bind, lift. rewrite Hcid.
    reflexivity. }
  split; [| split]; intros Hfresh.
  - unfold Compound_synonyms, Compound_memoized, memoized_property.
    cbn [append]. rewrite Hfresh. unfold bind, synonyms_fget. rewrite Hfetch.
    reflexivity.
  - unfold Compound_sids, Compound_memoized, memoized_property.
    cbn [append]. rewrite Hfresh. unfold bind, sids_fget. rewrite Hfetch.
    reflexivity.
  - unfold Compound_aids, Compound_memoized, memoized_property.
    cbn [append]. rewrite Hfresh. unfold bind, aids_fget. rewrite Hfetch.
    reflexivity.
Qed.

(** ** C8: the atoms accessor *)

Lemma subscript_app (v : json) (p q : list key) :
  subscript v (p ++ q) = let* x := subscript v p in subscript x q.
Proof.
  revert v. induction p as [|[name | index] p IH]; intros v; cbn [app subscript].
  - reflexivity.
  - destruct (py_getitem v name); cbn [rbind]; [apply IH | reflexivity | reflexivity].
  - destruct (py_getitem_int v index); cbn [rbind];
      [apply IH | reflexivity | reflexivity].
Qed.

Lemma zip_rows_atoms (n : nat) (xs ys es : list json) :
  (length xs <= n)%nat ->
  map dict_of_pairs
      (zip_rows n [map (pair "x") xs; map (pair "y") ys; map (pair "element") es])
  = zip_atoms xs ys es.
Proof.
  revert xs ys es. induction n as [|n IH]; intros xs ys es Hn.
  - destruct xs; [reflexivity | cbn in Hn; lia].
  - destruct xs as [|x xs]; [reflexivity |].
    destruct ys as [|y ys]; [reflexivity |].
    destruct es as [|e es]; [reflexivity |].
    cbn [zip_rows map heads fold_right tail zip_atoms].
    f_equal. apply IH. cbn in Hn. lia.
Qed.

Lemma zip_rows_atoms_3d (n : nat) (xs ys es zs : list json) :
  (length xs <= n)%nat ->
  map dict_of_pairs
      (zip_rows n [map (pair "x") xs; map (pair "y") ys; map (pair "element") es;
                   map (pair "z") zs])
  = zip_atoms_3d xs ys es zs.
Proof.
  revert xs ys es zs. induction n as [|n IH]; intros xs ys es zs Hn.
  - destruct xs; [reflexivity | cbn in Hn; lia].
  - destruct xs as [|x xs]; [reflexivity |].
    destruct ys as [|y ys]; [reflexivity |].
    destruct es as [|e es]; [reflexivity |].
    destruct zs as [|z zs]; [reflexivity |].
    cbn [zip_rows map heads fold_right tail zip_atoms_3d].
    f_equal. apply IH. cbn in Hn. lia.
Qed.

Lemma insert_alter {A} (f : A -> A) (l : list A) (i : nat) (a : A) :
  l !! i = Some a -> <[i := f a]> l = alter f i l.
Proof.
  revert i. induction l as [|b l IH]; intros [|i]; cbn; try discriminate.
  - now intros [= ->].
  - intros H. f_equal. now apply IH.
Qed.

Lemma seq_position_in_range (n i : nat) :
  (i < n)%nat -> seq_position n (Z.of_nat i) = Some i.
Proof.
  intros H. unfold seq_position.
  destruct (Z.leb_spec 0 (Z.of_nat i)); [| lia].
  destruct (Z.ltb_spec (Z.of_nat i) (Z.of_nat n)); [| lia].
  cbn. now rewrite Nat2Z.id.
Qed.

Lemma set_charge_overlay (atomlist : list dict) (c : json) (a : nat * json) :
  charge_annotation c a -> (fst a < length atomlist)%nat ->
  set_charge atomlist c = Return (overlay atomlist a).
Proof.
  intros (m & -> & Haid & Hvalue) Hin. unfold set_charge, overlay.
  cbn [py_getitem]. rewrite Hvalue, Haid. cbn [rbind as_index].
  rewrite (seq_position_in_range _ _ Hin). cbv beta iota.
  destruct (lookup_lt_is_Some_2 atomlist (fst a) Hin) as [atom Hatom].
  unfold dict in *. rewrite Hatom. f_equal. now apply insert_alter.
Qed.

Lemma foldR_set_charge (cs : list json) (anns : list (nat * json)) :
  Forall2 charge_annotation cs anns ->
  forall atomlist : list dict,
    Forall (fun a => (fst a < length atomlist)%nat) anns ->
    foldR set_charge cs atomlist = Return (fold_left overlay anns atomlist).
Proof.
  induction 1 as [|c a cs anns Hc _ IH]; intros atomlist Hin; [reflexivity |].
  apply Forall_cons_iff in Hin as [Ha Hin].
  cbn [foldR fold_left]. rewrite (set_charge_overlay _ _ _ Hc Ha). cbn [rbind].
  apply IH. unfold overlay. eapply Forall_impl; [exact Hin |].
  intros b Hb. now rewrite length_alter.
Qed.

(** C8.  For every compound record whose first conformer carries the
    arrays [x] and [y] and whose [atoms] carry the array [element] (and
    possibly charge annotations, each naming a position of the atom list):
    the atoms accessor returns the index-wise zip of the arrays, one
    mapping per atom, with each annotation's value stored under [charge]
    in the atom at the position the annotation's [aid] gives; when the
    conformer also carries [z], the mappings hold [z] as well. *)
Theorem atoms_zip_and_overlay (self : Compound) (conf atoms : dict)
    (xs ys es cs : list json) (anns : list (nat * json)) :
  subscript (Compound_record self) conformer = Return (JObj conf) ->
  dict_get "x" conf = Some (JArr xs) ->
  dict_get "y" conf = Some (JArr ys) ->
  py_getitem (Compound_record self) "atoms" = Return (JObj atoms) ->
  dict_get "element" atoms = Some (JArr es) ->
  (dict_get "charge" atoms = None /\ cs = []
   \/ dict_get "charge" atoms = Some (JArr cs)) ->
  Forall2 charge_annotation cs anns ->
  (dict_get "z" conf = None ->
     Forall (fun a => (fst a < length (zip_atoms xs ys es))%nat) anns ->
     Compound_atoms self
     = Return (JArr (map JObj (fold_left overlay anns (zip_atoms xs ys es)))))
  /\ (forall zs : list json,
        dict_get "z" conf = Some (JArr zs) ->
        Forall (fun a => (fst a < length (zip_atoms_3d xs ys es zs))%nat) anns ->
        Compound_atoms self
        = Return (JArr (map JObj (fold_left overlay anns
                                            (zip_atoms_3d xs ys es zs))))).
Proof.
  intros Hconf Hx Hy Hatoms He Hcharge Hanns.
  assert (Hstart : forall k v, dict_get k conf = Some v ->
             subscript (Compound_record self) (conformer ++ [K k]) = Return v).
  { intros k v Hk. rewrite subscript_app, Hconf. cbn. now rewrite Hk. }
  assert (Helement :
            subscript (Compound_record self) [K "atoms"; K "element"]
            = Return (JArr es)).
  { cbn [subscript]. rewrite Hatoms. cbn. now rewrite He. }
  assert (Hcharges : forall rows : list dict,
             Forall (fun a => (fst a < length rows)%nat) anns ->
             (let* atoms := subscript (Compound_record self) [K "atoms"] in
              let* has_charge := py_contains "charge" atoms in
              if has_charge then
                let* charges := subscript (Compound_record self)
                                          [K "atoms"; K "charge"] in
                let* charges := py_iter charges in
                let* atomlist := foldR set_charge charges rows in
                Return (JArr (map JObj atomlist))
              else Return (JArr (map JObj rows)))
             = Return (JArr (map JObj (fold_left overlay anns rows)))).
  { intros rows Hin. cbn [subscript]. rewrite Hatoms. cbn [rbind py_contains].
    unfold dict_has. destruct Hcharge as [[Hnone ->] | Hsome].
    - rewrite Hnone. inversion Hanns. reflexivity.
    - rewrite Hsome. cbn [py_getitem]. rewrite Hsome. cbn [rbind py_iter].
      now rewrite (foldR_set_charge cs anns Hanns rows Hin). }
  split.
  - intros Hz Hin. unfold Compound_atoms.
    rewrite (Hstart "x" _ Hx), (Hstart "y" _ Hy), Helement, Hconf.
    cbn [rbind py_contains]. unfold dict_has. rewrite Hz. cbn [rbind].
    cbn [columns mapR py_iter rbind fst snd zip_star length].
    rewrite length_map, zip_rows_atoms by lia.
    now apply Hcharges.
  - intros zs Hz Hin. unfold Compound_atoms.
    rewrite (Hstart "x" _ Hx), (Hstart "y" _ Hy), Helement, Hconf.
    cbn [rbind py_contains]. unfold dict_has. rewrite Hz.
    rewrite (Hstart "z" _ Hz). cbn [rbind].
    cbn [dict_set String.eqb Ascii.eqb Bool.eqb].
    cbn [columns mapR py_iter rbind fst snd zip_star length].
    rewrite length_map, zip_rows_atoms_3d by lia.
    now apply Hcharges.
Qed.

(** ** Further properties of the specification *)

Lemma dict_get_set {V} (k : string) (v : V) (d : list (string * V)) :
  dict_get k (dict_set k v d) = Some v.
Proof.
  induction d as [|[k' v'] d IH]; cbn [dict_set dict_get].
  - now rewrite String.eqb_refl.
  - destruct (String.eqb k k') eqn:E; cbn [dict_get].
    + now rewrite String.eqb_refl.
    + now rewrite E.
Qed.

(** A memoized accessor of [Compound] that returned once returns the same
    value again from the instance it left behind, without touching the
    service or recording any event: two accesses make one fetch at most. *)
Theorem memoized_second_access (name : string) (fget : Compound -> M json)
    (self self' : Compound) (st st' : state) (v : json) :
  Compound_memoized name fget self st = (Return (v, self'), st') ->
  Compound_memoized name fget self' st' = (Return (v, self'), st').
Proof.
  unfold Compound_memoized, memoized_property.
  destruct (dict_get ("_" ++ name) (Compound_memo self)) as [cached|] eqn:E.
  - unfold ret. intros [= -> -> ->]. now rewrite E.
  - unfold bind. destruct (fget self st) as [[x | e |] st1]; try discriminate.
    unfold ret. intros [= -> <- ->]. cbn [Compound_memo].
    now rewrite dict_get_set.
Qed.

(** An identifier given as a list of integers is transmitted as the
    comma-join of their decimal forms. *)
Theorem normalize_identifier_list (ns : list Z) :
  normalize_identifier (JArr (map JInt ns)) = Return (join "," (map str_of_int ns)).
Proof.
  cbn [normalize_identifier py_iter rbind]. now rewrite map_map.
Qed.

(** *** What the identifier can and cannot put on the wire *)

Lemma chars_app (a b : string) :
  list_ascii_of_string (a ++ b)
  = (list_ascii_of_string a ++ list_ascii_of_string b)%list.
Proof. induction a as [|c a IH]; cbn; [reflexivity | now rewrite IH]. Qed.

Lemma occurs_app (c : ascii) (a b : string) :
  occurs c (a ++ b) = occurs c a || occurs c b.
Proof. unfold occurs. now rewrite chars_app, existsb_app. Qed.

Lemma hex_digit_safe (c : ascii) :
  always_safe (hex_digit (nat_of_ascii c / 16)) = true
  /\ always_safe (hex_digit (nat_of_ascii c mod 16)) = true.
Proof. destruct c as [[] [] [] [] [] [] [] []]; split; reflexivity. Qed.

Lemma occurs_percent (c a : ascii) :
  occurs c (percent a) = true -> c = "%"%char \/ always_safe c = true.
Proof.
  unfold occurs, percent. cbn [list_ascii_of_string existsb].
  destruct (hex_digit_safe a) as [Hhi Hlo].
  rewrite !orb_true_iff, !Ascii.eqb_eq.
  intros [-> | [-> | [-> | H]]]; [now left | now right | now right | discriminate].
Qed.

(** A character met in a quoted string is the percent sign, a character
    that is always safe, or one of the extra safe characters that was in
    the input already. *)
Lemma occurs_quote (safe : list ascii) (c : ascii) (s : string) :
  occurs c (quote_from_bytes safe s) = true ->
  c = "%"%char \/ always_safe c = true \/ (In c safe /\ occurs c s = true).
Proof.
  induction s as [|a s IH]; [discriminate |].
  cbn [quote_from_bytes]. rewrite occurs_app, orb_true_iff. intros [Hhead | Htail].
  - destruct (always_safe a || existsb (Ascii.eqb a) safe) eqn:E.
    + unfold occurs in Hhead. cbn in Hhead. rewrite orb_false_r in Hhead.
      apply Ascii.eqb_eq in Hhead. subst a.
      apply orb_true_iff in E as [E | E]; [now right; left |].
      right. right. split.
      * apply existsb_exists in E as (x & Hin & Hx).
        apply Ascii.eqb_eq in Hx. now subst x.
      * unfold occurs. cbn. now rewrite Ascii.eqb_refl.
    + apply occurs_percent in Hhead as [H | H]; [now left | now right; left].
  - destruct (IH Htail) as [H | [H | [Hin Hocc]]]; [now left | now right; left |].
    right. right. split; [exact Hin |].
    unfold occurs in *. cbn. rewrite Hocc. apply orb_true_r.
Qed.

Lemma occurs_replace_char (old new : ascii) (s : string) :
  old <> new -> occurs old (replace_char old new s) = false.
Proof.
  intros Hne. unfold occurs.
  induction s as [|a s IH]; [reflexivity |].
  cbn [replace_char list_ascii_of_string existsb]. rewrite IH, orb_false_r.
  destruct (Ascii.eqb a old) eqn:E; apply Ascii.eqb_neq.
  - exact Hne.
  - apply Ascii.eqb_neq in E. congruence.
Qed.

(** The identifier as it is transmitted holds no character besides the
    unreserved ones, the percent sign and the slash; for a source id it
    holds no slash either.  So no identifier can end the path segment it is
    put in with [?] or [#], or add a field to the POST body with [&] or
    [=]. *)
Theorem transmitted_identifier_is_inert (namespace : option string)
    (identifier : string) (c : ascii) :
  always_safe c = false ->
  c <> "%"%char ->
  c <> "/"%char \/ namespace = Some "sourceid" ->
  occurs c (transmitted namespace identifier) = false.
Proof.
  intros Hunsafe Hpercent Hslash. unfold transmitted, quote.
  destruct (occurs c (quote_from_bytes ["/"%char] _)) eqn:E; [| reflexivity].
  apply occurs_quote in E as [H | [H | [Hin Hocc]]];
    [contradiction | rewrite H in Hunsafe; discriminate |].
  destruct Hin as [<- | []].
  destruct Hslash as [H | ->]; [contradiction |].
  cbn [opt_is] in Hocc. rewrite String.eqb_refl in Hocc.
  rewrite occurs_replace_char in Hocc by discriminate. discriminate.
Qed.

(** *** The outcome of a request *)

(** Once the identifier is normalized, [request] logs the URL and the
    body, calls the transport once with them, and ends as the reply
    dictates: the payload for a response, the classified error for an HTTP
    error, [URLError] when the service was not reached.  The call stays
    on record in every case. *)
Theorem request_follows_reply (identifier : json) (id : string)
    (namespace domain operation output searchtype : option string)
    (kwargs : dict) (st : state) (r : reply) (w : World) :
  normalize_identifier identifier = Return id ->
  let b := build id namespace domain operation output searchtype kwargs in
  urlopen (apiurl b) (postdata b) (service st) = (r, w) ->
  request identifier namespace domain operation output searchtype kwargs st
  = (outcome_of_reply r,
     {| service := w;
        events := (events st ++ [Debug "Request URL: %s" (Some (apiurl b));
                                 Debug "Request data: %s" (postdata b);
                                 Sent (apiurl b) (postdata b)])%list |}).
Proof.
  intros Hid b Hreply. unfold request, bind, lift, emit, send, ret, raise.
  rewrite Hid. fold b. cbn [service events]. rewrite Hreply.
  rewrite <- !app_assoc. cbn [app].
  destruct r as [payload | code reason body | reason]; cbn [outcome_of_reply];
    try reflexivity.
  unfold classify. destruct (PubChemHTTPError_init code reason body); reflexivity.
Qed.

(** A call of [get] that is not asynchronous makes exactly the one request
    for what the caller asked, sleeps never, and ends as that request
    ends. *)
Theorem get_synchronous_single_request (identifier : json) (id : string)
    (namespace domain operation output searchtype : option string)
    (kwargs : dict) (st : state) :
  ~ asynchronous namespace searchtype ->
  normalize_identifier identifier = Return id ->
  let b := build id namespace domain operation output searchtype kwargs in
  get identifier namespace domain operation output searchtype kwargs st
  = request identifier namespace domain operation output searchtype kwargs st
  /\ events (snd (get identifier namespace domain operation output searchtype
                      kwargs st))
     = (events st ++ [Debug "Request URL: %s" (Some (apiurl b));
                      Debug "Request data: %s" (postdata b);
                      Sent (apiurl b) (postdata b)])%list.
Proof.
  intros Hsync Hid b. rewrite (get_synchronous _ _ _ _ _ _ _ _ Hsync).
  split; [reflexivity | now apply request_events].
Qed.

(** *** Polling has no bound of its own *)

Lemma naps_app (a b : list event) : naps (a ++ b) = (naps a + naps b)%nat.
Proof. unfold naps. now rewrite List.filter_app, length_app. Qed.

Lemma request_returned_naps (identifier : json)
    (namespace domain operation output searchtype : option string)
    (kwargs : dict) (st : state) (r : string) (st' : state) :
  request identifier namespace domain operation output searchtype kwargs st
  = (Return r, st') ->
  naps (events st') = naps (events st).
Proof.
  intros Hreq.
  destruct (normalize_identifier identifier) as [id | e |] eqn:Hid.
  - pose proof (request_events identifier id namespace domain operation output
                  searchtype kwargs st Hid) as Hev.
    rewrite Hreq in Hev. cbn [snd] in Hev. rewrite Hev, naps_app. cbn. lia.
  - unfold request, bind, lift in Hreq. rewrite Hid in Hreq. discriminate.
  - unfold request, bind, lift in Hreq. rewrite Hid in Hreq. discriminate.
Qed.

Lemma poll_always_waiting (key : json) (domain operation : option string)
    (kwargs : dict) :
  always_waiting key domain operation kwargs ->
  forall (n : nat) (r0 : string) (v0 : json) (st : state),
    is_waiting v0 = Return true ->
    exists st',
      poll n key domain operation kwargs r0 v0 st = (Diverge, st')
      /\ naps (events st') = (naps (events st) + n)%nat.
Proof.
  intros Hall. induction n as [|n IH]; intros r0 v0 st Hw.
  - exists st. cbn [poll]. unfold bind, lift, diverge. rewrite Hw.
    split; [reflexivity | lia].
  - destruct (Hall (record_events [Slept 2] st)) as (r & st1 & v & Hreq & Hv & Hw1).
    destruct (IH r v st1 Hw1) as (st' & Hpoll & Hnaps).
    exists st'. rewrite poll_step, Hw, Hreq, Hv. split; [exact Hpoll |].
    rewrite Hnaps, (request_returned_naps _ _ _ _ _ _ _ _ _ _ Hreq).
    unfold record_events. cbn [events]. rewrite naps_app. cbn. lia.
Qed.

(** [get] puts no bound on the polling: against a service that keeps
    answering that the result is not ready, the loop is still running
    after any number of rounds, each of which slept once. *)
Theorem get_polls_without_bound (identifier : json)
    (namespace domain operation output searchtype : option string)
    (kwargs : dict) (st : state) (r1 : string) (st1 : state) (v1 key : json) :
  asynchronous namespace searchtype ->
  request identifier namespace domain None (Some "JSON") searchtype kwargs st
  = (Return r1, st1) ->
  json_loads r1 = Some v1 ->
  is_waiting v1 = Return true ->
  subscript v1 [K "Waiting"; K "ListKey"] = Return key ->
  always_waiting key domain operation kwargs ->
  exists st',
    get identifier namespace domain operation output searchtype kwargs st
    = (Diverge, st')
    /\ naps (events st') = (naps (events st) + fuel)%nat.
Proof.
  intros Ha Hreq Hv Hw Hkey Hall.
  destruct (poll_always_waiting key domain operation kwargs Hall fuel r1 v1 st1 Hw)
    as (st' & Hpoll & Hnaps).
  exists st'. rewrite get_asynchronous by exact Ha.
  rewrite Hreq, Hv, Hw, Hkey, Hpoll. split; [reflexivity |].
  now rewrite Hnaps, (request_returned_naps _ _ _ _ _ _ _ _ _ _ Hreq).
Qed.

(** *** The wrappers around [get_json] *)

(** Every list-returning function of the module answers a
    [NotFoundError] with its empty result, after the error went to the
    log. *)
Theorem list_functions_empty_on_NotFound (identifier : json)
    (namespace domain searchtype : option string) (kwargs : dict)
    (st st' : state) (msg : string) :
  (get identifier namespace (Some "substance") None (Some "JSON") None kwargs st
   = (Raise (NotFoundError msg), st') ->
   get_substances identifier namespace false kwargs st
   = (Return (Entities []), record_events [Info (NotFoundError msg)] st'))
  /\ (get identifier namespace (Some "assay") None (Some "JSON") None kwargs st
      = (Raise (NotFoundError msg), st') ->
      get_assays identifier namespace kwargs st
      = (Return [], record_events [Info (NotFoundError msg)] st'))
  /\ (get identifier namespace domain (Some "synonyms") (Some "JSON") searchtype
          kwargs st
      = (Raise (NotFoundError msg), st') ->
      get_synonyms identifier namespace domain searchtype kwargs st
      = (Return (JArr []), record_events [Info (NotFoundError msg)] st'))
  /\ (forall operation field : string,
        get identifier namespace domain (Some operation) (Some "JSON") searchtype
            kwargs st
        = (Raise (NotFoundError msg), st') ->
        get_ids operation field identifier namespace domain searchtype kwargs st
        = (Return (JArr []), record_events [Info (NotFoundError msg)] st'))
  /\ (forall (properties : json) (operation : string),
        property_operation properties = Return operation ->
        get identifier namespace (Some "compound") (Some operation) (Some "JSON")
            searchtype kwargs st
        = (Raise (NotFoundError msg), st') ->
        get_properties properties identifier namespace searchtype false kwargs st
        = (Return (PropertyRows (JArr [])),
           record_events [Info (NotFoundError msg)] st')).
Proof.
  repeat match goal with |- _ /\ _ => split end.
  - intros Hget. unfold get_substances, bind. now rewrite get_json_outcome, Hget.
  - intros Hget. unfold get_assays, bind. now rewrite get_json_outcome, Hget.
  - intros Hget. unfold get_synonyms, bind. now rewrite get_json_outcome, Hget.
  - intros operation field Hget. unfold get_ids, bind.
    now rewrite get_json_outcome, Hget.
  - intros properties operation Hop Hget. unfold get_properties, bind, lift.
    now rewrite Hop, get_json_outcome, Hget.
Qed.

(** On strings and [None], [request] read without types is [request]. *)
Lemma path_component_of_option (o : option string) :
  path_component (json_of_option o) = Return o.
Proof. destruct o; reflexivity. Qed.

Lemma is_JStr_of_option (s : string) (o : option string) :
  is_JStr s (json_of_option o) = opt_is o s.
Proof. destruct o as [t|]; [apply String.eqb_sym | reflexivity]. Qed.

Lemma request_dynamic_typed (identifier : json)
    (namespace domain operation output searchtype : option string)
    (kwargs : dict) (st : state) :
  request_dynamic identifier (json_of_option namespace) (json_of_option domain)
                  (json_of_option operation) (json_of_option output)
                  (json_of_option searchtype) kwargs st
  = request identifier namespace domain operation output searchtype kwargs st.
Proof.
  unfold request_dynamic, request, bind at 1 2 3 4 5 6, lift.
  destruct (normalize_identifier identifier) as [id | e |]; try reflexivity.
  rewrite !path_component_of_option, !is_JStr_of_option.
  replace (py_truthy (json_of_option searchtype)) with (opt_truthy searchtype)
    by (destruct searchtype; reflexivity).
  replace (py_str (json_of_option namespace)) with (opt_str namespace)
    by (destruct namespace; reflexivity).
  reflexivity.
Qed.

Lemma dict_has_cons_false {V} (name k : string) (v : V) (d : list (string * V)) :
  dict_has name ((k, v) :: d) = false ->
  String.eqb name k = false /\ dict_has name d = false.
Proof.
  unfold dict_has. cbn [dict_get].
  destruct (String.eqb name k); [discriminate | now split].
Qed.

Lemma keyword_default (name : string) (default : json) (kwargs : dict) :
  dict_has name kwargs = false -> keyword name default kwargs = default.
Proof.
  unfold dict_has, keyword. destruct (dict_get name kwargs); [discriminate | reflexivity].
Qed.

Lemma options_all (kwargs : dict) :
  Forall (fun name => dict_has name kwargs = false) request_parameters ->
  options kwargs = kwargs.
Proof.
  induction kwargs as [|[k v] kwargs IH]; intros Hnone; [reflexivity |].
  assert (Hhead : Forall (fun name => String.eqb k name = false) request_parameters).
  { eapply Forall_impl; [exact Hnone |]. intros name Hname.
    rewrite String.eqb_sym. exact (proj1 (dict_has_cons_false _ _ _ _ Hname)). }
  assert (Htail : Forall (fun name => dict_has name kwargs = false) request_parameters).
  { eapply Forall_impl; [exact Hnone |]. intros name Hname.
    exact (proj2 (dict_has_cons_false _ _ _ _ Hname)). }
  unfold options. cbn [List.filter fst].
  replace (existsb (String.eqb k) request_parameters) with false.
  - cbn [negb]. f_equal. now apply IH.
  - symmetry. clear -Hhead. induction Hhead as [|name names Hname _ IHnames];
      [reflexivity | cbn [existsb]; now rewrite Hname].
Qed.

(** [from_cid] hands its keywords to [request] as the call binds them: a
    keyword that names a parameter sets it, the others are the options of
    the query, and without such a keyword the request is the one for
    namespace [cid] and domain [compound] with JSON output.  It calls
    [request] directly, not [get_json]: every error of that request is
    the caller's, [NotFoundError] included; and it fails with
    [IndexError] on an envelope that holds no record. *)
Theorem from_cid_lets_errors_through (cid : json) (kwargs : dict) (st : state) :
  dict_has "cls" kwargs = false ->
  dict_has "cid" kwargs = false ->
  (dict_has "identifier" kwargs = true ->
     Compound_from_cid cid kwargs st = (Raise TypeError, st))
  /\ (forall namespace domain operation output searchtype : option string,
        dict_has "identifier" kwargs = false ->
        keyword "namespace" (JStr "cid") kwargs = json_of_option namespace ->
        keyword "domain" (JStr "compound") kwargs = json_of_option domain ->
        keyword "operation" JNull kwargs = json_of_option operation ->
        keyword "output" (JStr "JSON") kwargs = json_of_option output ->
        keyword "searchtype" JNull kwargs = json_of_option searchtype ->
        request_keywords cid kwargs st
        = request cid namespace domain operation output searchtype (options kwargs) st)
  /\ (Forall (fun name => dict_has name kwargs = false)
             ("identifier" :: request_parameters) ->
      request_keywords cid kwargs st
      = request cid (Some "cid") (Some "compound") None (Some "JSON") None kwargs st)
  /\ (forall (e : exc) (st' : state),
        request_keywords cid kwargs st = (Raise e, st') ->
        Compound_from_cid cid kwargs st = (Raise e, st'))
  /\ (forall (r : string) (st' : state) (doc : json),
        request_keywords cid kwargs st = (Return r, st') ->
        json_loads r = Some doc ->
        (py_getitem doc "PC_Compounds" = Return (JArr []) ->
           Compound_from_cid cid kwargs st = (Raise IndexError, st'))
        /\ (forall (record : json) (others : list json),
              py_getitem doc "PC_Compounds" = Return (JArr (record :: others)) ->
              Compound_from_cid cid kwargs st
              = (Return (mkCompound record []), st'))).
Proof.
  intros Hcls Hcid.
  assert (Hbody : Compound_from_cid cid kwargs
                  = (let! response := request_keywords cid kwargs in
                     let! doc := loads response in
                     let! record := lift (subscript doc [K "PC_Compounds"; I 0]) in
                     ret (mkCompound record []))).
  { unfold Compound_from_cid. now rewrite Hcls, Hcid. }
  assert (Htyped : forall namespace domain operation output searchtype : option string,
             dict_has "identifier" kwargs = false ->
             keyword "namespace" (JStr "cid") kwargs = json_of_option namespace ->
             keyword "domain" (JStr "compound") kwargs = json_of_option domain ->
             keyword "operation" JNull kwargs = json_of_option operation ->
             keyword "output" (JStr "JSON") kwargs = json_of_option output ->
             keyword "searchtype" JNull kwargs = json_of_option searchtype ->
             request_keywords cid kwargs st
             = request cid namespace domain operation output searchtype
                       (options kwargs) st).
  { intros namespace domain operation output searchtype Hid Hn Hd Hop Hout Hs.
    unfold request_keywords. rewrite Hid, Hn, Hd, Hop, Hout, Hs.
    apply request_dynamic_typed. }
  split; [| split; [exact Htyped | split; [| split]]].
  - intros Hid. rewrite Hbody. unfold bind, request_keywords. now rewrite Hid.
  - intros Hnone. apply Forall_cons_iff in Hnone as [Hid Hnone].
    rewrite <- (options_all kwargs Hnone) at 2.
    pose proof Hnone as Hparams. unfold request_parameters in Hparams.
    apply Forall_cons_iff in Hparams as [Hn Hparams].
    apply Forall_cons_iff in Hparams as [Hd Hparams].
    apply Forall_cons_iff in Hparams as [Hop Hparams].
    apply Forall_cons_iff in Hparams as [Hout Hparams].
    apply Forall_cons_iff in Hparams as [Hs _].
    apply Htyped; [exact Hid | | | | |]; now apply keyword_default.
  - intros e st' Hreq. rewrite Hbody. unfold bind. now rewrite Hreq.
  - intros r st' doc Hreq Hdoc. rewrite Hbody.
    unfold bind, loads, lift, ret. rewrite Hreq, Hdoc.
    cbn [subscript]. split.
    + intros Hnone. rewrite Hnone. reflexivity.
    + intros record others Hsome. rewrite Hsome. reflexivity.
Qed.

(** When the body of an HTTP error decodes to a JSON value that is not an
    object, the lookup of the fault detail fails with a [TypeError] that
    the constructor does not handle: it is what the caller gets, whatever
    the status code. *)
Theorem classify_body_not_an_object (code : Z) (reason body : string) (v : json) :
  json_loads body = Some v ->
  (forall m, v <> JObj m) ->
  classify code reason body = Some TypeError.
Proof.
  intros Hv Hnot. unfold classify, PubChemHTTPError_init, error_message, fault_detail.
  rewrite Hv. destruct v; try reflexivity. exfalso. now apply (Hnot members).
Qed.

(** *** The bulk export *)

Lemma collect_app {O} (getattr : string -> O -> M (pyval * O))
    (before after : list string) (self : O) (acc : list (string * pyval))
    (st : state) :
  collect getattr (before ++ after)%list self acc st =
  match collect getattr before self acc st with
  | (Return (acc', self'), st') => collect getattr after self' acc' st'
  | (Raise e, st') => (Raise e, st')
  | (Diverge, st') => (Diverge, st')
  end.
Proof.
  revert self acc st. induction before as [|p before IH]; intros self acc st.
  - reflexivity.
  - cbn [app collect]. unfold bind.
    destruct (getattr p self st) as [[[v self1] | e |] st1]; try reflexivity.
    apply IH.
Qed.

(** The export stops at the first accessor that raises: when the names
    before [p] were read and the getter of the property [p] raises, that
    exception is the outcome of [to_dict], and no mapping is returned for
    the properties read before it.  For a memoized property this is the
    case on the first access, when nothing is stored for it yet. *)
Theorem to_dict_stops_at_first_error (self self1 : Compound)
    (before : list string) (p : string) (after : list string)
    (acc : list (string * pyval)) (st st1 : state) :
  collect Compound_getattr before self [] st = (Return (acc, self1), st1) ->
  (forall (fget : Compound -> result json) (e : exc),
      dict_get p Compound_class = Some (Property fget) ->
      fget self1 = Raise e ->
      Compound_to_dict self (Some (before ++ p :: after)%list) st = (Raise e, st1))
  /\ (forall (fget : Compound -> M json) (e : exc) (st2 : state),
        dict_get p Compound_class = Some (MemoizedProperty fget) ->
        dict_get ("_" ++ p) (Compound_memo self1) = None ->
        fget self1 st1 = (Raise e, st2) ->
        Compound_to_dict self (Some (before ++ p :: after)%list) st = (Raise e, st2)).
Proof.
  intros Hbefore.
  assert (Hrun : Compound_to_dict self (Some (before ++ p :: after)%list) st
                 = match Compound_getattr p self1 st1 with
                   | (Return r, st2) =>
                       collect Compound_getattr after (snd r)
                               (dict_set p (fst r) acc) st2
                   | (Raise e, st2) => (Raise e, st2)
                   | (Diverge, st2) => (Diverge, st2)
                   end).
  { unfold Compound_to_dict.
    replace (match Some (before ++ p :: after)%list with
             | None | Some [] => Compound_default_properties
             | Some ps => ps
             end) with (before ++ p :: after)%list
      by (destruct before; reflexivity).
    rewrite collect_app, Hbefore. reflexivity. }
  split.
  - intros fget e Hp Hraise. rewrite Hrun. unfold Compound_getattr.
    rewrite Hp. unfold bind, lift. now rewrite Hraise.
  - intros fget e st2 Hp Hfresh Hraise. rewrite Hrun. unfold Compound_getattr.
    rewrite Hp. unfold bind at 1. unfold Compound_memoized, memoized_property.
    rewrite Hfresh. unfold bind. now rewrite Hraise.
Qed.

Lemma dict_keys_set {V} (k k' : string) (v : V) (d : list (string * V)) :
  In k' (dict_keys (dict_set k v d)) <-> k' = k \/ In k' (dict_keys d).
Proof.
  unfold dict_keys. induction d as [|[k0 v0] d IH]; cbn [dict_set map In fst].
  - split; [intros [H | []]; now left | intros [H | []]; now left].
  - destruct (String.eqb k k0) eqn:E; cbn [map In fst].
    + apply String.eqb_eq in E. subst k0. split.
      * intros [H | H]; [now left | now right; right].
      * intros [H | [H | H]]; [now left | now left | now right].
    + rewrite IH. split.
      * intros [H | [H | H]]; [now right; left | now left | now right; right].
      * intros [H | [H | H]]; [now right; left | now left | now right; right].
Qed.

Lemma dict_keys_set_NoDup {V} (k : string) (v : V) (d : list (string * V)) :
  List.NoDup (dict_keys d) -> List.NoDup (dict_keys (dict_set k v d)).
Proof.
  unfold dict_keys. induction d as [|[k0 v0] d IH]; cbn [dict_set map fst]; intros Hd.
  - constructor; [intros [] | constructor].
  - destruct (String.eqb k k0) eqn:E; cbn [map fst].
    + apply String.eqb_eq in E. now subst k0.
    + apply List.NoDup_cons_iff in Hd as [Hnotin Hd].
      apply List.NoDup_cons; [| now apply IH].
      intros Hin. apply (dict_keys_set k k0 v d) in Hin as [-> | Hin].
      * now rewrite String.eqb_refl in E.
      * now apply Hnotin.
Qed.

Lemma collect_keys {O} (getattr : string -> O -> M (pyval * O))
    (properties : list string) :
  forall (self : O) (acc : list (string * pyval)) (st : state)
         (d : list (string * pyval)) (self' : O) (st' : state),
    collect getattr properties self acc st = (Return (d, self'), st') ->
    (forall k, In k (dict_keys d) <-> In k (dict_keys acc) \/ In k properties)
    /\ (List.NoDup (dict_keys acc) -> List.NoDup (dict_keys d)).
Proof.
  induction properties as [|p properties IH]; intros self acc st d self' st' Hrun.
  - cbn [collect] in Hrun. unfold ret in Hrun. injection Hrun as <- <- <-.
    split; [intros k; cbn; tauto | tauto].
  - cbn [collect] in Hrun. unfold bind in Hrun.
    destruct (getattr p self st) as [[[v self1] | e |] st1]; try discriminate.
    cbn [fst snd] in Hrun. apply IH in Hrun as [Hkeys Hnodup]. split.
    + intros k. rewrite Hkeys, dict_keys_set. cbn [In]. intuition.
    + intros Hacc. now apply Hnodup, dict_keys_set_NoDup.
Qed.

(** When [to_dict] returns, of [Compound] or of [Substance], the mapping
    has exactly the names it was asked for as keys, each once: the names
    given, or the default names when none is given. *)
Theorem to_dict_keys (properties : option (list string)) :
  (forall (self self' : Compound) (st st' : state) (d : list (string * pyval)),
      Compound_to_dict self properties st = (Return (d, self'), st') ->
      (forall k, In k (dict_keys d)
                 <-> In k (chosen Compound_default_properties properties))
      /\ List.NoDup (dict_keys d))
  /\ (forall (self self' : Substance) (st st' : state) (d : list (string * pyval)),
        Substance_to_dict self properties st = (Return (d, self'), st') ->
        (forall k, In k (dict_keys d)
                   <-> In k (chosen Substance_default_properties properties))
        /\ List.NoDup (dict_keys d)).
Proof.
  split; intros self self' st st' d Hrun.
  - apply collect_keys in Hrun as [Hkeys Hnodup]. split.
    + intros k. rewrite Hkeys. cbn [dict_keys map In]. unfold chosen. tauto.
    + apply Hnodup. constructor.
  - apply collect_keys in Hrun as [Hkeys Hnodup]. split.
    + intros k. rewrite Hkeys. cbn [dict_keys map In]. unfold chosen. tauto.
    + apply Hnodup. constructor.
Qed.

Lemma collect_plain (properties : list string) :
  forallb plain_property properties = true ->
  forall (self : Compound) (acc : list (string * pyval)) (st : state),
    snd (collect Compound_getattr properties self acc st) = st.
Proof.
  induction properties as [|p properties IH]; intros Hplain self acc st.
  - reflexivity.
  - cbn [forallb] in Hplain. apply andb_true_iff in Hplain as [Hp Hrest].
    cbn [collect]. unfold bind at 1. unfold Compound_getattr, plain_property in *.
    destruct (dict_get p Compound_class) as [[| | fget | fget]|]; try discriminate.
    unfold bind, lift, ret. destruct (fget self) as [v | e |]; cbn [fst snd];
      [now apply IH | reflexivity | reflexivity].
Qed.

(** An export of [Compound] restricted to properties that are computed
    from the record alone neither calls the service nor records any event,
    whatever the record holds. *)
Theorem to_dict_of_plain_properties_is_local (self : Compound)
    (properties : list string) (st : state) :
  properties <> [] ->
  forallb plain_property properties = true ->
  snd (Compound_to_dict self (Some properties) st) = st.
Proof.
  intros Hne Hplain. unfold Compound_to_dict.
  destruct properties as [|p properties]; [contradiction |].
  now apply collect_plain.
Qed.

(** *** Edge behaviour of the lookups *)

Lemma filterR_raises {A} (f : A -> result bool) (before : list A) (bad : A)
    (after : list A) (e : exc) :
  Forall (fun x => exists b, f x = Return b) before ->
  f bad = Raise e ->
  filterR f (before ++ bad :: after)%list = Raise e.
Proof.
  intros Hbefore Hbad. induction Hbefore as [|x before [b Hx] _ IH];
    cbn [app filterR].
  - now rewrite Hbad.
  - now rewrite Hx, IH.
Qed.

(** [_parse_prop] looks at every entry of the list before it answers: with
    a filter that is not empty, an entry without [urn] makes the lookup
    raise [KeyError], also when it comes after an entry that matches. *)
Theorem parse_prop_inspects_every_entry (search : list (string * string))
    (before : list json) (m : dict) (after : list json) :
  search <> [] ->
  Forall PropertyEntry before ->
  dict_get "urn" m = None ->
  _parse_prop search (JArr (before ++ JObj m :: after)%list)
  = Raise (KeyError (JStr "urn")).
Proof.
  intros Hsearch Hbefore Hurn. unfold _parse_prop. cbn [py_iter rbind].
  rewrite (filterR_raises _ _ _ _ (KeyError (JStr "urn"))); [reflexivity | |].
  - eapply Forall_impl; [exact Hbefore |]. intros e [Ht _].
    eexists. now apply urn_matches_entry.
  - unfold urn_matches. destruct search; [contradiction |].
    cbn [py_getitem]. now rewrite Hurn.
Qed.

(** The nine counters of [Compound] ([heavy_atom_count] and the others)
    never raise on a record made of nested objects: each returns the value
    under [count] when it is there and [None] when it is not. *)
Theorem count_accessors_total (name : string) (self : Compound) :
  nested_objects (Compound_record self) ["count"] = true ->
  count_lookup name self
  = Return (match lookup_path (Compound_record self) ["count"; name] with
            | Some v => v
            | None => JNull
            end).
Proof.
  destruct self as [record memo]. unfold count_lookup. cbn [Compound_record].
  destruct record as [| | | | | |m]; try discriminate.
  cbn [nested_objects lookup_path py_and py_contains rbind subscript py_getitem].
  unfold dict_has.
  destruct (dict_get "count" m) as [x|] eqn:E1; [| reflexivity].
  destruct x as [| | | | | |m1]; try discriminate.
  cbn [nested_objects lookup_path py_and py_contains rbind subscript py_getitem].
  unfold dict_has.
  destruct (dict_get name m1) as [y|] eqn:E2; reflexivity.
Qed.

(** The memoized accessors of [Substance] read [sid] before anything else
    and have no guard: when reading it raises, [cids] and [aids] raise the
    same exception, send nothing and store nothing on the instance. *)
Theorem Substance_fetch_without_sid (self : Substance) (st : state) (e : exc) :
  Substance_sid self = Raise e ->
  (dict_get "_cids" (Substance_memo self) = None ->
     Substance_cids self st = (Raise e, st))
  /\ (dict_get "_aids" (Substance_memo self) = None ->
      Substance_aids self st = (Raise e, st)).
Proof.
  intros Hsid.
  assert (Hfetch : forall operation field,
             Substance_fetch operation field self st = (Raise e, st)).
  { intros operation field. unfold Substance_fetch, bind, lift. now rewrite Hsid. }
  split; intros Hfresh.
  - unfold Substance_cids, Substance_memoized, memoized_property.
    cbn [append]. rewrite Hfresh. unfold bind, cids_fget. now rewrite Hfetch.
  - unfold Substance_aids, Substance_memoized, memoized_property.
    cbn [append]. rewrite Hfresh. unfold bind, Substance_aids_fget.
    now rewrite Hfetch.
Qed.

(** *** Atoms and bonds at the edges *)

Lemma foldR_app {A B} (f : B -> A -> result B) (a b : list A) (x : B) :
  foldR f (a ++ b)%list x = let* y := foldR f a x in foldR f b y.
Proof.
  revert x. induction a as [|c a IH]; intros x; cbn [app foldR rbind].
  - reflexivity.
  - destruct (f x c); cbn [rbind]; [apply IH | reflexivity | reflexivity].
Qed.

Lemma overlay_length (anns : list (nat * json)) (atomlist : list dict) :
  length (fold_left overlay anns atomlist) = length atomlist.
Proof.
  revert atomlist. induction anns as [|a anns IH]; intros atomlist; cbn [fold_left].
  - reflexivity.
  - rewrite IH. unfold overlay. apply length_alter.
Qed.

Lemma seq_position_beyond (n : nat) (i : Z) :
  Z.of_nat n <= i -> seq_position n i = None.
Proof.
  intros H. unfold seq_position.
  destruct (Z.ltb_spec i (Z.of_nat n)); [lia |]. rewrite andb_false_r.
  destruct (Z.ltb_spec i 0); [lia |]. reflexivity.
Qed.

(** The atoms accessor on a record with flat coordinates and a list of
    charge annotations, before the annotations are looked at. *)
Lemma atoms_before_overlay (self : Compound) (conf atoms : dict)
    (xs ys es cs : list json) :
  subscript (Compound_record self) conformer = Return (JObj conf) ->
  dict_get "x" conf = Some (JArr xs) ->
  dict_get "y" conf = Some (JArr ys) ->
  dict_get "z" conf = None ->
  py_getitem (Compound_record self) "atoms" = Return (JObj atoms) ->
  dict_get "element" atoms = Some (JArr es) ->
  dict_get "charge" atoms = Some (JArr cs) ->
  Compound_atoms self
  = let* atomlist := foldR set_charge cs (zip_atoms xs ys es) in
    Return (JArr (map JObj atomlist)).
Proof.
  intros Hconf Hx Hy Hz Hatoms He Hcharge. unfold Compound_atoms.
  rewrite !subscript_app, Hconf. cbn [rbind subscript py_getitem].
  rewrite Hx, Hy, Hatoms. cbn [rbind subscript py_getitem].
  rewrite He. cbn [rbind py_contains]. unfold dict_has. rewrite Hz, Hcharge.
  cbn [rbind columns mapR py_iter fst snd zip_star length].
  rewrite length_map, zip_rows_atoms by lia. reflexivity.
Qed.

(** A charge annotation whose [aid] is the number of atoms or more makes
    the atoms accessor raise [IndexError]: positions are counted from 0, so
    an annotation for the last atom under its 1-based id is out of
    range. *)
Theorem atoms_charge_beyond_last_atom (self : Compound) (conf atoms : dict)
    (xs ys es before : list json) (anns : list (nat * json)) (c : dict)
    (after : list json) (i : Z) (v : json) :
  subscript (Compound_record self) conformer = Return (JObj conf) ->
  dict_get "x" conf = Some (JArr xs) ->
  dict_get "y" conf = Some (JArr ys) ->
  dict_get "z" conf = None ->
  py_getitem (Compound_record self) "atoms" = Return (JObj atoms) ->
  dict_get "element" atoms = Some (JArr es) ->
  dict_get "charge" atoms = Some (JArr (before ++ JObj c :: after)%list) ->
  Forall2 charge_annotation before anns ->
  Forall (fun a => (fst a < length (zip_atoms xs ys es))%nat) anns ->
  dict_get "value" c = Some v ->
  dict_get "aid" c = Some (JInt i) ->
  Z.of_nat (length (zip_atoms xs ys es)) <= i ->
  Compound_atoms self = Raise IndexError.
Proof.
  intros Hconf Hx Hy Hz Hatoms He Hcharge Hanns Hin Hvalue Haid Hbeyond.
  rewrite (atoms_before_overlay self conf atoms xs ys es _
             Hconf Hx Hy Hz Hatoms He Hcharge).
  rewrite foldR_app, (foldR_set_charge before anns Hanns _ Hin).
  cbn [rbind foldR]. unfold set_charge. cbn [py_getitem].
  rewrite Hvalue, Haid. cbn [rbind as_index].
  rewrite seq_position_beyond; [reflexivity |]. now rewrite overlay_length.
Qed.

Lemma zip_rows_bonds (n : nat) (aid1s aid2s orders : list json) :
  (length aid1s <= n)%nat ->
  map dict_of_pairs
      (zip_rows n [map (pair "aid1") aid1s; map (pair "aid2") aid2s;
                   map (pair "order") orders])
  = zip_bonds aid1s aid2s orders.
Proof.
  revert aid1s aid2s orders. induction n as [|n IH]; intros aid1s aid2s orders Hn.
  - destruct aid1s; [reflexivity | cbn in Hn; lia].
  - destruct aid1s as [|a aid1s]; [reflexivity |].
    destruct aid2s as [|b aid2s]; [reflexivity |].
    destruct orders as [|o orders]; [reflexivity |].
    cbn [zip_rows map heads fold_right tail zip_bonds].
    f_equal. apply IH. cbn in Hn. lia.
Qed.

(** Without the [bonds] member the bonds accessor raises [KeyError]; with
    the arrays [aid1], [aid2] and [order] and no style on the conformer it
    returns their index-wise zip, as long as the shortest of the three. *)
Theorem bonds_zip (self : Compound) (m conf : dict) :
  Compound_record self = JObj m ->
  (dict_get "bonds" m = None ->
     Compound_bonds self = Raise (KeyError (JStr "bonds")))
  /\ (forall aid1s aid2s orders : list json,
        dict_get "bonds" m
        = Some (JObj [("aid1", JArr aid1s); ("aid2", JArr aid2s);
                      ("order", JArr orders)]) ->
        subscript (JObj m) conformer = Return (JObj conf) ->
        dict_get "style" conf = None ->
        Compound_bonds self
        = Return (JArr (map JObj (zip_bonds aid1s aid2s orders)))).
Proof.
  intros Hrecord. unfold Compound_bonds. rewrite Hrecord. cbn [py_getitem]. split.
  - intros Hnone. now rewrite Hnone.
  - intros aid1s aid2s orders Hbonds Hconf Hstyle. rewrite Hbonds, Hconf.
    cbn [rbind columns mapR py_iter fst snd zip_star length py_contains].
    unfold dict_has. rewrite Hstyle.
    rewrite length_map, zip_rows_bonds by lia. reflexivity.
Qed.

(** *** [get_properties] and [get_all_sources] *)

Lemma split_on_plain (sep : ascii) (s : string) :
  occurs sep s = false -> split_on sep s = [s].
Proof.
  unfold occurs. induction s as [|c s IH]; [reflexivity |].
  cbn [list_ascii_of_string existsb split_on]. rewrite orb_false_iff.
  intros [Hc Hs]. rewrite Ascii.eqb_sym, Hc, (IH Hs). reflexivity.
Qed.

Lemma split_on_first (sep : ascii) (a b : string) :
  occurs sep a = false ->
  split_on sep (a ++ String sep b) = a :: split_on sep b.
Proof.
  unfold occurs. induction a as [|c a IH].
  - intros _. cbn. now rewrite Ascii.eqb_refl.
  - cbn [list_ascii_of_string existsb append split_on]. rewrite orb_false_iff.
    intros [Hc Ha]. rewrite Ascii.eqb_sym, Hc, (IH Ha). reflexivity.
Qed.

(** Splitting at commas undoes joining with commas. *)
Lemma split_join (names : list string) :
  names <> [] ->
  Forall (fun n => occurs "," n = false) names ->
  split_on "," (join "," names) = names.
Proof.
  intros Hne Hnames. induction Hnames as [|n names Hn Hnames IH]; [contradiction |].
  destruct names as [|n' names].
  - cbn [join]. now apply split_on_plain.
  - change (join "," (n :: n' :: names)) with (n ++ String "," (join "," (n' :: names))).
    rewrite (split_on_first _ _ _ Hn), IH; [reflexivity | discriminate].
Qed.

(** Names given to [get_properties] as one comma-separated string and the
    same names given as a list lead to the same call and the same result. *)
Theorem get_properties_string_or_list (names : list string) (identifier : json)
    (namespace searchtype : option string) (as_dataframe : bool)
    (kwargs : dict) (st : state) :
  Forall (fun n => occurs "," n = false) names ->
  get_properties (JStr (join "," names)) identifier namespace searchtype
                 as_dataframe kwargs st
  = get_properties (JArr (map JStr names)) identifier namespace searchtype
                   as_dataframe kwargs st.
Proof.
  intros Hnames.
  assert (Hop : property_operation (JStr (join "," names))
                = property_operation (JArr (map JStr names))).
  { destruct names as [|n names]; [reflexivity |].
    unfold property_operation. cbn [py_iter rbind].
    rewrite split_join; [reflexivity | discriminate | exact Hnames]. }
  unfold get_properties. now rewrite Hop.
Qed.

Lemma dict_get_In {V} (k : string) (v : V) (d : list (string * V)) :
  dict_get k d = Some v -> In (k, v) d.
Proof.
  induction d as [|[k' v'] d IH]; cbn [dict_get In]; [discriminate |].
  destruct (String.eqb k k') eqn:E.
  - apply String.eqb_eq in E. subst k'. intros [= ->]. now left.
  - intros H. right. now apply IH.
Qed.

(** No name of the service is itself an alias in [PROPERTY_MAP]: a name
    that was translated already passes through unchanged, so the names of
    the module and the names of the service can be mixed in one call. *)
Theorem translate_idempotent (p : string) : translate (translate p) = translate p.
Proof.
  assert (Hall : forall k v, In (k, v) PROPERTY_MAP -> dict_get v PROPERTY_MAP = None).
  { intros k v Hin.
    assert (H : forallb (fun kv => match dict_get (snd kv) PROPERTY_MAP with
                                   | None => true
                                   | Some _ => false
                                   end) PROPERTY_MAP = true)
      by (vm_compute; reflexivity).
    rewrite forallb_forall in H. specialize (H _ Hin). cbn [snd] in H.
    destruct (dict_get v PROPERTY_MAP); [discriminate | reflexivity]. }
  unfold translate. destruct (dict_get p PROPERTY_MAP) as [name|] eqn:E.
  - now rewrite (Hall p name (dict_get_In _ _ _ E)).
  - now rewrite E.
Qed.

(** [get_all_sources] makes one request, with no body, for the path made
    of the base, [sources], the percent-encoded domain and [JSON]; it goes
    through [get] and not through [get_json], so every error of the
    request is the caller's, [NotFoundError] included. *)
Theorem get_all_sources_request (domain : string) (st : state) :
  events (snd (get_all_sources (JStr domain) st))
  = (events st
     ++ [Debug "Request URL: %s"
               (Some (join "/" (filter_none [Some API_BASE; Some "sources";
                                             Some (quote domain); Some "JSON"])));
         Debug "Request data: %s" None;
         Sent (join "/" (filter_none [Some API_BASE; Some "sources";
                                      Some (quote domain); Some "JSON"]))
              None])%list
  /\ (forall (e : exc) (st' : state),
        request (JStr domain) None (Some "sources") None (Some "JSON") None [] st
        = (Raise e, st') ->
        get_all_sources (JStr domain) st = (Raise e, st')).
Proof.
  assert (Hsync : ~ asynchronous None None).
  { intros [(s & H & _) | H]; discriminate. }
  pose proof (request_events (JStr domain) domain None (Some "sources") None
                (Some "JSON") None [] st eq_refl) as Hev.
  cbv zeta in Hev. unfold get_all_sources, bind.
  rewrite (get_synchronous _ _ _ _ _ _ _ _ Hsync).
  split.
  - destruct (request (JStr domain) None (Some "sources") None (Some "JSON") None []
                      st) as [[r | e |] st1]; cbn [snd] in *; try exact Hev.
    unfold loads. destruct (json_loads r) as [doc|]; cbn [snd]; [| exact Hev].
    unfold ret, lift. cbn [snd]. exact Hev.
  - intros e st' Hreq. now rewrite Hreq.
Qed.

(** *** A substance that was not standardized *)

Lemma first_of_type_none (kind : string) (cs : list json) :
  Forall (fun c => exists t, subscript c [K "id"; K "type"] = Return t
                             /\ py_eqb t (JStr kind) = false) cs ->
  first_of_type kind cs = Return None.
Proof.
  induction 1 as [|c cs (t & Ht & Hne) _ IH]; cbn [first_of_type]; [reflexivity |].
  rewrite Ht. cbn [rbind]. now rewrite Hne.
Qed.

(** When none of the compounds listed in a substance record is of type
    [standardized], [standardized_cid] is [None], and so is
    [standardized_compound], which then makes no request and remembers the
    [None]. *)
Theorem Substance_without_standardized_compound (self : Substance) (m : dict)
    (cs : list json) (st : state) :
  Substance_record self = JObj m ->
  dict_get "compound" m = Some (JArr cs) ->
  Forall (fun c => exists t, subscript c [K "id"; K "type"] = Return t
                             /\ py_eqb t (JStr "standardized") = false) cs ->
  Substance_standardized_cid self = Return JNull
  /\ (dict_get "_standardized_compound" (Substance_memo self) = None ->
      Substance_standardized_compound self st
      = (Return (VJson JNull,
                 mkSubstance (Substance_record self)
                   (dict_set "_standardized_compound" (VJson JNull)
                             (Substance_memo self))), st)).
Proof.
  intros Hrecord Hcompound Hnone.
  assert (Hfound : compound_of_type "standardized" self = Return None).
  { unfold compound_of_type. rewrite Hrecord. cbn [py_getitem].
    rewrite Hcompound. cbn [rbind py_iter]. now apply first_of_type_none. }
  split.
  - unfold Substance_standardized_cid. now rewrite Hfound.
  - intros Hfresh.
    unfold Substance_standardized_compound, Substance_memoized, memoized_property.
    cbn [append]. rewrite Hfresh.
    unfold bind, standardized_compound_fget, bind, lift. rewrite Hfound.
    reflexivity.
Qed.

End Service.

(** * Examples

    The theorems above, applied to a scripted service and to concrete
    records. *)

Definition start (w : Script.World) : state Script.World :=
  {| service := w; events := [] |}.

Arguments events {World} s.
Arguments service {World} s.
Arguments Entities {A} l.
Arguments Frame {A} f.

Local Abbreviation scripted f :=
  (f Script.World Script.urlopen Script.loads Script.repr) (only parsing).

Definition sleeps (evs : list event) : list Z :=
  flat_map (fun ev => match ev with Slept n => [n] | _ => [] end) evs.

(** A list of three compound ids goes into the POST body, a formula into
    the URL path. *)
Lemma request_identifier_placement_witness :
  normalize_identifier Script.repr (JArr [JInt 1; JInt 2; JInt 3]) = Return "1,2,3"
  /\ requests_sent (events (snd (scripted request (JArr [JInt 1; JInt 2; JInt 3])
                                   (Some "cid") (Some "compound") None (Some "JSON")
                                   None [] (start []))))
     = [("https://pubchem.ncbi.nlm.nih.gov/rest/pug/compound/cid/JSON",
         Some "cid=1%2C2%2C3")]
  /\ requests_sent (events (snd (scripted request (JStr "C6H6")
                                   (Some "formula") (Some "compound") None
                                   (Some "JSON") None [] (start []))))
     = [("https://pubchem.ncbi.nlm.nih.gov/rest/pug/compound/formula/C6H6/JSON",
         None)].
Proof.
  assert (H1 : normalize_identifier Script.repr (JArr [JInt 1; JInt 2; JInt 3])
               = Return "1,2,3") by reflexivity.
  assert (H2 : normalize_identifier Script.repr (JStr "C6H6") = Return "C6H6")
    by reflexivity.
  split; [exact H1 | split].
  - destruct (request_identifier_placement Script.World Script.urlopen Script.loads
                Script.repr _ _ (Some "cid") (Some "compound") None (Some "JSON")
                None [] (start []) H1) as (_ & Hbody & _ & Hevents).
    rewrite Hevents.
    destruct Hbody as (_ & -> & ->).
    + intros H. apply in_url_path_spec in H. discriminate.
    + reflexivity.
  - destruct (request_identifier_placement Script.World Script.urlopen Script.loads
                Script.repr _ _ (Some "formula") (Some "compound") None (Some "JSON")
                None [] (start []) H2) as (Hpath & _ & _ & Hevents).
    rewrite Hevents.
    destruct Hpath as (_ & -> & ->).
    + apply in_url_path_spec. reflexivity.
    + reflexivity.
Defined.

(** The answers of a service that keeps a formula search waiting for two
    rounds, and the answer of one that has the result at once. *)
Definition waiting_payload : string := Script.text "{'Waiting':{'ListKey':'777'}}".
Definition cids_payload : string := Script.text "{'IdentifierList':{'CID':[241]}}".

Definition slow_service : Script.World :=
  [Response waiting_payload; Response waiting_payload; Response cids_payload;
   Response "241"].

Definition prompt_service : Script.World := [Response cids_payload].

(** A formula search for the ids as text: the first request has neither
    the operation nor the text output, two rounds of polling follow, each
    after a sleep of 2, and the final request asks for the text. *)
Lemma get_asynchronous_protocol_witness :
  fst (scripted get 3%nat (JStr "C6H6") (Some "formula") (Some "compound")
                (Some "cids") (Some "TXT") None [] (start slow_service))
  = Return "241"
  /\ requests_sent
       (events (snd (scripted get 3%nat (JStr "C6H6") (Some "formula")
                              (Some "compound") (Some "cids") (Some "TXT") None []
                              (start slow_service))))
     = [("https://pubchem.ncbi.nlm.nih.gov/rest/pug/compound/formula/C6H6/JSON", None);
        ("https://pubchem.ncbi.nlm.nih.gov/rest/pug/compound/listkey/777/cids/JSON", None);
        ("https://pubchem.ncbi.nlm.nih.gov/rest/pug/compound/listkey/777/cids/JSON", None);
        ("https://pubchem.ncbi.nlm.nih.gov/rest/pug/compound/listkey/777/cids/TXT", None)]
  /\ sleeps
       (events (snd (scripted get 3%nat (JStr "C6H6") (Some "formula")
                              (Some "compound") (Some "cids") (Some "TXT") None []
                              (start slow_service))))
     = [2; 2].
Proof.
  destruct (get_asynchronous_protocol Script.World Script.urlopen Script.loads
              Script.repr 3 (JStr "C6H6") (Some "formula") (Some "compound")
              (Some "cids") (Some "TXT") None [] (start slow_service))
    as [_ Hanswer].
  { right. reflexivity. }
  edestruct Hanswer as [_ Hwaiting].
  - lazy. reflexivity.
  - lazy. reflexivity.
  - edestruct Hwaiting as [_ Hfinal].
    + reflexivity.
    + reflexivity.
    + eapply polls_again.
      * lazy. reflexivity.
      * lazy. reflexivity.
      * reflexivity.
      * eapply polls_last.
        -- lazy. reflexivity.
        -- lazy. reflexivity.
        -- reflexivity.
    + lia.
    + rewrite Hfinal by discriminate. vm_compute. repeat split.
Defined.

(** With the result at once, the payload of the first request is what the
    caller gets, whatever operation and output were asked for; the path of
    that request names no operation.  With two rounds of waiting for a
    substructure search, the operation is in the path of each polling
    request and of the final one, and in no other. *)
Lemma get_asynchronous_first_request_omits_operation_witness :
  scripted get 3%nat (JStr "C6H6") (Some "formula") (Some "compound")
           (Some "cids") (Some "TXT") None [] (start prompt_service)
  = (Return cids_payload,
     {| service := [];
        events :=
          [Debug "Request URL: %s"
                 (Some "https://pubchem.ncbi.nlm.nih.gov/rest/pug/compound/formula/C6H6/JSON");
           Debug "Request data: %s" None;
           Sent "https://pubchem.ncbi.nlm.nih.gov/rest/pug/compound/formula/C6H6/JSON"
                None] |})
  /\ requests_sent
       (events (snd (scripted get 3%nat (JStr "CCO") (Some "smiles") (Some "compound")
                              (Some "cids") (Some "TXT") (Some "substructure") []
                              (start slow_service))))
     = [("https://pubchem.ncbi.nlm.nih.gov/rest/pug/compound/substructure/smiles/JSON",
         Some "smiles=CCO");
        ("https://pubchem.ncbi.nlm.nih.gov/rest/pug/compound/listkey/777/cids/JSON",
         None);
        ("https://pubchem.ncbi.nlm.nih.gov/rest/pug/compound/listkey/777/cids/JSON",
         None);
        ("https://pubchem.ncbi.nlm.nih.gov/rest/pug/compound/substructure/listkey/777/cids/TXT",
         None)].
Proof.
  split.
  - assert (Ha : asynchronous (Some "formula") None) by (right; reflexivity).
    destruct (get_asynchronous_first_request_omits_operation Script.World
                Script.urlopen Script.loads Script.repr 3 (JStr "C6H6") "C6H6"
                (Some "formula") (Some "compound") None [] (start prompt_service)
                Ha eq_refl (Some "cids") (Some "TXT"))
      as (_ & _ & Hget).
    edestruct Hget as [Hnow _]; [lazy; reflexivity | lazy; reflexivity |].
    destruct Hnow as [Hnow _]; [reflexivity |].
    rewrite Hnow. reflexivity.
  - assert (Ha : asynchronous (Some "smiles") (Some "substructure")).
    { left. exists "substructure". split; [reflexivity | discriminate]. }
    destruct (get_asynchronous_first_request_omits_operation Script.World
                Script.urlopen Script.loads Script.repr 3 (JStr "CCO") "CCO"
                (Some "smiles") (Some "compound") (Some "substructure") []
                (start slow_service) Ha eq_refl (Some "cids") (Some "TXT"))
      as (_ & _ & Hget).
    edestruct Hget as [_ Hwaiting]; [lazy; reflexivity | lazy; reflexivity |].
    erewrite (Hwaiting (JStr "777") "777" 2%nat cids_payload).
    + reflexivity.
    + reflexivity.
    + reflexivity.
    + reflexivity.
    + eapply polls_again.
      * lazy. reflexivity.
      * lazy. reflexivity.
      * reflexivity.
      * eapply polls_last.
        -- lazy. reflexivity.
        -- lazy. reflexivity.
        -- reflexivity.
    + lia.
Defined.

(** Three entries labelled [Mass]: the first is not the exact mass, the
    second is and carries one more tag, the third is a later duplicate. *)
Definition mass_molecular : json :=
  JObj [("urn", JObj [("label", JStr "Mass"); ("name", JStr "Molecular")]);
        ("value", JObj [("fval", JInt 180)])].
Definition mass_exact : json :=
  JObj [("urn", JObj [("label", JStr "Mass"); ("name", JStr "Exact");
                      ("datatype", JInt 1)]);
        ("value", JObj [("sval", JStr "180.042")])].
Definition mass_later : json :=
  JObj [("urn", JObj [("label", JStr "Mass"); ("name", JStr "Exact")]);
        ("value", JObj [("sval", JStr "later")])].
Definition mass_entries : list json := [mass_molecular; mass_exact; mass_later].

Lemma parse_prop_first_match_witness :
  _parse_prop [("label", "Mass"); ("name", "Exact")] (JArr mass_entries)
  = Return (JStr "180.042")
  /\ _parse_prop [("label", "Mass"); ("name", "Monoisotopic")] (JArr mass_entries)
     = Return JNull.
Proof.
  assert (Hwf : Forall PropertyEntry mass_entries).
  { repeat constructor; eexists; reflexivity. }
  assert (Hno : forall search e, selected search e = false -> ~ entry_matches search e).
  { intros search e Hsel Hm. apply selected_spec in Hm. congruence. }
  split.
  - destruct (parse_prop_first_match [("label", "Mass"); ("name", "Exact")]
                mass_entries Hwf) as [Hfirst _].
    destruct (Hfirst [mass_molecular] mass_exact [mass_later]) as (v & Hv & ->).
    + reflexivity.
    + constructor; [| constructor]. apply Hno. reflexivity.
    + apply selected_spec. reflexivity.
    + cbn in Hv. now injection Hv as <-.
  - destruct (parse_prop_first_match [("label", "Mass"); ("name", "Monoisotopic")]
                mass_entries Hwf) as [_ Hnone].
    apply Hnone. repeat constructor; apply Hno; reflexivity.
Defined.



(** A name the service does not know: the answer is 404, the log gets
    the error, and the caller gets the empty list. *)
Lemma get_json_suppresses_NotFound_witness :
  scripted get_compounds 3%nat (JStr "unobtainium") (Some "name") None false []
           (start [HTTPError 404 "Not Found"
                     (Script.text "{'Fault':{'Details':['No CID found']}}")])
  = (Return (Entities []),
     {| service := [];
        events :=
          [Debug "Request URL: %s"
                 (Some "https://pubchem.ncbi.nlm.nih.gov/rest/pug/compound/name/JSON");
           Debug "Request data: %s" (Some "name=unobtainium");
           Sent "https://pubchem.ncbi.nlm.nih.gov/rest/pug/compound/name/JSON"
                (Some "name=unobtainium");
           Info (NotFoundError "Not Found: No CID found")] |}).
Proof.
  destruct (get_json_suppresses_NotFound Script.World Script.urlopen Script.loads
              Script.repr 3 (JStr "unobtainium") (Some "name") (Some "compound")
              None None []
              (start [HTTPError 404 "Not Found"
                        (Script.text "{'Fault':{'Details':['No CID found']}}")]))
    as (_ & _ & Hempty).
  erewrite Hempty; cycle 1.
  - intros [(s & H & _) | H]; discriminate.
  - lazy. reflexivity.
  - reflexivity.
Defined.

(** A compound built from a deposited substance: its record has an [id]
    but no [cid] below it. *)
Definition deposited : Compound :=
  mkCompound (JObj [("id", JObj [("type", JInt 0)])]) [].

Lemma memoized_accessors_without_cid_witness :
  Compound_cid deposited = Return JNull
  /\ scripted Compound_synonyms 3%nat deposited (start prompt_service)
     = (Return (JNull, mkCompound (Compound_record deposited) [("_synonyms", JNull)]),
        start prompt_service)
  /\ scripted Compound_sids 3%nat deposited (start prompt_service)
     = (Return (JNull, mkCompound (Compound_record deposited) [("_sids", JNull)]),
        start prompt_service)
  /\ scripted Compound_aids 3%nat deposited (start prompt_service)
     = (Return (JNull, mkCompound (Compound_record deposited) [("_aids", JNull)]),
        start prompt_service).
Proof.
  assert (Hcid : Compound_cid deposited = Return JNull) by reflexivity.
  destruct (memoized_accessors_without_cid Script.World Script.urlopen Script.loads
              Script.repr 3 deposited (start prompt_service) Hcid)
    as (Hsynonyms & Hsids & Haids).
  split; [exact Hcid |].
  split; [exact (Hsynonyms eq_refl) |].
  split; [exact (Hsids eq_refl) | exact (Haids eq_refl)].
Defined.

(** C5 as stated fails: on a compound without [cid] the accessor returns
    [None], which is not the empty sequence, although a reply was ready. *)
Lemma memoized_accessor_returns_None_not_empty :
  Compound_cid deposited = Return JNull
  /\ fst (scripted Compound_synonyms 3%nat deposited (start prompt_service))
     = Return (JNull, mkCompound (Compound_record deposited) [("_synonyms", JNull)])
  /\ py_eqb JNull (JArr []) = false
  /\ JNull <> JArr [].
Proof. repeat split; discriminate. Qed.

Lemma identity_accessors_on_missing_path_witness :
  Compound_cid deposited = Return JNull
  /\ Compound_cid (mkCompound (JObj [("id", JObj [("id", JObj [("cid", JInt 2244)])])]) [])
     = Return (JInt 2244)
  /\ Substance_sid (mkSubstance (JObj [("sid", JObj [("id", JInt 7)])]) [])
     = Return (JInt 7).
Proof.
  destruct identity_accessors_on_missing_path as (Hcid & Hsid & _).
  split; [| split].
  - rewrite Hcid; reflexivity.
  - rewrite Hcid; reflexivity.
  - exact (Hsid (mkSubstance (JObj [("sid", JObj [("id", JInt 7)])]) []) eq_refl).
Defined.

(** C9 as stated fails: on records without the identity path, which are
    nested objects all the same, [Substance.sid] and [Assay.aid] raise. *)
Lemma identity_accessors_raise_on_missing_path :
  lookup_path (JObj []) ["sid"; "id"] = None
  /\ Substance_sid (mkSubstance (JObj []) []) = Raise (KeyError (JStr "sid"))
  /\ lookup_path (JObj [("id", JObj [])]) ["id"; "id"; "aid"] = None
  /\ Assay_aid (mkAssay (JObj [("id", JObj [])])) = Raise (KeyError (JStr "id")).
Proof. repeat split. Qed.

(** The record of the specification's example: two atoms, the second one
    charged. *)
Definition two_atoms : Compound :=
  mkCompound
    (JObj [("atoms", JObj [("element", JArr [JStr "C"; JStr "O"]);
                           ("charge", JArr [JObj [("aid", JInt 1);
                                                  ("value", JInt (-1))]])]);
           ("coords", JArr [JObj [("conformers",
              JArr [JObj [("x", JArr [JFloat 0; JFloat 1]);
                          ("y", JArr [JFloat 0; JFloat 0])]])]])])
    [].

Lemma atoms_zip_and_overlay_witness :
  Compound_atoms two_atoms
  = Return (JArr [JObj [("x", JFloat 0); ("y", JFloat 0); ("element", JStr "C")];
                  JObj [("x", JFloat 1); ("y", JFloat 0); ("element", JStr "O");
                        ("charge", JInt (-1))]])
  /\ py_eqb (JArr [JObj [("x", JFloat 0); ("y", JFloat 0); ("element", JStr "C")];
                   JObj [("x", JFloat 1); ("y", JFloat 0); ("element", JStr "O");
                         ("charge", JInt (-1))]])
            (JArr [JObj [("element", JStr "C"); ("x", JFloat 0); ("y", JFloat 0)];
                   JObj [("element", JStr "O"); ("x", JFloat 1); ("y", JFloat 0);
                         ("charge", JInt (-1))]])
     = true.
Proof.
  split; [| reflexivity].
  assert (Hanns : Forall2 charge_annotation
                    [JObj [("aid", JInt 1); ("value", JInt (-1))]]
                    [(1%nat, JInt (-1))]).
  { repeat constructor. eexists. repeat split. }
  pose proof (atoms_zip_and_overlay two_atoms
                [("x", JArr [JFloat 0; JFloat 1]); ("y", JArr [JFloat 0; JFloat 0])]
                [("element", JArr [JStr "C"; JStr "O"]);
                 ("charge", JArr [JObj [("aid", JInt 1); ("value", JInt (-1))]])]
                [JFloat 0; JFloat 1] [JFloat 0; JFloat 0] [JStr "C"; JStr "O"]
                [JObj [("aid", JInt 1); ("value", JInt (-1))]]
                [(1%nat, JInt (-1))]
                eq_refl eq_refl eq_refl eq_refl eq_refl (or_intror eq_refl) Hanns)
    as [Hflat _].
  rewrite Hflat.
  - reflexivity.
  - reflexivity.
  - repeat constructor.
Defined.

(** C8 as stated fails: a record that numbers its atoms from 1, as the
    [aid] arrays of the service do, and charges both atoms.  The first
    annotation lands on the second atom, the second one is out of range:
    the accessor raises and returns no atom sequence. *)
Definition sodium_chloride : Compound :=
  mkCompound
    (JObj [("atoms", JObj [("aid", JArr [JInt 1; JInt 2]);
                           ("element", JArr [JInt 11; JInt 17]);
                           ("charge", JArr [JObj [("aid", JInt 1); ("value", JInt 1)];
                                            JObj [("aid", JInt 2);
                                                  ("value", JInt (-1))]])]);
           ("coords", JArr [JObj [("conformers",
              JArr [JObj [("x", JArr [JFloat 2; JFloat 4]);
                          ("y", JArr [JFloat 0; JFloat 0])]])]])])
    [].

Lemma atoms_raises_on_charge_of_last_atom :
  Compound_elements sodium_chloride = Return (JArr [JInt 11; JInt 17])
  /\ subscript (Compound_record sodium_chloride) (conformer ++ [K "x"])
     = Return (JArr [JFloat 2; JFloat 4])
  /\ subscript (Compound_record sodium_chloride) (conformer ++ [K "y"])
     = Return (JArr [JFloat 0; JFloat 0])
  /\ Compound_atoms sodium_chloride = Raise IndexError.
Proof. repeat split. Qed.

(** ** C4: what the default export touches *)

(** A complete record with identity, and a service ready to answer the
    three identifier-list operations. *)
Definition carbon_monoxide : Compound :=
  mkCompound
    (JObj [("id", JObj [("id", JObj [("cid", JInt 281)])]);
           ("atoms", JObj [("aid", JArr [JInt 1; JInt 2]);
                           ("element", JArr [JInt 8; JInt 6])]);
           ("bonds", JObj [("aid1", JArr [JInt 1]); ("aid2", JArr [JInt 2]);
                           ("order", JArr [JInt 3])]);
           ("coords", JArr [JObj [("type", JArr [JInt 1; JInt 5; JInt 255]);
                                  ("aid", JArr [JInt 1; JInt 2]);
                                  ("conformers",
                                   JArr [JObj [("x", JArr [JFloat 2; JFloat 3]);
                                               ("y", JArr [JFloat 0; JFloat 0])]])]]);
           ("charge", JInt 0);
           ("props", JArr [mass_molecular; mass_exact]);
           ("count", JObj [("heavy_atom", JInt 2)])])
    [].

Definition lists_service : Script.World :=
  [Response (Script.text "{'InformationList':{'Information':[{'CID':281,'AID':[1,2]}]}}");
   Response (Script.text "{'InformationList':{'Information':[{'CID':281,'SID':[7]}]}}");
   Response (Script.text
     "{'InformationList':{'Information':[{'CID':281,'Synonym':['carbon monoxide']}]}}")].

(** C4, as the code has it.  The default property list of [to_dict] is
    every member of the class that is an instance of [property], and the
    memoized accessors are such instances: [aids], [sids] and [synonyms]
    are on the default list of [Compound], and [aids] and [cids] on the
    one of [Substance].  Exporting a compound with identity by default
    therefore calls the service three times. *)
Theorem default_export_issues_requests :
  (forall World urlopen json_loads py_repr fuel,
      In "aids" (Compound_default_properties World urlopen json_loads py_repr fuel)
      /\ In "sids" (Compound_default_properties World urlopen json_loads py_repr fuel)
      /\ In "synonyms"
            (Compound_default_properties World urlopen json_loads py_repr fuel)
      /\ In "aids" (Substance_default_properties World urlopen json_loads py_repr fuel)
      /\ In "cids" (Substance_default_properties World urlopen json_loads py_repr fuel))
  /\ (exists d c st,
        scripted Compound_to_dict 3%nat carbon_monoxide None (start lists_service)
        = (Return (d, c), st)
        /\ dict_keys d = scripted Compound_default_properties 3%nat
        /\ requests_sent (events st)
           = [("https://pubchem.ncbi.nlm.nih.gov/rest/pug/compound/cid/aids/JSON",
               Some "cid=281");
              ("https://pubchem.ncbi.nlm.nih.gov/rest/pug/compound/cid/sids/JSON",
               Some "cid=281");
              ("https://pubchem.ncbi.nlm.nih.gov/rest/pug/compound/cid/synonyms/JSON",
               Some "cid=281")]).
Proof.
  split.
  - intros World urlopen json_loads py_repr fuel. cbv. tauto.
  - do 3 eexists. split; [vm_compute; reflexivity | split; vm_compute; reflexivity].
Qed.

(** ** Further examples *)

(** The first access to [aids] asks the service, the second does not. *)
Lemma memoized_second_access_witness :
  exists self' st',
    scripted Compound_aids 3%nat carbon_monoxide (start lists_service)
    = (Return (JArr [JInt 1; JInt 2], self'), st')
    /\ requests_sent (events st')
       = [("https://pubchem.ncbi.nlm.nih.gov/rest/pug/compound/cid/aids/JSON",
           Some "cid=281")]
    /\ scripted Compound_aids 3%nat self' st'
       = (Return (JArr [JInt 1; JInt 2], self'), st').
Proof.
  do 2 eexists. split; [vm_compute; reflexivity | split; [reflexivity |]].
  apply (memoized_second_access Script.World "aids" _ carbon_monoxide _
           (start lists_service)).
  vm_compute. reflexivity.
Defined.

(** An identifier full of reserved characters: none of them reaches the
    POST body as itself, and the slash of a source id becomes a dot. *)
Lemma transmitted_identifier_is_inert_witness :
  occurs "&" (transmitted (Some "name") "a&b=c d/e") = false
  /\ occurs "/" (transmitted (Some "sourceid") "VendorA/ID123") = false
  /\ transmitted (Some "name") "a&b=c d/e" = "a%26b%3Dc%20d/e"
  /\ transmitted (Some "sourceid") "VendorA/ID123" = "VendorA.ID123".
Proof.
  split; [| split; [| split; reflexivity]].
  - apply transmitted_identifier_is_inert;
      [reflexivity | discriminate | left; discriminate].
  - apply transmitted_identifier_is_inert;
      [reflexivity | discriminate | right; reflexivity].
Defined.

Definition fault_body : string := Script.text "{'Fault':{'Details':['No CID found']}}".

Lemma request_follows_reply_witness :
  scripted request (JInt 0) (Some "cid") (Some "compound") (Some "synonyms")
           (Some "JSON") None [] (start [HTTPError 404 "Not Found" fault_body])
  = (Raise (NotFoundError "Not Found: No CID found"),
     {| service := [];
        events :=
          [Debug "Request URL: %s"
                 (Some "https://pubchem.ncbi.nlm.nih.gov/rest/pug/compound/cid/synonyms/JSON");
           Debug "Request data: %s" (Some "cid=0");
           Sent "https://pubchem.ncbi.nlm.nih.gov/rest/pug/compound/cid/synonyms/JSON"
                (Some "cid=0")] |}).
Proof.
  erewrite (request_follows_reply Script.World Script.urlopen Script.loads Script.repr
              (JInt 0) "0" (Some "cid") (Some "compound") (Some "synonyms")
              (Some "JSON") None [] (start [HTTPError 404 "Not Found" fault_body]));
    cycle 1.
  - reflexivity.
  - lazy. reflexivity.
  - reflexivity.
Defined.

Lemma get_synchronous_single_request_witness :
  requests_sent
    (events (snd (scripted get 3%nat (JStr "aspirin") (Some "name") (Some "compound")
                           (Some "cids") (Some "TXT") None []
                           (start [Response "2244"]))))
  = [("https://pubchem.ncbi.nlm.nih.gov/rest/pug/compound/name/cids/TXT",
      Some "name=aspirin")].
Proof.
  destruct (get_synchronous_single_request Script.World Script.urlopen Script.loads
              Script.repr 3 (JStr "aspirin") "aspirin" (Some "name") (Some "compound")
              (Some "cids") (Some "TXT") None [] (start [Response "2244"]))
    as [_ Hevents].
  - intros [(s & H & _) | H]; discriminate.
  - reflexivity.
  - rewrite Hevents. reflexivity.
Defined.

(** A service that answers every request with the waiting indicator. *)
Definition stubborn (url : string) (data : option string) (w : unit) : reply * unit :=
  (Response waiting_payload, w).

Lemma get_polls_without_bound_witness :
  exists st',
    get unit stubborn Script.loads Script.repr 5 (JStr "C6H6") (Some "formula")
        (Some "compound") (Some "cids") (Some "JSON") None []
        {| service := tt; events := [] |}
    = (Diverge, st')
    /\ naps (events st') = 5%nat.
Proof.
  edestruct (get_polls_without_bound unit stubborn Script.loads Script.repr 5
               (JStr "C6H6") (Some "formula") (Some "compound") (Some "cids")
               (Some "JSON") None [] {| service := tt; events := [] |})
    as (st' & Hget & Hnaps).
  - right. reflexivity.
  - lazy. reflexivity.
  - lazy. reflexivity.
  - reflexivity.
  - reflexivity.
  - intros st. do 3 eexists. split; [| split].
    + unfold request, bind, lift, emit, send, ret, stubborn. cbn. reflexivity.
    + vm_compute. reflexivity.
    + reflexivity.
  - exists st'. split; [exact Hget | exact Hnaps].
Defined.

Lemma list_functions_empty_on_NotFound_witness :
  fst (scripted get_cids 3%nat (JStr "unobtainium") (Some "name") (Some "compound")
                None [] (start [HTTPError 404 "Not Found" fault_body]))
  = Return (JArr []).
Proof.
  destruct (list_functions_empty_on_NotFound Script.World Script.urlopen Script.loads
              Script.repr 3 (JStr "unobtainium") (Some "name") (Some "compound") None
              [] (start [HTTPError 404 "Not Found" fault_body])
              {| service := [];
                 events :=
                   [Debug "Request URL: %s"
                          (Some "https://pubchem.ncbi.nlm.nih.gov/rest/pug/compound/name/cids/JSON");
                    Debug "Request data: %s" (Some "name=unobtainium");
                    Sent "https://pubchem.ncbi.nlm.nih.gov/rest/pug/compound/name/cids/JSON"
                         (Some "name=unobtainium")] |}
              "Not Found: No CID found")
    as (_ & _ & _ & Hids & _).
  unfold get_cids. rewrite (Hids "cids" "CID"); reflexivity.
Defined.

(** An unknown name asked for by [from_cid] with the keyword
    [namespace]: the request is the one for that namespace and the error
    is the caller's.  An envelope without a record is an [IndexError]. *)
Lemma from_cid_lets_errors_through_witness :
  scripted Compound_from_cid (JStr "unobtainium") [("namespace", JStr "name")]
           (start [HTTPError 404 "Not Found" fault_body])
  = (Raise (NotFoundError "Not Found: No CID found"),
     {| service := [];
        events :=
          [Debug "Request URL: %s"
                 (Some "https://pubchem.ncbi.nlm.nih.gov/rest/pug/compound/name/JSON");
           Debug "Request data: %s" (Some "name=unobtainium");
           Sent "https://pubchem.ncbi.nlm.nih.gov/rest/pug/compound/name/JSON"
                (Some "name=unobtainium")] |})
  /\ fst (scripted Compound_from_cid (JInt 0) []
                   (start [Response (Script.text "{'PC_Compounds':[]}")]))
     = Raise IndexError.
Proof.
  split.
  - destruct (from_cid_lets_errors_through Script.World Script.urlopen Script.loads
                Script.repr (JStr "unobtainium") [("namespace", JStr "name")]
                (start [HTTPError 404 "Not Found" fault_body]) eq_refl eq_refl)
      as (_ & Hbound & _ & Herror & _).
    apply Herror.
    rewrite (Hbound (Some "name") (Some "compound") None (Some "JSON") None
               eq_refl eq_refl eq_refl eq_refl eq_refl eq_refl).
    reflexivity.
  - destruct (from_cid_lets_errors_through Script.World Script.urlopen Script.loads
                Script.repr (JInt 0) []
                (start [Response (Script.text "{'PC_Compounds':[]}")])
                eq_refl eq_refl) as (_ & _ & Hplain & _ & Hdoc).
    edestruct Hdoc as [Hempty _].
    + rewrite Hplain by (repeat constructor). lazy. reflexivity.
    + lazy. reflexivity.
    + rewrite Hempty; reflexivity.
Defined.

Lemma classify_body_not_an_object_witness :
  classify Script.loads Script.repr 404 "Not Found" "[]" = Some TypeError.
Proof.
  apply (classify_body_not_an_object Script.loads Script.repr 404 "Not Found" "[]"
           (JArr [])); [reflexivity | discriminate].
Defined.

(** A single atom has no bonds: the export that asks for them fails, the
    one that stays with the counters and the identity is local. *)
Definition helium : Compound :=
  mkCompound
    (JObj [("id", JObj [("id", JObj [("cid", JInt 23987)])]);
           ("atoms", JObj [("aid", JArr [JInt 1]); ("element", JArr [JInt 2])]);
           ("coords", JArr [JObj [("type", JArr [JInt 1; JInt 5; JInt 255]);
                                  ("aid", JArr [JInt 1]);
                                  ("conformers",
                                   JArr [JObj [("x", JArr [JFloat 2]);
                                               ("y", JArr [JFloat 0])]])]]);
           ("charge", JInt 0);
           ("props", JArr [mass_molecular; mass_exact]);
           ("count", JObj [("heavy_atom", JInt 1)])])
    [].

Lemma to_dict_stops_at_first_error_witness :
  scripted Compound_to_dict 3%nat helium (Some ["cid"; "bonds"; "charge"])
           (start lists_service)
  = (Raise (KeyError (JStr "bonds")), start lists_service)
  /\ scripted Compound_to_dict 3%nat helium (Some ["charge"; "sids"; "cid"])
              (start [HTTPError 500 "Internal Server Error" ""])
     = (Raise (ServerError "Internal Server Error"),
        {| service := [];
           events :=
             [Debug "Request URL: %s"
                    (Some "https://pubchem.ncbi.nlm.nih.gov/rest/pug/compound/cid/sids/JSON");
              Debug "Request data: %s" (Some "cid=23987");
              Sent "https://pubchem.ncbi.nlm.nih.gov/rest/pug/compound/cid/sids/JSON"
                   (Some "cid=23987")] |}).
Proof.
  split.
  - destruct (to_dict_stops_at_first_error Script.World Script.urlopen Script.loads
                Script.repr 3 helium helium ["cid"] "bonds" ["charge"]
                [("cid", VJson (JInt 23987))]
                (start lists_service) (start lists_service) eq_refl)
      as [Hplain _].
    apply (Hplain _ (KeyError (JStr "bonds")) eq_refl). reflexivity.
  - destruct (to_dict_stops_at_first_error Script.World Script.urlopen Script.loads
                Script.repr 3 helium helium ["charge"] "sids" ["cid"]
                [("charge", VJson (JInt 0))]
                (start [HTTPError 500 "Internal Server Error" ""])
                (start [HTTPError 500 "Internal Server Error" ""]) eq_refl)
      as [_ Hmemoized].
    apply (Hmemoized _ (ServerError "Internal Server Error") _ eq_refl eq_refl).
    reflexivity.
Defined.

Lemma to_dict_keys_witness :
  scripted Compound_to_dict 3%nat helium (Some ["cid"; "charge"; "cid"])
           (start lists_service)
  = (Return ([("cid", VJson (JInt 23987)); ("charge", VJson (JInt 0))], helium),
     start lists_service)
  /\ List.NoDup (dict_keys [("cid", VJson (JInt 23987)); ("charge", VJson (JInt 0))]).
Proof.
  assert (Hrun : scripted Compound_to_dict 3%nat helium
                          (Some ["cid"; "charge"; "cid"]) (start lists_service)
                 = (Return ([("cid", VJson (JInt 23987)); ("charge", VJson (JInt 0))],
                            helium),
                    start lists_service))
    by reflexivity.
  split; [exact Hrun |].
  destruct (to_dict_keys Script.World Script.urlopen Script.loads Script.repr 3
              (Some ["cid"; "charge"; "cid"])) as [Hcompound _].
  exact (proj2 (Hcompound _ _ _ _ _ Hrun)).
Defined.

Lemma to_dict_of_plain_properties_is_local_witness :
  snd (scripted Compound_to_dict 3%nat helium
                (Some ["cid"; "atoms"; "heavy_atom_count"; "exact_mass"])
                (start lists_service))
  = start lists_service.
Proof.
  apply to_dict_of_plain_properties_is_local; [discriminate | reflexivity].
Defined.

Lemma parse_prop_inspects_every_entry_witness :
  _parse_prop [("label", "Mass"); ("name", "Exact")]
              (JArr [mass_molecular; mass_exact; JObj [("value", JObj [])]; mass_later])
  = Raise (KeyError (JStr "urn")).
Proof.
  apply (parse_prop_inspects_every_entry [("label", "Mass"); ("name", "Exact")]
           [mass_molecular; mass_exact] [("value", JObj [])] [mass_later]).
  - discriminate.
  - repeat constructor; eexists; reflexivity.
  - reflexivity.
Defined.

Lemma count_accessors_total_witness :
  Compound_heavy_atom_count helium = Return (JInt 1)
  /\ Compound_isotope_atom_count helium = Return JNull
  /\ Compound_covalent_unit_count deposited = Return JNull.
Proof.
  split; [| split].
  - unfold Compound_heavy_atom_count. rewrite count_accessors_total; reflexivity.
  - unfold Compound_isotope_atom_count. rewrite count_accessors_total; reflexivity.
  - unfold Compound_covalent_unit_count. rewrite count_accessors_total; reflexivity.
Defined.

Lemma Substance_fetch_without_sid_witness :
  scripted Substance_cids 3%nat (mkSubstance (JObj []) []) (start lists_service)
  = (Raise (KeyError (JStr "sid")), start lists_service)
  /\ scripted Substance_aids 3%nat (mkSubstance (JObj []) []) (start lists_service)
     = (Raise (KeyError (JStr "sid")), start lists_service).
Proof.
  destruct (Substance_fetch_without_sid Script.World Script.urlopen Script.loads
              Script.repr 3 (mkSubstance (JObj []) []) (start lists_service)
              (KeyError (JStr "sid")) eq_refl) as [Hcids Haids].
  split; [exact (Hcids eq_refl) | exact (Haids eq_refl)].
Defined.

(** The two atoms of the specification's example with the charge noted
    under the 1-based id of the second atom. *)
Definition two_atoms_one_based : Compound :=
  mkCompound
    (JObj [("atoms", JObj [("element", JArr [JStr "C"; JStr "O"]);
                           ("charge", JArr [JObj [("aid", JInt 2);
                                                  ("value", JInt (-1))]])]);
           ("coords", JArr [JObj [("conformers",
              JArr [JObj [("x", JArr [JFloat 0; JFloat 1]);
                          ("y", JArr [JFloat 0; JFloat 0])]])]])])
    [].

Lemma atoms_charge_beyond_last_atom_witness :
  Compound_atoms two_atoms_one_based = Raise IndexError.
Proof.
  apply (atoms_charge_beyond_last_atom two_atoms_one_based
           [("x", JArr [JFloat 0; JFloat 1]); ("y", JArr [JFloat 0; JFloat 0])]
           [("element", JArr [JStr "C"; JStr "O"]);
            ("charge", JArr [JObj [("aid", JInt 2); ("value", JInt (-1))]])]
           [JFloat 0; JFloat 1] [JFloat 0; JFloat 0] [JStr "C"; JStr "O"]
           [] [] [("aid", JInt 2); ("value", JInt (-1))] [] 2 (JInt (-1)));
    try reflexivity.
  - constructor.
  - constructor.
Defined.

Lemma bonds_zip_witness :
  Compound_bonds carbon_monoxide
  = Return (JArr [JObj [("aid1", JInt 1); ("aid2", JInt 2); ("order", JInt 3)]])
  /\ Compound_bonds helium = Raise (KeyError (JStr "bonds")).
Proof.
  split.
  - destruct (bonds_zip carbon_monoxide _
                [("x", JArr [JFloat 2; JFloat 3]); ("y", JArr [JFloat 0; JFloat 0])]
                eq_refl) as [_ Hzip].
    rewrite (Hzip [JInt 1] [JInt 2] [JInt 3] eq_refl eq_refl eq_refl). reflexivity.
  - destruct (bonds_zip helium _ [] eq_refl) as [Hnone _].
    apply Hnone. reflexivity.
Defined.

Lemma get_properties_string_or_list_witness :
  scripted get_properties 3%nat (JStr "molecular_weight,InChIKey,xlogp") (JInt 2244)
           (Some "cid") None false [] (start [Response "{}"])
  = scripted get_properties 3%nat
             (JArr [JStr "molecular_weight"; JStr "InChIKey"; JStr "xlogp"])
             (JInt 2244) (Some "cid") None false [] (start [Response "{}"])
  /\ requests_sent
       (events (snd (scripted get_properties 3%nat
                              (JStr "molecular_weight,InChIKey,xlogp") (JInt 2244)
                              (Some "cid") None false [] (start [Response "{}"]))))
     = [("https://pubchem.ncbi.nlm.nih.gov/rest/pug/compound/cid/property/MolecularWeight,InChIKey,XLogP/JSON",
         Some "cid=2244")].
Proof.
  split; [| reflexivity].
  apply (get_properties_string_or_list Script.World Script.urlopen Script.loads
           Script.repr 3 ["molecular_weight"; "InChIKey"; "xlogp"]).
  repeat constructor.
Defined.

(** A substance whose only compound is the one as deposited. *)
Definition unstandardized : Substance :=
  mkSubstance
    (JObj [("sid", JObj [("id", JInt 7)]);
           ("compound", JArr [JObj [("id", JObj [("type", JStr "deposited")])]])])
    [].

Lemma Substance_without_standardized_compound_witness :
  Substance_standardized_cid unstandardized = Return JNull
  /\ scripted Substance_standardized_compound unstandardized
              (start lists_service)
     = (Return (VJson JNull,
                mkSubstance (Substance_record unstandardized)
                  [("_standardized_compound", VJson JNull)]),
        start lists_service).
Proof.
  destruct (Substance_without_standardized_compound Script.World Script.urlopen
              Script.loads Script.repr unstandardized _
              [JObj [("id", JObj [("type", JStr "deposited")])]]
              (start lists_service) eq_refl eq_refl) as [Hcid Hcompound].
  - repeat constructor. eexists. split; reflexivity.
  - split; [exact Hcid | exact (Hcompound eq_refl)].
Defined.
